(** * cloudwatch-observatory: the metrics pipeline of [backend/app.py]

    A shallow embedding of the collection, scoring and anomaly-detection
    pipeline of [src/backend/app.py], and the properties its design document
    states about it.

    Conventions of the embedding:
    - a Python [float] is an IEEE-754 binary64 number, that is a primitive
      [float] of Rocq; comparisons are the primitive ones, so the rounding of
      a literal such as [0.1] is the one Python performs;
    - a Python [int] is a [Z];
    - a statement that can raise is a function into [Py.result];
    - the SQLite file is a record of three tables, each a list of rows in
      rowid order; a REAL column holds [option float], [None] being NULL,
      and an INTEGER column a signed 64-bit number, [sqlite3] refusing to
      bind any other [int];
    - a decoded JSON document keeps its integers apart from its other
      numbers, as Python does;
    - what the code takes from a library (the HTTP client, the outlier model,
      numpy's reductions, the clock) is a [Variable] of a [Section]. *)

From Stdlib Require Import ZArith List String Ascii Bool Lia Sorted.
From Stdlib Require Import Floats DecimalString.
Import ListNotations.

#[local] Set Warnings "-inexact-float,-register-all".
#[local] Open Scope string_scope.
#[local] Open Scope Z_scope.

(* ================================================================= *)
(** ** The fragment of the Python runtime the code relies on *)

Module Py.

(** The exception classes that occur; all of them derive from [Exception]. *)
Inductive exn : Type :=
| KeyError
| IndexError
| ValueError
| TypeError
| OverflowError
| IntegrityError
| OperationalError
| RequestException
| AttributeError
| InterfaceError.

Inductive result (A : Type) : Type :=
| Ok (a : A)
| Raise (e : exn).
Arguments Ok {A} a.
Arguments Raise {A} e.

Definition bind {A B} (r : result A) (k : A -> result B) : result B :=
  match r with
  | Ok a => k a
  | Raise e => Raise e
  end.

(** [x or 0] on a nullable number: [None] and zero are falsy. *)
Definition or0 (x : option float) : float :=
  match x with
  | None => 0%float
  | Some v => if PrimFloat.eqb v 0%float then 0%float else v
  end.

(** [a > b] on floats. *)
Definition gt (a b : float) : bool := PrimFloat.ltb b a.

(** [int(x)] on a float: truncation towards zero; [nan] and the infinities
    have no integer. *)
Definition int (x : float) : result Z :=
  match Prim2SF x with
  | S754_nan => Raise ValueError
  | S754_infinity _ => Raise OverflowError
  | S754_zero _ => Ok 0
  | S754_finite s m e =>
      let a := Z.shiftl (Z.pos m) e in
      Ok (if s then - a else a)
  end.

(** The double nearest to an integer (an INTEGER cell in a float64 array). *)
Definition float_of_int (n : Z) : float :=
  SF2Prim (binary_normalize prec emax n 0 false).

(** [float(n)] on an [int]: the nearest double, and [OverflowError] when
    that is beyond the largest one. *)
Definition to_float (n : Z) : result float :=
  let x := float_of_int n in
  if PrimFloat.is_infinity x then Raise OverflowError else Ok x.

(** [sep.join(parts)]. *)
Definition join (sep : string) (parts : list string) : string :=
  String.concat sep parts.

(** [s.split(sep)] for a non-empty [sep]: the pieces between the
    non-overlapping occurrences of [sep], scanned from the left. [skip]
    counts the characters of a matched separator still to be passed over and
    [cur] is the piece being read. *)
Fixpoint split_from (sep : string) (skip : nat) (cur : string) (s : string)
  : list string :=
  match s with
  | EmptyString => [cur]
  | String c s' =>
      match skip with
      | S k => split_from sep k cur s'
      | O =>
          if String.prefix sep s
          then cur :: split_from sep (String.length sep - 1) EmptyString s'
          else split_from sep 0 (cur ++ String c EmptyString) s'
      end
  end.

Definition split (sep : string) (s : string) : list string :=
  split_from sep 0 EmptyString s.

Definition is_lower (c : ascii) : bool :=
  let n := nat_of_ascii c in (97 <=? n)%nat && (n <=? 122)%nat.
Definition is_upper (c : ascii) : bool :=
  let n := nat_of_ascii c in (65 <=? n)%nat && (n <=? 90)%nat.
Definition upper (c : ascii) : ascii :=
  if is_lower c then ascii_of_nat (nat_of_ascii c - 32) else c.
Definition lower (c : ascii) : ascii :=
  if is_upper c then ascii_of_nat (nat_of_ascii c + 32) else c.

Fixpoint map_string (f : ascii -> ascii) (s : string) : string :=
  match s with
  | EmptyString => EmptyString
  | String c s' => String (f c) (map_string f s')
  end.

(** [s.capitalize()] on ASCII text. *)
Definition capitalize (s : string) : string :=
  match s with
  | EmptyString => EmptyString
  | String c s' => String (upper c) (map_string lower s')
  end.

(** A decoded JSON document, as [response.json()] and [request.json] return
    it: a number written without fraction or exponent decodes to an [int],
    any other number to a [float]. *)
Inductive json : Type :=
| JNull
| JBool (b : bool)
| JInt (n : Z)
| JNum (x : float)
| JStr (s : string)
| JList (items : list json)
| JDict (fields : list (string * json)).

Fixpoint lookup (k : string) (fields : list (string * json)) : option json :=
  match fields with
  | [] => None
  | (k', v) :: rest => if String.eqb k' k then Some v else lookup k rest
  end.

(** [v[k]] for a string key [k]. *)
Definition getitem (v : json) (k : string) : result json :=
  match v with
  | JDict fields =>
      match lookup k fields with
      | Some x => Ok x
      | None => Raise KeyError
      end
  | _ => Raise TypeError
  end.

(** [v[i]] for a non-negative integer [i]. A decoded JSON object has string
    keys only, so an integer is never one of its keys. *)
Definition getindex (v : json) (i : nat) : result json :=
  match v with
  | JList items =>
      match nth_error items i with
      | Some x => Ok x
      | None => Raise IndexError
      end
  | JStr s =>
      match String.get i s with
      | Some c => Ok (JStr (String c EmptyString))
      | None => Raise IndexError
      end
  | JDict _ => Raise KeyError
  | _ => Raise TypeError
  end.

(** The truth value of [v] in a condition. *)
Definition truthy (v : json) : bool :=
  match v with
  | JNull => false
  | JBool b => b
  | JInt n => negb (n =? 0)
  | JNum x => negb (PrimFloat.eqb x 0%float)
  | JStr s => negb (String.eqb s EmptyString)
  | JList items => negb (Nat.eqb (List.length items) 0)
  | JDict fields => negb (Nat.eqb (List.length fields) 0)
  end.

(** [v == s] for a string literal [s]. *)
Definition eq_str (v : json) (s : string) : bool :=
  match v with
  | JStr s' => String.eqb s' s
  | _ => false
  end.

(** [v.get(k, default)]: only a JSON object decodes to a value that has the
    method. *)
Definition get (v : json) (k : string) (default : json) : result json :=
  match v with
  | JDict fields =>
      match lookup k fields with
      | Some x => Ok x
      | None => Ok default
      end
  | _ => Raise AttributeError
  end.

End Py.

Declare Scope py_scope.
Delimit Scope py_scope with py.
Notation "x <- c1 ;; c2" := (Py.bind c1 (fun x => c2))
  (at level 61, c1 at next level, right associativity) : py_scope.

(* ================================================================= *)
(** ** The persisted layout ([init_db]) *)

Module service_metrics.
Record row : Type := mk {
  id : Z;
  service_name : string;
  timestamp : string;
  request_rate : option float;
  error_rate : option float;
  latency_p50 : option float;
  latency_p95 : option float;
  latency_p99 : option float;
  cpu_usage : option float;
  memory_usage : option float;
  restart_count : Z;
  pod_count : Z
}.
End service_metrics.

Module metrics_anomalies.
Record row : Type := mk {
  id : Z;
  service_name : string;
  timestamp : string;
  anomaly_type : string;
  severity : string;
  anomaly_score : option float;
  affected_metrics : string;
  description : string;
  created_at : string
}.
End metrics_anomalies.

Module services.
Record row : Type := mk {
  id : Z;
  service_name : string;
  service_type : option string;
  status : string;
  created_at : string;
  last_seen : string
}.
End services.

(** The database file: the three tables, rows in rowid order, and the
    AUTOINCREMENT counter of each. *)
Record database : Type := mk_database {
  service_metrics_rows : list service_metrics.row;
  service_metrics_seq : Z;
  metrics_anomalies_rows : list metrics_anomalies.row;
  metrics_anomalies_seq : Z;
  services_rows : list services.row;
  services_seq : Z
}.

Definition empty_database : database :=
  mk_database [] 0 [] 0 [] 0.

(** The key of [UNIQUE(service_name, timestamp)]. *)
Definition metric_key (r : service_metrics.row) : string * string :=
  (service_metrics.service_name r, service_metrics.timestamp r).

Definition has_key (service_name timestamp : string)
  (r : service_metrics.row) : bool :=
  String.eqb (service_metrics.service_name r) service_name
  && String.eqb (service_metrics.timestamp r) timestamp.

(** The conflict clause of an INSERT: a plain INSERT aborts with
    [IntegrityError] when a UNIQUE key is taken, INSERT OR REPLACE deletes
    the rows that hold the key and then inserts. *)
Inductive conflict_clause : Type := OnConflictAbort | OnConflictReplace.

(** The values bound to the eleven placeholders of [store_metrics]. *)
Record metric_values : Type := mk_values {
  v_service_name : string;
  v_timestamp : string;
  v_request_rate : option float;
  v_error_rate : option float;
  v_latency_p50 : option float;
  v_latency_p95 : option float;
  v_latency_p99 : option float;
  v_cpu_usage : option float;
  v_memory_usage : option float;
  v_restart_count : Z;
  v_pod_count : Z
}.

Definition row_of_values (id : Z) (v : metric_values) : service_metrics.row :=
  service_metrics.mk id (v_service_name v) (v_timestamp v)
    (v_request_rate v) (v_error_rate v) (v_latency_p50 v) (v_latency_p95 v)
    (v_latency_p99 v) (v_cpu_usage v) (v_memory_usage v)
    (v_restart_count v) (v_pod_count v).

Definition set_service_metrics (db : database)
  (rows : list service_metrics.row) (seq : Z) : database :=
  mk_database rows seq (metrics_anomalies_rows db) (metrics_anomalies_seq db)
    (services_rows db) (services_seq db).

(** An INTEGER of SQLite is a signed 64-bit number. *)
Definition int64_min : Z := -9223372036854775808.
Definition int64_max : Z := 9223372036854775807.

Definition fits_int64 (n : Z) : bool := (int64_min <=? n) && (n <=? int64_max).

(** [INSERT [OR REPLACE] INTO service_metrics (...) VALUES (...)]. The
    values are bound before the statement runs, and [sqlite3] refuses to
    bind an [int] that is no signed 64-bit number, with [OverflowError]. *)
Definition insert_service_metrics (clause : conflict_clause)
  (v : metric_values) (db : database) : Py.result database :=
  let rows := service_metrics_rows db in
  let taken := has_key (v_service_name v) (v_timestamp v) in
  let id := service_metrics_seq db + 1 in
  if fits_int64 (v_restart_count v) && fits_int64 (v_pod_count v) then
    match clause with
    | OnConflictAbort =>
        if existsb taken rows then Py.Raise Py.IntegrityError
        else Py.Ok (set_service_metrics db (rows ++ [row_of_values id v]) id)
    | OnConflictReplace =>
        Py.Ok (set_service_metrics db
                 (filter (fun r => negb (taken r)) rows
                  ++ [row_of_values id v])
                 id)
    end
  else Py.Raise Py.OverflowError.

(** A float bound to a placeholder of a REAL column, as the column gives
    it back: SQLite stores NaN as NULL, and keeps a number without
    fraction, so also the negative zero, as an integer, which reads back
    as the positive zero. *)
Definition bind_real (x : float) : option float :=
  if PrimFloat.is_nan x then None
  else if PrimFloat.eqb x 0%float then Some 0%float
  else Some x.

(* ================================================================= *)
(** ** Health scorer *)

(** [calculate_health_score(metric_row)]: the row is one of
    [SELECT * FROM service_metrics], so index 4 is [error_rate], 6 is
    [latency_p95] and 8 is [cpu_usage]. *)
Definition calculate_health_score (metric_row : service_metrics.row) : Z :=
  let error_rate := Py.or0 (service_metrics.error_rate metric_row) in
  let latency_p95 := Py.or0 (service_metrics.latency_p95 metric_row) in
  let cpu_usage := Py.or0 (service_metrics.cpu_usage metric_row) in
  let score := 100 in
  let score :=
    if Py.gt error_rate 0.1 then score - 30
    else if Py.gt error_rate 0.05 then score - 15
    else if Py.gt error_rate 0.01 then score - 5
    else score in
  let score :=
    if Py.gt latency_p95 1000 then score - 25
    else if Py.gt latency_p95 500 then score - 15
    else if Py.gt latency_p95 200 then score - 5
    else score in
  let score :=
    if Py.gt cpu_usage 0.9 then score - 20
    else if Py.gt cpu_usage 0.7 then score - 10
    else score in
  Z.max 0 score.

Definition get_status_from_health (health_score : Z) : string :=
  if 90 <=? health_score then "healthy"
  else if 70 <=? health_score then "degraded"
  else if 50 <=? health_score then "warning"
  else "critical".

(** The scoring table of the design document, read literally: a bracket is a
    threshold with its penalty, a bracket matches when the reading exceeds
    the threshold, and the penalty of a metric is the worst (largest) one
    among its matching brackets, none matching giving no penalty. *)
Definition worst_matching (brackets : list (float * Z)) (x : float) : Z :=
  fold_right (fun b acc => if Py.gt x (fst b) then Z.max (snd b) acc else acc)
             0 brackets.

Definition error_rate_brackets : list (float * Z) :=
  [(0.10%float, 30); (0.05%float, 15); (0.01%float, 5)].
Definition latency_p95_brackets : list (float * Z) :=
  [(1000%float, 25); (500%float, 15); (200%float, 5)].
Definition cpu_usage_brackets : list (float * Z) :=
  [(0.90%float, 20); (0.70%float, 10)].

Definition table_score (metric_row : service_metrics.row) : Z :=
  Z.max 0
    (100
     - worst_matching error_rate_brackets
         (Py.or0 (service_metrics.error_rate metric_row))
     - worst_matching latency_p95_brackets
         (Py.or0 (service_metrics.latency_p95 metric_row))
     - worst_matching cpu_usage_brackets
         (Py.or0 (service_metrics.cpu_usage metric_row))).

(** A row that carries the three readings the scorer looks at. *)
Definition reading_row (e l c : float) : service_metrics.row :=
  service_metrics.mk 1 "svc" "2024-01-01T00:00:00"
    (Some 0%float) (Some e) (Some 0%float) (Some l) (Some 0%float)
    (Some c) (Some 0%float) 0 1.



(* ================================================================= *)
(** ** Statements with effects *)

(** A statement runs in a state, may change it, and returns or raises; what
    it changed before raising stays changed. *)
Definition M (S A : Type) : Type := S -> Py.result A * S.

Definition ret {S A} (a : A) : M S A := fun s => (Py.Ok a, s).
Definition raise {S A} (e : Py.exn) : M S A := fun s => (Py.Raise e, s).
Definition lift {S A} (r : Py.result A) : M S A := fun s => (r, s).

Definition mbind {S A B} (m : M S A) (k : A -> M S B) : M S B :=
  fun s =>
    match m s with
    | (Py.Ok a, s') => k a s'
    | (Py.Raise e, s') => (Py.Raise e, s')
    end.

(** [try: body except Exception as e: handler(e)]. *)
Definition try_except {S A} (body : M S A) (handler : Py.exn -> M S A)
  : M S A :=
  fun s =>
    match body s with
    | (Py.Ok a, s') => (Py.Ok a, s')
    | (Py.Raise e, s') => handler e s'
    end.

Declare Scope stmt_scope.
Delimit Scope stmt_scope with stmt.
Notation "x <- c1 ;; c2" := (mbind c1 (fun x => c2))
  (at level 61, c1 at next level, right associativity) : stmt_scope.
Notation "c1 ;; c2" := (mbind c1 (fun _ => c2))
  (at level 61, right associativity) : stmt_scope.

(** What the process reads and writes: the database file, and how many times
    the clock and the network have been consulted so far. *)
Record world : Type := mk_world {
  db : database;
  clock_reads : nat;
  http_calls : nat
}.

(** What the pipeline takes from outside: the clock, the HTTP client, the
    parser behind [float(str)], the outlier model and numpy's reductions. *)
Record environment : Type := mk_environment {
  (** the instant the [k]-th reading of the clock gives, in microseconds *)
  now : nat -> Z;
  (** [datetime.isoformat()] *)
  isoformat : Z -> string;
  (** the text of SQLite's CURRENT_TIMESTAMP at an instant *)
  current_timestamp : Z -> string;
  (** [requests.get(url, params={'query': q}).json()], for the [k]-th call *)
  requests_get_json : nat -> string -> string -> Py.result Py.json;
  (** [float(s)] on a string, [None] standing for [ValueError] *)
  float_of_str : string -> option float;
  (** [ECOD(contamination=0.1).fit(X)]: [decision_scores_] and [labels_] *)
  ECOD_fit : list (list float) -> Py.result (list float * list Z);
  (** [np.mean] and [np.std] of a column *)
  np_mean : list float -> float;
  np_std : list float -> float
}.

Definition PROMETHEUS_URL : string := "http://localhost:9090".

(* ================================================================= *)
(** ** Metrics collector *)

Module ServiceMetrics.
Record t : Type := mk {
  service_name : string;
  timestamp : Z;
  request_rate : float;
  error_rate : float;
  latency_p50 : float;
  latency_p95 : float;
  latency_p99 : float;
  cpu_usage : float;
  memory_usage : float;
  restart_count : Z;
  pod_count : Z
}.
End ServiceMetrics.

(** The character [U+0022], which the queries quote the service name with. *)
Definition dq : string := String (ascii_of_nat 34) EmptyString.

Section Pipeline.

Context (env : environment).

#[local] Open Scope stmt_scope.

Definition datetime_now : M world Z :=
  fun w =>
    (Py.Ok (now env (clock_reads w)),
     mk_world (db w) (S (clock_reads w)) (http_calls w)).

Definition error_response : Py.json :=
  Py.JDict [("status", Py.JStr "error");
            ("data", Py.JDict [("result", Py.JList [])])].

(** [PrometheusClient.query]: any exception of the request or of the
    decoding of its body is replaced by the error response. *)
Definition query (q : string) : M world Py.json :=
  fun w =>
    let w' := mk_world (db w) (clock_reads w) (S (http_calls w)) in
    match requests_get_json env (http_calls w)
            (PROMETHEUS_URL ++ "/api/v1/query") q with
    | Py.Ok response => (Py.Ok response, w')
    | Py.Raise _ => (Py.Ok error_response, w')
    end.

(** [float(v)] on a decoded JSON value. *)
Definition float_of_json (v : Py.json) : Py.result float :=
  match v with
  | Py.JNum x => Py.Ok x
  | Py.JInt n => Py.to_float n
  | Py.JBool b => Py.Ok (if b then 1%float else 0%float)
  | Py.JStr s =>
      match float_of_str env s with
      | Some x => Py.Ok x
      | None => Py.Raise Py.ValueError
      end
  | _ => Py.Raise Py.TypeError
  end.

(** The body of the [try] of [_extract_value]: [Some x] when it reaches
    [return float(...)], [None] when the condition is false. *)
Definition extract_try (response : Py.json) : Py.result (option float) :=
  (status <- Py.getitem response "status" ;;
   if Py.eq_str status "success" then
     data <- Py.getitem response "data" ;;
     result <- Py.getitem data "result" ;;
     if Py.truthy result then
       data <- Py.getitem response "data" ;;
       result <- Py.getitem data "result" ;;
       first <- Py.getindex result 0 ;;
       value <- Py.getitem first "value" ;;
       reading <- Py.getindex value 1 ;;
       x <- float_of_json reading ;;
       Py.Ok (Some x)
     else Py.Ok None
   else Py.Ok None)%py.

Definition _extract_value (response : Py.json) : Py.result float :=
  match extract_try response with
  | Py.Ok (Some x) => Py.Ok x
  | Py.Ok None => Py.Ok 0%float
  | Py.Raise Py.KeyError => Py.Ok 0%float
  | Py.Raise Py.IndexError => Py.Ok 0%float
  | Py.Raise Py.ValueError => Py.Ok 0%float
  | Py.Raise e => Py.Raise e
  end.

(** [self._extract_value(self.prom.query(q))]. *)
Definition read (q : string) : M world float :=
  response <- query q ;; lift (_extract_value response).

Definition selector (service_name : string) : string :=
  "{service=" ++ dq ++ service_name ++ dq ++ "}".

Definition collect_service_metrics (service_name : string)
  : M world ServiceMetrics.t :=
  let req_rate_query :=
    "rate(http_requests_total" ++ selector service_name ++ "[5m])" in
  req_rate <- read req_rate_query ;;
  let error_rate_query :=
    "rate(http_requests_total{service=" ++ dq ++ service_name ++ dq
    ++ ",status=~" ++ dq ++ "5.." ++ dq ++ "}[5m])" in
  error_rate <- read error_rate_query ;;
  let bucket :=
    "rate(http_request_duration_seconds_bucket" ++ selector service_name
    ++ "[5m]))" in
  let p50_query := "histogram_quantile(0.5, " ++ bucket in
  let p95_query := "histogram_quantile(0.95, " ++ bucket in
  let p99_query := "histogram_quantile(0.99, " ++ bucket in
  latency_p50 <- read p50_query ;;
  latency_p95 <- read p95_query ;;
  latency_p99 <- read p99_query ;;
  let cpu_query :=
    "rate(container_cpu_usage_seconds_total" ++ selector service_name
    ++ "[5m])" in
  let mem_query :=
    "container_memory_usage_bytes" ++ selector service_name in
  cpu_usage <- read cpu_query ;;
  memory_usage <- read mem_query ;;
  let restart_query :=
    "kube_pod_container_status_restarts_total" ++ selector service_name in
  let pod_count_query :=
    "count(kube_pod_info" ++ selector service_name ++ ")" in
  restart_reading <- read restart_query ;;
  restart_count <- lift (Py.int restart_reading) ;;
  pod_reading <- read pod_count_query ;;
  pod_count <- lift (Py.int pod_reading) ;;
  timestamp <- datetime_now ;;
  ret (ServiceMetrics.mk service_name timestamp req_rate error_rate
         latency_p50 latency_p95 latency_p99 cpu_usage memory_usage
         restart_count pod_count).

(** The tuple [store_metrics] binds to its statement. *)
Definition values_of_metrics (metrics : ServiceMetrics.t) : metric_values :=
  mk_values
    (ServiceMetrics.service_name metrics)
    (isoformat env (ServiceMetrics.timestamp metrics))
    (bind_real (ServiceMetrics.request_rate metrics))
    (bind_real (ServiceMetrics.error_rate metrics))
    (bind_real (ServiceMetrics.latency_p50 metrics))
    (bind_real (ServiceMetrics.latency_p95 metrics))
    (bind_real (ServiceMetrics.latency_p99 metrics))
    (bind_real (ServiceMetrics.cpu_usage metrics))
    (bind_real (ServiceMetrics.memory_usage metrics))
    (ServiceMetrics.restart_count metrics)
    (ServiceMetrics.pod_count metrics).

(** Run a statement of the database and commit what it wrote. *)
Definition execute (stmt : database -> Py.result database) : M world unit :=
  fun w =>
    match stmt (db w) with
    | Py.Ok db' => (Py.Ok tt, mk_world db' (clock_reads w) (http_calls w))
    | Py.Raise e => (Py.Raise e, w)
    end.

Definition store_metrics (metrics : ServiceMetrics.t) : M world unit :=
  execute (insert_service_metrics OnConflictReplace
             (values_of_metrics metrics)).

End Pipeline.

(* ================================================================= *)
(** ** Anomaly detector *)

(** The dict [detect_anomalies] builds for one anomaly. *)
Module Anomaly.
Record t : Type := mk {
  service_name : string;
  timestamp : string;
  anomaly_type : string;
  severity : string;
  anomaly_score : float;
  affected_metrics : string;
  description : string
}.
End Anomaly.

Definition metric_names : list string :=
  ["request_rate"; "error_rate"; "latency_p95"; "cpu_usage"; "memory_usage";
   "restart_count"].

(** The six columns [get_metric_features] selects, as SQLite returns them. *)
Definition feature_tuple (r : service_metrics.row) : list (option float) :=
  [service_metrics.request_rate r; service_metrics.error_rate r;
   service_metrics.latency_p95 r; service_metrics.cpu_usage r;
   service_metrics.memory_usage r;
   Some (Py.float_of_int (service_metrics.restart_count r))].

(** [ORDER BY timestamp DESC] on the TEXT column: insertion of each row
    before the first one whose timestamp is not greater. *)
Fixpoint insert_desc (r : service_metrics.row)
  (sorted : list service_metrics.row) : list service_metrics.row :=
  match sorted with
  | [] => [r]
  | r' :: rest =>
      if String.ltb (service_metrics.timestamp r')
                    (service_metrics.timestamp r)
      then r :: sorted
      else r' :: insert_desc r rest
  end.

Definition order_by_timestamp_desc (rows : list service_metrics.row)
  : list service_metrics.row :=
  fold_right insert_desc [] rows.

(** The rows of the SELECT of [get_metric_features]. *)
Definition select_window (service_name cutoff : string) (d : database)
  : list service_metrics.row :=
  order_by_timestamp_desc
    (filter (fun r =>
               String.eqb (service_metrics.service_name r) service_name
               && String.ltb cutoff (service_metrics.timestamp r))
            (service_metrics_rows d)).

(** [np.array(rows)] as a float64 matrix; a NULL cell makes it an array of
    objects instead, which the validation of its input by the model
    refuses. *)
Fixpoint float64_row (cells : list (option float)) : option (list float) :=
  match cells with
  | [] => Some []
  | None :: _ => None
  | Some x :: rest =>
      match float64_row rest with
      | Some xs => Some (x :: xs)
      | None => None
      end
  end.

Fixpoint float64 (rows : list (list (option float)))
  : option (list (list float)) :=
  match rows with
  | [] => Some []
  | r :: rest =>
      match float64_row r, float64 rest with
      | Some x, Some xs => Some (x :: xs)
      | _, _ => None
      end
  end.

(** [features[:, i]]. *)
Definition column (i : nat) (features : list (list float)) : list float :=
  map (fun row => nth i row 0%float) features.

Definition microseconds_per_hour : Z := 3600 * 1000000.

(** The severity brackets of [detect_anomalies]. *)
Definition severity_of (score : float) : string :=
  if Py.gt score 0.9 then "critical"
  else if Py.gt score 0.7 then "high"
  else if Py.gt score 0.5 then "medium"
  else "low".

(** The position of a severity on the scale [low < medium < high < critical]. *)
Definition severity_rank (severity : string) : nat :=
  if String.eqb severity "critical" then 3
  else if String.eqb severity "high" then 2
  else if String.eqb severity "medium" then 1
  else 0.

Definition _generate_description (severity : string)
  (affected_metrics : list string) : string :=
  match affected_metrics with
  | [] => Py.capitalize severity ++ " anomaly detected in service behavior"
  | _ =>
      let metrics_str := Py.join ", " affected_metrics in
      Py.capitalize severity ++ " anomaly: unusual patterns in " ++ metrics_str
  end.

(** [INSERT INTO metrics_anomalies (...) VALUES (...)]: no UNIQUE key besides
    the generated id, and [created_at] takes its default. *)
Definition insert_metrics_anomalies (created_at : string) (a : Anomaly.t)
  (d : database) : Py.result database :=
  let id := metrics_anomalies_seq d + 1 in
  let r :=
    metrics_anomalies.mk id (Anomaly.service_name a) (Anomaly.timestamp a)
      (Anomaly.anomaly_type a) (Anomaly.severity a)
      (bind_real (Anomaly.anomaly_score a)) (Anomaly.affected_metrics a)
      (Anomaly.description a) created_at in
  Py.Ok (mk_database (service_metrics_rows d) (service_metrics_seq d)
           (metrics_anomalies_rows d ++ [r]) id
           (services_rows d) (services_seq d)).

Section Detector.

Context (env : environment).

#[local] Open Scope stmt_scope.

Definition get_metric_features (service_name : string) (hours : Z)
  : M world (list (list (option float))) :=
  t <- datetime_now env ;;
  let cutoff_time := t - hours * microseconds_per_hour in
  fun w =>
    let rows :=
      map feature_tuple
        (select_window service_name (isoformat env cutoff_time) (db w)) in
    match rows with
    | [] => (Py.Ok [], w)
    | _ => (Py.Ok rows, w)
    end.

(** The inner loop of [detect_anomalies] over
    [enumerate(zip(metric_names, feature_vector))], from index [i] on. *)
Fixpoint affected_from (features : list (list float)) (i : nat)
  (named : list (string * float)) (affected_metrics : list string)
  : list string :=
  match named with
  | [] => affected_metrics
  | (metric_name, value) :: rest =>
      let metric_mean := np_mean env (column i features) in
      let metric_std := np_std env (column i features) in
      if Py.gt (PrimFloat.abs (value - metric_mean)) (2 * metric_std)
      then affected_from features (S i) rest (affected_metrics ++ [metric_name])
      else affected_from features (S i) rest affected_metrics
  end.

Definition affected_of (features : list (list float))
  (feature_vector : list float) : list string :=
  affected_from features 0 (combine metric_names feature_vector) [].

Definition _store_anomaly (anomaly : Anomaly.t) : M world unit :=
  t <- datetime_now env ;;
  execute (insert_metrics_anomalies (current_timestamp env t) anomaly).

(** The loop of [detect_anomalies] over
    [enumerate(zip(recent_scores, recent_predictions))], from index [idx]
    on, with the list [anomalies] built so far. *)
Fixpoint detect_loop (service_name : string) (features : list (list float))
  (recent_features : list (list float)) (idx : nat)
  (scored : list (float * Z)) (anomalies : list Anomaly.t)
  : M world (list Anomaly.t) :=
  match scored with
  | [] => ret anomalies
  | (score, is_anomaly) :: rest =>
      if is_anomaly =? 1 then
        let severity := severity_of score in
        match nth_error recent_features idx with
        | None => raise Py.IndexError
        | Some feature_vector =>
            let affected_metrics := affected_of features feature_vector in
            t <- datetime_now env ;;
            let anomaly :=
              Anomaly.mk service_name (isoformat env t) "metric_deviation"
                severity score (Py.join ", " affected_metrics)
                (_generate_description severity affected_metrics) in
            _store_anomaly anomaly ;;
            detect_loop service_name features recent_features (S idx) rest
              (anomalies ++ [anomaly])
        end
      else
        detect_loop service_name features recent_features (S idx) rest
          anomalies
  end.

Definition detect_anomalies (service_name : string)
  : M world (list Anomaly.t) :=
  features <- get_metric_features service_name 24 ;;
  if (List.length features <? 10)%nat then ret []
  else
    match float64 features with
    | None => raise Py.ValueError
    | Some X =>
        fitted <- lift (ECOD_fit env X) ;;
        let scores := fst fitted in
        let predictions := snd fitted in
        let recent_features := firstn 5 X in
        let recent_scores := firstn 5 scores in
        let recent_predictions := firstn 5 predictions in
        detect_loop service_name X recent_features 0
          (combine recent_scores recent_predictions) []
    end.

End Detector.

(** The [affected_metrics] entry [get_anomalies] returns for a stored row:
    [row[6].split(', ') if row[6] else []]. *)
Definition read_affected_metrics (r : metrics_anomalies.row) : list string :=
  if String.eqb (metrics_anomalies.affected_metrics r) EmptyString
  then []
  else Py.split ", " (metrics_anomalies.affected_metrics r).

(* ================================================================= *)
(** ** Scheduler *)

(** What [background_collector] prints, and its waits. *)
Inductive event : Type :=
| PrintCollectError (service_name : string) (e : Py.exn)
| PrintBackgroundError (e : Py.exn)
| Sleep (seconds : Z).

(** The four operations one tick runs, over any state [W]: the query of the
    active services, and [collect_service_metrics], [store_metrics] and
    [detect_anomalies]. Each may change the state and may raise. *)
Record operations (W : Type) : Type := mk_operations {
  active_services : M W (list string);
  collect : string -> M W ServiceMetrics.t;
  store : ServiceMetrics.t -> M W unit;
  detect : string -> M W (list Anomaly.t)
}.
Arguments active_services {W} o.
Arguments collect {W} o.
Arguments store {W} o.
Arguments detect {W} o.

(** Where a [while True] loop stands once its fuel is spent: still looping,
    or left by an exception. *)
Inductive loop_state (S : Type) : Type :=
| Looping (s : S)
| Escaped (e : Py.exn) (s : S).
Arguments Looping {S} s.
Arguments Escaped {S} e s.

Section Scheduler.

Context {W : Type} (ops : operations W).

#[local] Open Scope stmt_scope.

(** The scheduler's state: the state of the operations and the output. *)
Definition sched : Type := W * list event.

Definition emit (ev : event) : M sched unit :=
  fun s => (Py.Ok tt, (fst s, (snd s ++ [ev])%list)).

Definition on_world {A} (m : M W A) : M sched A :=
  fun s => let (r, w') := m (fst s) in (r, (w', snd s)).

(** The body of the inner [try]. *)
Definition process (service_name : string) : M sched unit :=
  metrics <- on_world (collect ops service_name) ;;
  on_world (store ops metrics) ;;
  _ <- on_world (detect ops service_name) ;;
  ret tt.

(** One pass of [for service_name in services] with its [try]/[except]. *)
Definition guarded (service_name : string) : M sched unit :=
  try_except (process service_name)
    (fun e => emit (PrintCollectError service_name e)).

Fixpoint for_services (services : list string) : M sched unit :=
  match services with
  | [] => ret tt
  | service_name :: rest => guarded service_name ;; for_services rest
  end.

(** The body of [while True]. *)
Definition tick : M sched unit :=
  try_except
    (services <- on_world (active_services ops) ;;
     for_services services ;;
     emit (Sleep 60))
    (fun e => emit (PrintBackgroundError e) ;; emit (Sleep 60)).

(** [background_collector], run for at most [fuel] passes of its loop. *)
Fixpoint background_collector (fuel : nat) (s : sched) : loop_state sched :=
  match fuel with
  | O => Looping s
  | S fuel' =>
      match tick s with
      | (Py.Ok _, s') => background_collector fuel' s'
      | (Py.Raise e, s') => Escaped e s'
      end
  end.

End Scheduler.

(** The scheduler of the application: the operations are those above, and
    the active services are read from the registry. *)
Definition select_active_services : M world (list string) :=
  fun w =>
    (Py.Ok (map services.service_name
              (filter (fun r => String.eqb (services.status r) "active")
                      (services_rows (db w)))),
     w).

Definition pipeline (env : environment) : operations world :=
  mk_operations world select_active_services (collect_service_metrics env)
    (store_metrics env) (detect_anomalies env).

(* ================================================================= *)
(** ** A reference environment

    Readings of the outside world to evaluate the pipeline on: a clock that
    advances one second per reading, timestamps printed as a fixed-width
    count of seconds, and the textbook reductions [mean = sum / n] and
    [std = sqrt (mean ((x - mean)^2))] summed from the left. On the windows
    used below every sum is exact in binary64, so the order of summation
    does not matter. *)

Definition digit (n : Z) : ascii := ascii_of_nat (48 + Z.to_nat (n mod 10)).

Fixpoint digits (width : nat) (n : Z) (acc : string) : string :=
  match width with
  | O => acc
  | S k => digits k (n / 10) (String (digit n) acc)
  end.

Definition ref_isoformat (t : Z) : string := digits 12 (t / 1000000) EmptyString.

Definition fsum (xs : list float) : float :=
  fold_left PrimFloat.add xs 0%float.

Definition ref_mean (xs : list float) : float :=
  (fsum xs / Py.float_of_int (Z.of_nat (List.length xs)))%float.

Definition ref_std (xs : list float) : float :=
  let m := ref_mean xs in
  PrimFloat.sqrt
    (ref_mean (map (fun x => ((x - m) * (x - m))%float) xs)).

(** An outlier model that labels the observations at the given positions
    and scores every labelled one alike. *)
Definition ref_fit (labelled : list nat) (score : float)
  (X : list (list float)) : Py.result (list float * list Z) :=
  Py.Ok (map (fun i => if existsb (Nat.eqb i) labelled then score else 0%float)
             (seq 0 (List.length X)),
         map (fun i => if existsb (Nat.eqb i) labelled then 1 else 0)
             (seq 0 (List.length X))).

Definition ref_env (labelled : list nat) (score : float) : environment :=
  mk_environment
    (fun k => 1000000 * (1000000 + Z.of_nat k))
    ref_isoformat ref_isoformat
    (fun _ _ _ => Py.Raise Py.RequestException)
    (fun _ => None)
    (ref_fit labelled score) ref_mean ref_std.

(* ================================================================= *)
(** ** Vocabulary of the statements

    The invariants, outcomes and sample inputs the properties below are
    stated with. *)

(** At most one metric record per (entity, timestamp) pair. *)
Definition key_invariant (d : database) : Prop :=
  NoDup (map metric_key (service_metrics_rows d)).

(** The key a record is stored under. *)
Definition metrics_key (env : environment) (m : ServiceMetrics.t)
  : string * string :=
  (ServiceMetrics.service_name m, isoformat env (ServiceMetrics.timestamp m)).

(** The rows of the metrics table that hold a key. *)
Definition rows_with_key (k : string * string) (d : database)
  : list service_metrics.row :=
  filter (has_key (fst k) (snd k)) (service_metrics_rows d).

(** A record of one entity at one instant, with the given cpu_usage. *)
Definition sample_metrics (cpu : float) : ServiceMetrics.t :=
  ServiceMetrics.mk "api-gateway" 1700000000000000 120 0.01 80 150 300 cpu
    1048576 0 3.

(** A record of the same entity and instant whose restart count is 2^63,
    what [int] makes of a reading of 9223372036854775808. *)
Definition overflowing_metrics (cpu : float) : ServiceMetrics.t :=
  ServiceMetrics.mk "api-gateway" 1700000000000000 120 0.01 80 150 300 cpu
    1048576 9223372036854775808 3.

(** Both counts of a record are signed 64-bit numbers. *)
Definition counts_fit (m : ServiceMetrics.t) : Prop :=
  - 2 ^ 63 <= ServiceMetrics.restart_count m < 2 ^ 63
  /\ - 2 ^ 63 <= ServiceMetrics.pod_count m < 2 ^ 63.

(** A REAL cell holds a reading: NULL for a NaN, and otherwise a number
    equal to it (the two zeros are equal). *)
Definition stored_real (x : float) (cell : option float) : Prop :=
  if PrimFloat.is_nan x then cell = None
  else exists y, cell = Some y /\ PrimFloat.eqb x y = true.

(** A row of the metrics table holds a record: its name, its timestamp as
    text, its seven readings and its two counts. *)
Definition holds_record (env : environment) (m : ServiceMetrics.t)
  (r : service_metrics.row) : Prop :=
  service_metrics.service_name r = ServiceMetrics.service_name m
  /\ service_metrics.timestamp r = isoformat env (ServiceMetrics.timestamp m)
  /\ stored_real (ServiceMetrics.request_rate m)
       (service_metrics.request_rate r)
  /\ stored_real (ServiceMetrics.error_rate m) (service_metrics.error_rate r)
  /\ stored_real (ServiceMetrics.latency_p50 m)
       (service_metrics.latency_p50 r)
  /\ stored_real (ServiceMetrics.latency_p95 m)
       (service_metrics.latency_p95 r)
  /\ stored_real (ServiceMetrics.latency_p99 m)
       (service_metrics.latency_p99 r)
  /\ stored_real (ServiceMetrics.cpu_usage m) (service_metrics.cpu_usage r)
  /\ stored_real (ServiceMetrics.memory_usage m)
       (service_metrics.memory_usage r)
  /\ service_metrics.restart_count r = ServiceMetrics.restart_count m
  /\ service_metrics.pod_count r = ServiceMetrics.pod_count m.

(** A fresh database, with the clock and the network not yet consulted. *)
Definition empty_world : world := mk_world empty_database 0 0.

(** The window [detect_anomalies] loads in a world: the feature tuples of
    the entity's rows later than the cut-off, most recent first. *)
Definition window (env : environment) (service_name : string) (w : world)
  : list (list (option float)) :=
  map feature_tuple
    (select_window service_name
       (isoformat env (now env (clock_reads w) - 24 * microseconds_per_hour))
       (db w)).

(** The positions and scores of the observations labelled anomalous among
    the paired scores and labels, positions counted from [idx]. *)
Fixpoint labelled_from (idx : nat) (scored : list (float * Z))
  : list (nat * float) :=
  match scored with
  | [] => []
  | (score, is_anomaly) :: rest =>
      if is_anomaly =? 1 then (idx, score) :: labelled_from (S idx) rest
      else labelled_from (S idx) rest
  end.

(** The observations a detection reports on, given the scores and labels
    of the model: the positions among the first five of the window whose
    label is 1, in increasing order, each with its score. *)
Definition labelled_observations (scores : list float)
  (predictions : list Z) (observations : list (nat * float)) : Prop :=
  StronglySorted lt (map fst observations)
  /\ forall i score,
       In (i, score) observations
       <-> (i < 5)%nat
           /\ nth_error scores i = Some score
           /\ nth_error predictions i = Some 1.

(** The anomaly record of the observation at a position of the window [X]
    with a score. *)
Definition reports (env : environment) (service_name : string)
  (X : list (list float)) (obs : nat * float) (a : Anomaly.t) : Prop :=
  exists feature_vector,
    nth_error X (fst obs) = Some feature_vector
    /\ Anomaly.service_name a = service_name
    /\ Anomaly.anomaly_type a = "metric_deviation"
    /\ Anomaly.anomaly_score a = snd obs
    /\ Anomaly.severity a = severity_of (snd obs)
    /\ Anomaly.affected_metrics a
       = Py.join ", " (affected_of env X feature_vector)
    /\ Anomaly.description a
       = _generate_description (severity_of (snd obs))
           (affected_of env X feature_vector).

(** A row of the anomaly table holds an anomaly record. *)
Definition persisted (a : Anomaly.t) (r : metrics_anomalies.row) : Prop :=
  metrics_anomalies.service_name r = Anomaly.service_name a
  /\ metrics_anomalies.timestamp r = Anomaly.timestamp a
  /\ metrics_anomalies.anomaly_type r = Anomaly.anomaly_type a
  /\ metrics_anomalies.severity r = Anomaly.severity a
  /\ metrics_anomalies.anomaly_score r = bind_real (Anomaly.anomaly_score a)
  /\ metrics_anomalies.affected_metrics r = Anomaly.affected_metrics a
  /\ metrics_anomalies.description r = Anomaly.description a.

(** How a call of [detect_anomalies] in the world [w] can end. *)
Inductive detect_outcome (env : environment) (service_name : string)
  (w : world) : Py.result (list Anomaly.t) * world -> Prop :=
| too_few :
    (List.length (window env service_name w) < 10)%nat ->
    detect_outcome env service_name w
      (Py.Ok [], mk_world (db w) (S (clock_reads w)) (http_calls w))
| not_numeric :
    (10 <= List.length (window env service_name w))%nat ->
    float64 (window env service_name w) = None ->
    detect_outcome env service_name w
      (Py.Raise Py.ValueError,
       mk_world (db w) (S (clock_reads w)) (http_calls w))
| fit_raised X e :
    (10 <= List.length (window env service_name w))%nat ->
    float64 (window env service_name w) = Some X ->
    ECOD_fit env X = Py.Raise e ->
    detect_outcome env service_name w
      (Py.Raise e, mk_world (db w) (S (clock_reads w)) (http_calls w))
| detected X scores predictions anomalies stored w' :
    (10 <= List.length (window env service_name w))%nat ->
    float64 (window env service_name w) = Some X ->
    ECOD_fit env X = Py.Ok (scores, predictions) ->
    Forall2 (reports env service_name X)
      (labelled_from 0 (combine (firstn 5 scores) (firstn 5 predictions)))
      anomalies ->
    Forall2 persisted anomalies stored ->
    metrics_anomalies_rows (db w')
    = (metrics_anomalies_rows (db w) ++ stored)%list ->
    service_metrics_rows (db w') = service_metrics_rows (db w) ->
    detect_outcome env service_name w (Py.Ok anomalies, w').

(** The comparison of two finite binary64 numbers of the same sign, given
    by exponent and mantissa: the lexicographic one. *)
Definition lex (e1 : Z) (m1 : positive) (e2 : Z) (m2 : positive)
  : comparison :=
  match e1 ?= e2 with
  | Eq => Pos.compare_cont Eq m1 m2
  | Lt => Lt
  | Gt => Gt
  end.

(** A window with one outlying reading: sixteen records of one entity, one
    second apart, alike but for the cpu_usage of the latest, and an outlier
    model that labels the latest observation with score 0.95. Every reading
    is a dyadic number, so the sums behind the means and the deviations are
    exact. *)
Definition demo_metrics (i : Z) (cpu : float) : ServiceMetrics.t :=
  ServiceMetrics.mk "svc-a" (1000000 * (999000 + i)) 100 0.25 64 128 256
    cpu 1048576 0 3.

(** Fifteen records with cpu_usage 0.5, then the latest with 16.5. *)
Definition demo_history : list ServiceMetrics.t :=
  (map (fun i => demo_metrics (Z.of_nat i) 0.5) (seq 0 15)
   ++ [demo_metrics 15 16.5])%list.

(** The reference environment whose model labels the latest observation. *)
Definition demo_env : environment := ref_env [0%nat] 0.95.

(** [store_metrics] on each record of a history, in order. *)
Definition store_all (env : environment) (history : list ServiceMetrics.t)
  (w : world) : world :=
  fold_left (fun w m => snd (store_metrics env m w)) history w.

(** The world after the history has been stored in an empty database. *)
Definition demo_world : world := store_all demo_env demo_history empty_world.



(** The order [ORDER BY timestamp DESC] puts two neighbouring rows in. *)
Definition newer_first (r r' : service_metrics.row) : Prop :=
  String.leb (service_metrics.timestamp r') (service_metrics.timestamp r)
  = true.

(** The world after only the first nine records have been stored. *)
Definition nine_records_world : world :=
  store_all demo_env (firstn 9 demo_history) empty_world.

(** Ten records of one entity, one second apart, whose latency_p95 was
    collected as a NaN, and the world after they have been stored. *)
Definition nan_history : list ServiceMetrics.t :=
  map (fun i =>
         ServiceMetrics.mk "svc-a" (1000000 * (999000 + Z.of_nat i)) 100 0.25
           64 PrimFloat.nan 256 0.5 1048576 0 3)
      (seq 0 10).

Definition nan_world : world := store_all demo_env nan_history empty_world.

(** The anomaly [detect_anomalies] returns on that window. *)
Definition demo_anomaly : Anomaly.t :=
  Anomaly.mk "svc-a" "000001000001" "metric_deviation" "critical" 0.95
    "cpu_usage" "Critical anomaly: unusual patterns in cpu_usage".

(** The float64 matrix of the window with one outlying cpu_usage. *)
Definition demo_X : list (list float) :=
  Eval vm_compute in
    match float64 (window demo_env "svc-a" demo_world) with
    | Some X => X
    | None => []
    end.

(** A name with no comma in it. *)
Fixpoint no_comma (s : string) : bool :=
  match s with
  | EmptyString => true
  | String c s' => negb (Ascii.eqb c ",") && no_comma s'
  end.

(** A well-formed success response whose reading is the given JSON value:
    [{"status": "success", "data": {"result": [{"metric": {}, "value":
    [1700000000.0, reading]}]}}]. *)
Definition response_with (reading : Py.json) : Py.json :=
  Py.JDict
    [("status", Py.JStr "success");
     ("data",
      Py.JDict
        [("resultType", Py.JStr "vector");
         ("result",
          Py.JList
            [Py.JDict
               [("metric", Py.JDict []);
                ("value", Py.JList [Py.JNum 1700000000; reading])]])])].

(** A metric source that answers every query with the given reading;
    [float] reads the text [NaN] as a NaN and refuses any other text. *)
Definition source_env (reading : Py.json) : environment :=
  mk_environment
    (fun k => 1000000 * (1000000 + Z.of_nat k))
    ref_isoformat ref_isoformat
    (fun _ _ _ => Py.Ok (response_with reading))
    (fun s => if String.eqb s "NaN" then Some PrimFloat.nan else None)
    (ref_fit [] 0) ref_mean ref_std.

(** A world whose registry lists two active entities. *)
Definition two_services_world : world :=
  mk_world
    (mk_database [] 0 [] 0
       [services.mk 1 "svc-a" (Some "microservice") "active"
          "2024-01-01 00:00:00" "2024-01-01T00:00:00";
        services.mk 2 "svc-b" (Some "microservice") "active"
          "2024-01-01 00:00:00" "2024-01-01T00:00:00"]
       2)
    0 0.

Section SchedulerVocabulary.

Context {W : Type} (ops : operations W).

#[local] Open Scope stmt_scope.

(** Collection, storage and detection for one entity, on the state of the
    operations. *)
Definition run_entity (service_name : string) : M W unit :=
  metrics <- collect ops service_name ;;
  store ops metrics ;;
  _ <- detect ops service_name ;;
  ret tt.

(** What a failed entity leaves in the output. *)
Definition entity_events (service_name : string) (r : Py.result unit)
  : list event :=
  match r with
  | Py.Ok _ => []
  | Py.Raise e => [PrintCollectError service_name e]
  end.

(** Every listed entity run in turn, each from the state its predecessor
    left, whether that one returned or raised. *)
Fixpoint after_services (services : list string) (w : W) : W * list event :=
  match services with
  | [] => (w, [])
  | service_name :: rest =>
      let (r, w1) := run_entity service_name w in
      let (w2, evs) := after_services rest w1 in
      (w2, (entity_events service_name r ++ evs)%list)
  end.

(** The number of waits in the output. *)
Definition sleeps (trace : list event) : nat :=
  List.length (filter (fun ev => match ev with Sleep _ => true | _ => false end)
                      trace).

End SchedulerVocabulary.

(* ================================================================= *)
(** ** Query surface

    The routes of the application, each as the function of its arguments
    and of the world that its handler is. *)

From Stdlib Require Import Permutation.

(** What a route returns: the status code and the value given to
    [jsonify]. *)
Record response (A : Type) : Type := mk_response {
  status_code : Z;
  body : A
}.
Arguments mk_response {A} status_code body.
Arguments status_code {A} r.
Arguments body {A} r.

(** [if arg:] on a query argument: absent and empty are both falsy. *)
Definition given (arg : option string) : option string :=
  match arg with
  | Some EmptyString => None
  | other => other
  end.

(** The days a [timedelta] may hold, and the microseconds since the epoch
    of [datetime.min] and [datetime.max]. *)
Definition timedelta_max_days : Z := 999999999.
Definition datetime_min : Z := -62135596800 * 1000000.
Definition datetime_max : Z := 253402300800 * 1000000 - 1.

(** [t - timedelta(hours=hours)]: [OverflowError] when the hours are more
    days, rounded down, than a [timedelta] holds, or the result is no
    date. *)
Definition minus_hours (t hours : Z) : Py.result Z :=
  let delta := hours * microseconds_per_hour in
  let days := delta / (24 * microseconds_per_hour) in
  if (days <? - timedelta_max_days) || (timedelta_max_days <? days)
  then Py.Raise Py.OverflowError
  else
    let t' := t - delta in
    if (t' <? datetime_min) || (datetime_max <? t')
    then Py.Raise Py.OverflowError
    else Py.Ok t'.

(** The direction of an [ORDER BY]. *)
Inductive direction : Type := ASC | DESC.

(** [ORDER BY column ASC] or [DESC] on a TEXT column of a table: the rows
    are taken from the last to the first, each put before the first one
    that does not have to precede it, so rows equal in the column come out
    in rowid order. *)
Fixpoint insert_ordered {A : Type} (timestamp : A -> string)
  (dir : direction) (r : A) (sorted : list A) : list A :=
  match sorted with
  | [] => [r]
  | r' :: rest =>
      if match dir with
         | ASC => String.leb (timestamp r) (timestamp r')
         | DESC => String.leb (timestamp r') (timestamp r)
         end
      then r :: sorted
      else r' :: insert_ordered timestamp dir r rest
  end.

Definition order_by {A : Type} (timestamp : A -> string) (dir : direction)
  (rows : list A) : list A :=
  fold_right (insert_ordered timestamp dir) [] rows.







(** One entry of [GET /api/services]. *)
Module ServiceEntry.
Record t : Type := mk {
  name : string;
  type : option string;
  status : string;
  last_seen : string
}.
End ServiceEntry.

(** One entry of [GET /api/health/summary]. *)
Module HealthEntry.
Record t : Type := mk {
  service_name : string;
  timestamp : string;
  request_rate : option float;
  error_rate : option float;
  latency_p50 : option float;
  latency_p95 : option float;
  latency_p99 : option float;
  resources_cpu : option float;
  resources_memory : option float;
  restart_count : Z;
  pod_count : Z;
  health_score : Z;
  status : string
}.
End HealthEntry.

(** One entry of [GET /api/metrics/history]. *)
Module HistoryEntry.
Record t : Type := mk {
  timestamp : string;
  request_rate : option float;
  error_rate : option float;
  latency_p50 : option float;
  latency_p95 : option float;
  latency_p99 : option float;
  cpu_usage : option float;
  memory_usage : option float;
  restart_count : Z;
  pod_count : Z
}.
End HistoryEntry.

(** One entry of [GET /api/health/anomalies]. *)
Module AnomalyEntry.
Record t : Type := mk {
  id : Z;
  service_name : string;
  timestamp : string;
  anomaly_type : string;
  severity : string;
  anomaly_score : option float;
  affected_metrics : list string;
  description : string
}.
End AnomalyEntry.

(** The body of [GET /api/metrics/history]. *)
Inductive history_body : Type :=
| HistoryError (error : string)
| History (entries : list HistoryEntry.t).

(** The body of [POST /api/collect/<service_name>]. *)
Inductive trigger_body : Type :=
| Triggered (metrics : ServiceMetrics.t) (anomalies_detected : nat)
| TriggerFailed (error : Py.exn).

(** The rows of the metrics table that belong to an entity. *)
Definition rows_of (service_name : string) (d : database)
  : list service_metrics.row :=
  filter (fun r => String.eqb (service_metrics.service_name r) service_name)
         (service_metrics_rows d).

(** [MAX(timestamp)] over rows, [None] when there is none. *)
Fixpoint max_timestamp (rows : list service_metrics.row) : option string :=
  match rows with
  | [] => None
  | r :: rest =>
      match max_timestamp rest with
      | None => Some (service_metrics.timestamp r)
      | Some t =>
          if String.ltb t (service_metrics.timestamp r)
          then Some (service_metrics.timestamp r)
          else Some t
      end
  end.

(** The join of [get_health_summary] without a service: the rows whose
    timestamp is the greatest of their entity. The statement has no ORDER
    BY; SQLite walks the groups of the subquery, which it reads off the
    index of the UNIQUE key, so the rows come out by service_name. *)
Definition latest_per_service (d : database) : list service_metrics.row :=
  order_by service_metrics.service_name ASC
    (filter (fun r =>
               match max_timestamp (rows_of (service_metrics.service_name r) d)
               with
               | Some t => String.eqb (service_metrics.timestamp r) t
               | None => false
               end)
            (service_metrics_rows d)).

(** [... WHERE service_name = ? ORDER BY timestamp DESC LIMIT 1]. *)
Definition latest_of (service_name : string) (d : database)
  : list service_metrics.row :=
  firstn 1 (order_by service_metrics.timestamp DESC (rows_of service_name d)).

Definition health_entry (row : service_metrics.row) : HealthEntry.t :=
  let health_score := calculate_health_score row in
  HealthEntry.mk (service_metrics.service_name row)
    (service_metrics.timestamp row) (service_metrics.request_rate row)
    (service_metrics.error_rate row) (service_metrics.latency_p50 row)
    (service_metrics.latency_p95 row) (service_metrics.latency_p99 row)
    (service_metrics.cpu_usage row) (service_metrics.memory_usage row)
    (service_metrics.restart_count row) (service_metrics.pod_count row)
    health_score (get_status_from_health health_score).

Definition history_entry (row : service_metrics.row) : HistoryEntry.t :=
  HistoryEntry.mk (service_metrics.timestamp row)
    (service_metrics.request_rate row) (service_metrics.error_rate row)
    (service_metrics.latency_p50 row) (service_metrics.latency_p95 row)
    (service_metrics.latency_p99 row) (service_metrics.cpu_usage row)
    (service_metrics.memory_usage row) (service_metrics.restart_count row)
    (service_metrics.pod_count row).

Definition anomaly_entry (row : metrics_anomalies.row) : AnomalyEntry.t :=
  AnomalyEntry.mk (metrics_anomalies.id row)
    (metrics_anomalies.service_name row) (metrics_anomalies.timestamp row)
    (metrics_anomalies.anomaly_type row) (metrics_anomalies.severity row)
    (metrics_anomalies.anomaly_score row) (read_affected_metrics row)
    (metrics_anomalies.description row).

(** The rows of the SELECT of [get_anomalies]. *)
Definition select_anomalies (service_name : option string) (cutoff : string)
  (d : database) : list metrics_anomalies.row :=
  order_by metrics_anomalies.timestamp DESC
    (filter (fun r =>
               match service_name with
               | Some name =>
                   String.eqb (metrics_anomalies.service_name r) name
               | None => true
               end
               && String.ltb cutoff (metrics_anomalies.timestamp r))
            (metrics_anomalies_rows d)).

(** The rows of the SELECT of [get_metrics_history]. *)
Definition select_history (service_name cutoff : string) (d : database)
  : list service_metrics.row :=
  order_by service_metrics.timestamp ASC
    (filter (fun r =>
               String.eqb (service_metrics.service_name r) service_name
               && String.ltb cutoff (service_metrics.timestamp r))
            (service_metrics_rows d)).

Section Routes.

(** Beside the environment of the pipeline, the routes take the parser
    behind [int(str)], [None] standing for [ValueError], and the text
    SQLite makes of a real number. *)
Context (env : environment) (int_of_str : string -> option Z)
        (text_of_real : float -> string).

#[local] Open Scope stmt_scope.

(** [GET /api/services]. *)
Definition get_services : M world (response (list ServiceEntry.t)) :=
  fun w =>
    (Py.Ok (mk_response 200
              (map (fun row =>
                      ServiceEntry.mk (services.service_name row)
                        (services.service_type row) (services.status row)
                        (services.last_seen row))
                   (services_rows (db w)))),
     w).


(** [int(request.args.get('hours', 24))]. *)
Definition hours_argument (hours : option string) : Py.result Z :=
  match hours with
  | None => Py.Ok 24
  | Some text =>
      match int_of_str text with
      | Some n => Py.Ok n
      | None => Py.Raise Py.ValueError
      end
  end.

(** [GET /api/health/summary], with its [service] argument. *)
Definition get_health_summary (service : option string)
  : M world (response (list HealthEntry.t)) :=
  fun w =>
    let rows :=
      match given service with
      | Some service_name => latest_of service_name (db w)
      | None => latest_per_service (db w)
      end in
    (Py.Ok (mk_response 200 (map health_entry rows)), w).

(** [GET /api/health/anomalies], with its [service] and [hours]
    arguments. *)
Definition get_anomalies (service hours : option string)
  : M world (response (list AnomalyEntry.t)) :=
  hours <- lift (hours_argument hours) ;;
  t <- datetime_now env ;;
  cutoff_time <- lift (minus_hours t hours) ;;
  fun w =>
    (Py.Ok (mk_response 200
              (map anomaly_entry
                 (select_anomalies (given service)
                    (isoformat env cutoff_time) (db w)))),
     w).

(** [GET /api/metrics/history], with its [service] and [hours] arguments;
    the hours are converted before the service is looked at. *)
Definition get_metrics_history (service hours : option string)
  : M world (response history_body) :=
  hours <- lift (hours_argument hours) ;;
  match given service with
  | None => ret (mk_response 400 (HistoryError "service parameter required"))
  | Some service_name =>
      t <- datetime_now env ;;
      cutoff_time <- lift (minus_hours t hours) ;;
      fun w =>
        (Py.Ok (mk_response 200
                  (History
                     (map history_entry
                        (select_history service_name
                           (isoformat env cutoff_time) (db w))))),
         w)
  end.

(** [POST /api/collect/<service_name>]. *)
Definition trigger_collection (service_name : string)
  : M world (response trigger_body) :=
  try_except
    (metrics <- collect_service_metrics env service_name ;;
     store_metrics env metrics ;;
     anomalies <- detect_anomalies env service_name ;;
     ret (mk_response 200 (Triggered metrics (List.length anomalies))))
    (fun e => ret (mk_response 500 (TriggerFailed e))).

End Routes.

(* ================================================================= *)
(** ** Vocabulary of the further statements *)

(** Two rows in the order a direction asks for. *)
Definition in_order {A : Type} (timestamp : A -> string) (dir : direction)
  (r r' : A) : Prop :=
  match dir with
  | ASC => String.leb (timestamp r) (timestamp r') = true
  | DESC => String.leb (timestamp r') (timestamp r) = true
  end.

(** Two rows in that order and of different timestamps. *)
Definition strictly_in_order {A : Type} (timestamp : A -> string)
  (dir : direction) (r r' : A) : Prop :=
  match dir with
  | ASC => String.ltb (timestamp r) (timestamp r') = true
  | DESC => String.ltb (timestamp r') (timestamp r) = true
  end.

(** The hours a request asks for: 24 without the argument, and none when
    [int] refuses its text. *)
Definition hours_asked (int_of_str : string -> option Z)
  (hours : option string) : option Z :=
  match hours with
  | None => Some 24
  | Some text => int_of_str text
  end.




(** A statement that leaves the database as it finds it and, when it
    raises, raises an exception of the kind [P]. *)
Definition reads_only {A : Type} (P : Py.exn -> Prop) (m : M world A)
  : Prop :=
  forall w,
    db (snd (m w)) = db w
    /\ forall e, fst (m w) = Py.Raise e -> P e.

(** The exceptions [collect_service_metrics] can end with. *)
Definition collect_error (e : Py.exn) : Prop :=
  e = Py.TypeError \/ e = Py.ValueError \/ e = Py.OverflowError.

(** The record of an entity none of whose readings is available. *)
Definition zero_metrics (service_name : string) (timestamp : Z)
  : ServiceMetrics.t :=
  ServiceMetrics.mk service_name timestamp 0 0 0 0 0 0 0 0 0.

(** What the pipeline may do to a database [d0]: keep one metric record per
    key, leave the registry alone, and only add anomalies after those it
    finds. *)
Definition evolves_from (d0 d : database) : Prop :=
  (key_invariant d0 -> key_invariant d)
  /\ services_rows d = services_rows d0
  /\ exists added,
       metrics_anomalies_rows d = (metrics_anomalies_rows d0 ++ added)%list.

(** The values a metric row holds beside its generated id. *)
Definition values_of_row (r : service_metrics.row) : metric_values :=
  mk_values (service_metrics.service_name r) (service_metrics.timestamp r)
    (service_metrics.request_rate r) (service_metrics.error_rate r)
    (service_metrics.latency_p50 r) (service_metrics.latency_p95 r)
    (service_metrics.latency_p99 r) (service_metrics.cpu_usage r)
    (service_metrics.memory_usage r) (service_metrics.restart_count r)
    (service_metrics.pod_count r).

(** The rows of the metrics table that do not hold a key. *)
Definition rows_without_key (k : string * string) (d : database)
  : list service_metrics.row :=
  filter (fun r => negb (has_key (fst k) (snd k) r)) (service_metrics_rows d).

(** The text of [_generate_description] in terms of what an anomaly holds:
    its severity and its comma-separated affected metrics. *)
Definition description_of (severity affected_metrics : string) : string :=
  if String.eqb affected_metrics EmptyString
  then Py.capitalize severity ++ " anomaly detected in service behavior"
  else Py.capitalize severity ++ " anomaly: unusual patterns in "
       ++ affected_metrics.

(* ================================================================= *)
(** * Properties *)

(** ** Health scorer *)

Ltac split_brackets :=
  repeat match goal with
         | |- context [Py.gt ?a ?b] => destruct (Py.gt a b)
         end.

Lemma calculate_health_score_table (r : service_metrics.row) :
  calculate_health_score r = table_score r.
Proof.
  unfold calculate_health_score, table_score, worst_matching.
  cbn [fold_right error_rate_brackets latency_p95_brackets
       cpu_usage_brackets fst snd].
  split_brackets; reflexivity.
Qed.

Lemma calculate_health_score_range (r : service_metrics.row) :
  25 <= calculate_health_score r <= 100.
Proof.
  unfold calculate_health_score. split_brackets; cbn; lia.
Qed.

Lemma get_status_from_health_brackets (s : Z) :
  (get_status_from_health s = "healthy" <-> 90 <= s)
  /\ (get_status_from_health s = "degraded" <-> 70 <= s < 90)
  /\ (get_status_from_health s = "warning" <-> 50 <= s < 70)
  /\ (get_status_from_health s = "critical" <-> s < 50).
Proof.
  unfold get_status_from_health.
  destruct (Z.leb_spec 90 s); [|destruct (Z.leb_spec 70 s);
    [|destruct (Z.leb_spec 50 s)]];
    repeat split; intros; try discriminate; try reflexivity; lia.
Qed.

(** C1. The score of every row is the scoring table's: 100 minus, for each
    of error_rate, latency_p95 and cpu_usage, the penalty of the worst
    bracket the reading exceeds, not below 0; it lies in [0,100]; the status
    is healthy from 90, degraded from 70, warning from 50 and critical
    below; and a reading equal to a threshold does not incur the penalty of
    that threshold's bracket. The score is a function of the three readings
    alone. *)
Theorem C1_health_score_and_status :
  (forall r : service_metrics.row,
      calculate_health_score r = table_score r
      /\ 0 <= calculate_health_score r <= 100)
  /\ (forall s : Z,
         (get_status_from_health s = "healthy" <-> 90 <= s)
         /\ (get_status_from_health s = "degraded" <-> 70 <= s < 90)
         /\ (get_status_from_health s = "warning" <-> 50 <= s < 70)
         /\ (get_status_from_health s = "critical" <-> s < 50))
  /\ calculate_health_score (reading_row 0.01 0 0) = 100
  /\ calculate_health_score (reading_row 0.05 0 0) = 95
  /\ calculate_health_score (reading_row 0.10 0 0) = 85
  /\ calculate_health_score (reading_row 0 200 0) = 100
  /\ calculate_health_score (reading_row 0 500 0) = 95
  /\ calculate_health_score (reading_row 0 1000 0) = 85
  /\ calculate_health_score (reading_row 0 0 0.70) = 100
  /\ calculate_health_score (reading_row 0 0 0.90) = 90.
Proof.
  split; [|split].
  - intro r. split.
    + apply calculate_health_score_table.
    + pose proof (calculate_health_score_range r). lia.
  - apply get_status_from_health_brackets.
  - repeat split; vm_compute; reflexivity.
Qed.

(** C9. No row scores below 25: the penalties add up to at most
    30 + 25 + 20, so the clamp at 0 never acts, and the status is critical
    exactly when the score lies between 25 and 45. *)
Theorem C9_health_score_at_least_25 :
  forall r : service_metrics.row,
    25 <= calculate_health_score r
    /\ calculate_health_score r
       = 100
         - worst_matching error_rate_brackets
             (Py.or0 (service_metrics.error_rate r))
         - worst_matching latency_p95_brackets
             (Py.or0 (service_metrics.latency_p95 r))
         - worst_matching cpu_usage_brackets
             (Py.or0 (service_metrics.cpu_usage r))
    /\ (get_status_from_health (calculate_health_score r) = "critical"
        <-> 25 <= calculate_health_score r <= 45).
Proof.
  intro r. split; [apply calculate_health_score_range|]. split.
  - unfold calculate_health_score, worst_matching.
    cbn [fold_right error_rate_brackets latency_p95_brackets
         cpu_usage_brackets fst snd].
    split_brackets; reflexivity.
  - unfold calculate_health_score.
    split_brackets; vm_compute; split; intro H;
      first [discriminate H | reflexivity | (destruct H; congruence)
            | (split; discriminate)].
Qed.

(** ** Time-series store *)

Lemma has_key_spec (s t : string) (r : service_metrics.row) :
  has_key s t r = true <-> metric_key r = (s, t).
Proof.
  unfold has_key, metric_key. rewrite andb_true_iff, !String.eqb_eq.
  split.
  - intros [-> ->]. reflexivity.
  - intro H. inversion H. split; reflexivity.
Qed.

(** Deleting rows keeps the keys of the remaining ones distinct. *)
Lemma keys_distinct_after_delete (rows : list service_metrics.row)
  (keep : service_metrics.row -> bool) :
  NoDup (map metric_key rows) ->
  NoDup (map metric_key (filter keep rows)).
Proof.
  induction rows as [|r rows IH]; cbn; intro Hnd; [constructor|].
  apply NoDup_cons_iff in Hnd. destruct Hnd as [Hfresh Hnd].
  destruct (keep r); cbn; [|exact (IH Hnd)].
  apply NoDup_cons; [|exact (IH Hnd)].
  rewrite in_map_iff. intros [r' [Hkey Hin]].
  apply Hfresh. rewrite in_map_iff. exists r'.
  apply filter_In in Hin. tauto.
Qed.

Lemma filter_excluded {A} (p : A -> bool) (l : list A) :
  filter p (filter (fun a => negb (p a)) l) = [].
Proof.
  induction l as [|a l IH]; cbn; [reflexivity|].
  destruct (p a) eqn:E; cbn; [|rewrite E]; exact IH.
Qed.

Lemma replace_rows_key (s t : string) (rows : list service_metrics.row)
  (r : service_metrics.row) :
  metric_key r = (s, t) ->
  filter (has_key s t)
    (filter (fun r' => negb (has_key s t r')) rows ++ [r]) = [r].
Proof.
  intro Hk. rewrite filter_app, filter_excluded. cbn.
  apply has_key_spec in Hk. rewrite Hk. reflexivity.
Qed.

Lemma replace_rows_NoDup (s t : string) (rows : list service_metrics.row)
  (r : service_metrics.row) :
  metric_key r = (s, t) ->
  NoDup (map metric_key rows) ->
  NoDup (map metric_key
           (filter (fun r' => negb (has_key s t r')) rows ++ [r])).
Proof.
  intros Hk Hnd. rewrite map_app. cbn.
  apply NoDup_app.
  - apply keys_distinct_after_delete. exact Hnd.
  - repeat constructor. intros [].
  - intros k Hin [Heq | []]. subst k.
    apply in_map_iff in Hin. destruct Hin as [x [Hx Hin]].
    apply filter_In in Hin. destruct Hin as [_ Hneg].
    rewrite Hk in Hx. apply has_key_spec in Hx.
    rewrite Hx in Hneg. discriminate.
Qed.

Lemma fits_int64_spec (n : Z) :
  fits_int64 n = true <-> - 2 ^ 63 <= n < 2 ^ 63.
Proof.
  unfold fits_int64, int64_min, int64_max.
  change (2 ^ 63) with 9223372036854775808.
  rewrite andb_true_iff, !Z.leb_le. lia.
Qed.

Lemma counts_fit_spec (env : environment) (m : ServiceMetrics.t) :
  fits_int64 (v_restart_count (values_of_metrics env m))
  && fits_int64 (v_pod_count (values_of_metrics env m)) = true
  <-> counts_fit m.
Proof.
  unfold counts_fit. rewrite andb_true_iff, !fits_int64_spec. reflexivity.
Qed.

(** A plain INSERT of a key that is taken raises, as [register_service]
    expects of its own table; the conflict clause is what makes the write of
    [store_metrics] a replacement. *)
Lemma plain_insert_conflict (v : metric_values) (d : database) :
  fits_int64 (v_restart_count v) && fits_int64 (v_pod_count v) = true ->
  existsb (has_key (v_service_name v) (v_timestamp v))
    (service_metrics_rows d) = true ->
  insert_service_metrics OnConflictAbort v d = Py.Raise Py.IntegrityError.
Proof.
  intros Hfit Htaken. unfold insert_service_metrics.
  rewrite Hfit, Htaken. reflexivity.
Qed.

(** What one [store_metrics] does to the world: with counts that fit it
    replaces the rows of the key by one new row and touches nothing else,
    and otherwise it raises and the world is as it was. *)
Lemma store_metrics_outcome (env : environment) (m : ServiceMetrics.t)
  (w : world) :
  (counts_fit m
   /\ exists id,
        store_metrics env m w
        = (Py.Ok tt,
           mk_world
             (set_service_metrics (db w)
                (filter (fun r => negb (has_key (fst (metrics_key env m))
                                                (snd (metrics_key env m)) r))
                        (service_metrics_rows (db w))
                 ++ [row_of_values id (values_of_metrics env m)])
                id)
             (clock_reads w) (http_calls w)))
  \/ (~ counts_fit m
      /\ store_metrics env m w = (Py.Raise Py.OverflowError, w)).
Proof.
  unfold store_metrics, execute, insert_service_metrics.
  destruct (fits_int64 (v_restart_count (values_of_metrics env m))
            && fits_int64 (v_pod_count (values_of_metrics env m))) eqn:Hfit.
  - left. split; [apply (counts_fit_spec env); exact Hfit|].
    eexists. reflexivity.
  - right. split; [|reflexivity].
    intro H. apply (counts_fit_spec env) in H. congruence.
Qed.

Lemma store_metrics_returns (env : environment) (m : ServiceMetrics.t)
  (w : world) :
  counts_fit m ->
  exists w' id,
    store_metrics env m w = (Py.Ok tt, w')
    /\ service_metrics_rows (db w')
       = (filter (fun r => negb (has_key (fst (metrics_key env m))
                                         (snd (metrics_key env m)) r))
                 (service_metrics_rows (db w))
          ++ [row_of_values id (values_of_metrics env m)])%list
    /\ metrics_anomalies_rows (db w') = metrics_anomalies_rows (db w).
Proof.
  intro Hfit.
  destruct (store_metrics_outcome env m w) as [[_ [id Hrun]] | [Hno _]];
    [|contradiction].
  eexists. exists id. split; [exact Hrun|]. split; reflexivity.
Qed.

Lemma store_metrics_refuses (env : environment) (m : ServiceMetrics.t)
  (w : world) :
  ~ counts_fit m ->
  store_metrics env m w = (Py.Raise Py.OverflowError, w).
Proof.
  intro Hno.
  destruct (store_metrics_outcome env m w) as [[Hfit _] | [_ Hrun]];
    [contradiction | exact Hrun].
Qed.

Lemma store_metrics_upsert (env : environment) (m : ServiceMetrics.t)
  (w : world) :
  counts_fit m ->
  exists w' id,
    store_metrics env m w = (Py.Ok tt, w')
    /\ rows_with_key (metrics_key env m) (db w')
       = [row_of_values id (values_of_metrics env m)]
    /\ (key_invariant (db w) -> key_invariant (db w')).
Proof.
  intro Hfit.
  destruct (store_metrics_returns env m w Hfit) as [w' [id [Hrun [Hrows _]]]].
  exists w', id. split; [exact Hrun|]. unfold rows_with_key, key_invariant.
  rewrite Hrows. split.
  - apply replace_rows_key. reflexivity.
  - apply replace_rows_NoDup. reflexivity.
Qed.

Lemma store_metrics_invariant (env : environment) (m : ServiceMetrics.t)
  (w : world) :
  key_invariant (db w) -> key_invariant (db (snd (store_metrics env m w))).
Proof.
  intro Hinv.
  destruct (store_metrics_outcome env m w) as [[Hfit _] | [_ Hrun]].
  - destruct (store_metrics_upsert env m w Hfit) as [w' [id [Hrun [_ Hi]]]].
    rewrite Hrun. auto.
  - rewrite Hrun. exact Hinv.
Qed.

Lemma stored_real_bind_real (x : float) : stored_real x (bind_real x).
Proof.
  unfold stored_real, bind_real.
  destruct (PrimFloat.is_nan x) eqn:Hnan; [reflexivity|].
  destruct (PrimFloat.eqb x 0) eqn:Hzero.
  - exists 0%float. auto.
  - exists x. split; [reflexivity|].
    unfold PrimFloat.is_nan in Hnan. apply negb_false_iff in Hnan.
    exact Hnan.
Qed.

(** The row [store_metrics] writes holds the record it was given. *)
Lemma holds_record_row_of_values (env : environment) (m : ServiceMetrics.t)
  (id : Z) :
  holds_record env m (row_of_values id (values_of_metrics env m)).
Proof.
  unfold holds_record. cbn.
  repeat split; apply stored_real_bind_real.
Qed.

(** C2. In a store with at most one metric record per (entity, timestamp)
    pair, [store_metrics] leaves a store with at most one record per pair;
    it returns when both counts of the record are signed 64-bit numbers,
    whether or not the key is taken, and otherwise raises [OverflowError]
    and leaves the world as it was. Two records with the same entity and
    timestamp stored one after the other, the second with counts that fit,
    leave exactly one record for that key, which holds the second: its
    name, timestamp, seven readings (NULL for a NaN) and two counts. *)
Theorem C2_upsert_keeps_one_record_per_key :
  forall (env : environment) (w : world),
    key_invariant (db w) ->
    (forall m : ServiceMetrics.t,
        key_invariant (db (snd (store_metrics env m w)))
        /\ (counts_fit m -> fst (store_metrics env m w) = Py.Ok tt)
        /\ (~ counts_fit m ->
            store_metrics env m w = (Py.Raise Py.OverflowError, w)))
    /\ (forall m1 m2 : ServiceMetrics.t,
           metrics_key env m1 = metrics_key env m2 ->
           counts_fit m2 ->
           exists w2 r,
             store_metrics env m2 (snd (store_metrics env m1 w))
             = (Py.Ok tt, w2)
             /\ key_invariant (db w2)
             /\ rows_with_key (metrics_key env m1) (db w2) = [r]
             /\ holds_record env m2 r).
Proof.
  intros env w Hinv. split.
  - intro m. split; [apply store_metrics_invariant; exact Hinv|]. split.
    + intro Hfit.
      destruct (store_metrics_returns env m w Hfit) as [w' [id [Hrun _]]].
      rewrite Hrun. reflexivity.
    + apply store_metrics_refuses.
  - intros m1 m2 Hkey Hfit.
    pose proof (store_metrics_invariant env m1 w Hinv) as Hinv1.
    destruct (store_metrics_upsert env m2 (snd (store_metrics env m1 w)) Hfit)
      as [w2 [id [Hrun [Hrows Hinv2]]]].
    exists w2, (row_of_values id (values_of_metrics env m2)).
    rewrite Hkey. split; [exact Hrun|]. split; [auto|].
    split; [exact Hrows|]. apply holds_record_row_of_values.
Qed.

Lemma C2_upsert_witness :
  exists w2 r,
    store_metrics (ref_env [] 0) (sample_metrics 0.5)
      (snd (store_metrics (ref_env [] 0) (sample_metrics 0.25) empty_world))
    = (Py.Ok tt, w2)
    /\ key_invariant (db w2)
    /\ rows_with_key (metrics_key (ref_env [] 0) (sample_metrics 0.25)) (db w2)
       = [r]
    /\ holds_record (ref_env [] 0) (sample_metrics 0.5) r.
Proof.
  apply (C2_upsert_keeps_one_record_per_key (ref_env [] 0) empty_world).
  - constructor.
  - reflexivity.
  - unfold counts_fit. cbn. lia.
Defined.

(** A second record whose restart count is 2^63 is refused: the key keeps
    the first record. *)
Lemma C2_upsert_counterexample :
  key_invariant (db empty_world)
  /\ metrics_key (ref_env [] 0) (sample_metrics 0.25)
     = metrics_key (ref_env [] 0) (overflowing_metrics 0.5)
  /\ fst (store_metrics (ref_env [] 0) (overflowing_metrics 0.5)
            (snd (store_metrics (ref_env [] 0) (sample_metrics 0.25)
                    empty_world)))
     = Py.Raise Py.OverflowError
  /\ map service_metrics.cpu_usage
       (rows_with_key (metrics_key (ref_env [] 0) (sample_metrics 0.25))
          (db (snd (store_metrics (ref_env [] 0) (overflowing_metrics 0.5)
                      (snd (store_metrics (ref_env [] 0) (sample_metrics 0.25)
                              empty_world))))))
     = [Some 0.25%float].
Proof.
  split; [constructor|]. split; [reflexivity|].
  split; vm_compute; reflexivity.
Qed.

(** ** Anomaly detector *)

Lemma labelled_from_length (scored : list (float * Z)) (idx : nat) :
  (List.length (labelled_from idx scored) <= List.length scored)%nat.
Proof.
  revert idx. induction scored as [|[s p] rest IH]; intro idx; cbn; [lia|].
  specialize (IH (S idx)). destruct (p =? 1); cbn; lia.
Qed.

Lemma labelled_from_bound (scored : list (float * Z)) (idx : nat) :
  Forall (fun obs => (idx <= fst obs < idx + List.length scored)%nat)
    (labelled_from idx scored).
Proof.
  revert idx. induction scored as [|[s p] rest IH]; intro idx; cbn;
    [constructor|].
  assert (Forall (fun obs => (idx <= fst obs < idx + S (List.length rest))%nat)
            (labelled_from (S idx) rest)) as Hrest.
  { eapply Forall_impl; [|apply IH]. cbn. intros; lia. }
  destruct (p =? 1); [constructor; [cbn; lia|]|]; exact Hrest.
Qed.

Section DetectorFacts.

Context (env : environment) (service_name : string).

Lemma get_metric_features_runs (w : world) :
  get_metric_features env service_name 24 w
  = (Py.Ok (window env service_name w),
     mk_world (db w) (S (clock_reads w)) (http_calls w)).
Proof.
  unfold get_metric_features, mbind, datetime_now, window. cbn.
  destruct (map feature_tuple _); reflexivity.
Qed.

Lemma detect_loop_runs (X recent : list (list float)) :
  (forall i fv, nth_error recent i = Some fv -> nth_error X i = Some fv) ->
  forall (scored : list (float * Z)) (idx : nat) (acc : list Anomaly.t)
         (w : world),
    (idx + List.length scored <= List.length recent)%nat ->
    exists new stored w',
      detect_loop env service_name X recent idx scored acc w
      = (Py.Ok (acc ++ new)%list, w')
      /\ Forall2 (reports env service_name X) (labelled_from idx scored) new
      /\ Forall2 persisted new stored
      /\ metrics_anomalies_rows (db w')
         = (metrics_anomalies_rows (db w) ++ stored)%list
      /\ service_metrics_rows (db w') = service_metrics_rows (db w).
Proof.
  intros Hsub scored.
  induction scored as [|[score p] rest IH]; intros idx acc w Hlen.
  - exists [], [], w. cbn. rewrite app_nil_r.
    repeat split; try constructor. now rewrite app_nil_r.
  - cbn [detect_loop labelled_from]. cbn [List.length] in Hlen.
    destruct (p =? 1).
    + destruct (nth_error recent idx) as [fv|] eqn:Hfv.
      2:{ apply nth_error_None in Hfv. lia. }
      unfold mbind at 1. cbn [datetime_now].
      unfold mbind at 1. unfold _store_anomaly at 1.
      unfold mbind at 1. cbn [datetime_now execute db clock_reads http_calls
                              insert_metrics_anomalies].
      match goal with
      | |- context [detect_loop _ _ _ _ _ _ (acc ++ [?a0])] => set (a := a0)
      end.
      match goal with
      | |- context [detect_loop _ _ _ _ _ _ _ ?w1] =>
          destruct (IH (S idx) (acc ++ [a])%list w1 ltac:(lia))
            as [new [stored [w' [Hrun [Hrep [Hper [Hrows Hmet]]]]]]]
      end.
      rewrite Hrun. cbn [db metrics_anomalies_rows service_metrics_rows]
        in Hrows, Hmet.
      match type of Hrows with
      | _ = ((_ ++ [?r]) ++ _)%list => exists (a :: new), (r :: stored), w'
      end.
      split; [rewrite <- app_assoc; reflexivity|].
      split; [constructor; [|exact Hrep]|].
      { exists fv. cbn. repeat split. apply Hsub. exact Hfv. }
      split; [constructor; [|exact Hper]|].
      { cbn. repeat split. }
      split.
      * rewrite Hrows, <- app_assoc. reflexivity.
      * exact Hmet.
    + apply IH. lia.
Qed.

End DetectorFacts.


Lemma float64_length (rows : list (list (option float)))
  (X : list (list float)) :
  float64 rows = Some X -> List.length X = List.length rows.
Proof.
  revert X. induction rows as [|r rows IH]; cbn; intros X H.
  - injection H as <-. reflexivity.
  - destruct (float64_row r) as [x|]; [|discriminate].
    destruct (float64 rows) as [xs|]; [|discriminate].
    injection H as <-. cbn. f_equal. apply IH. reflexivity.
Qed.



Lemma nth_error_firstn_sub {A} (n : nat) (l : list A) (i : nat) (a : A) :
  nth_error (firstn n l) i = Some a -> nth_error l i = Some a.
Proof.
  revert l i. induction n as [|n IH]; intros [|x l] [|i]; cbn;
    try discriminate; auto.
Qed.

Lemma detect_anomalies_outcome (env : environment) (service_name : string)
  (w : world) :
  detect_outcome env service_name w (detect_anomalies env service_name w).
Proof.
  unfold detect_anomalies, mbind at 1.
  rewrite get_metric_features_runs.
  destruct (Nat.ltb_spec (List.length (window env service_name w)) 10)
    as [Hlt | Hge].
  - apply too_few. exact Hlt.
  - destruct (float64 (window env service_name w)) as [X|] eqn:HX.
    + unfold mbind, lift.
      destruct (ECOD_fit env X) as [[scores predictions]|e] eqn:Hfit.
      * cbn [fst snd].
        pose proof (float64_length _ _ HX) as HlenX.
        destruct (detect_loop_runs env service_name X (firstn 5 X)
                    (nth_error_firstn_sub 5 X)
                    (combine (firstn 5 scores) (firstn 5 predictions))
                    0 [] (mk_world (db w) (S (clock_reads w)) (http_calls w)))
          as [new [stored [w' [Hrun [Hrep [Hper [Hrows Hmet]]]]]]].
        { rewrite length_combine, !length_firstn. lia. }
        rewrite Hrun. cbn [app].
        eapply detected; eauto.
      * eapply fit_raised; eauto.
    + apply not_numeric; assumption.
Qed.

(** C3. When the window of an entity holds fewer than 10 metric records,
    none included, [detect_anomalies] returns the empty list and leaves the
    database, so its anomaly table, as it was. *)
Theorem C3_detect_needs_ten_records :
  forall (env : environment) (service_name : string) (w : world),
    (List.length (window env service_name w) < 10)%nat ->
    exists w',
      detect_anomalies env service_name w = (Py.Ok [], w')
      /\ db w' = db w
      /\ metrics_anomalies_rows (db w') = metrics_anomalies_rows (db w).
Proof.
  intros env service_name w Hlt.
  destruct (detect_anomalies_outcome env service_name w)
    as [_ | Hge _ | X e Hge _ _ | X scores predictions anomalies stored w' Hge];
    try lia.
  eexists. split; [reflexivity|]. split; reflexivity.
Qed.

Lemma C3_detect_witness :
  exists w',
    detect_anomalies demo_env "svc-a" nine_records_world = (Py.Ok [], w')
    /\ db w' = db nine_records_world
    /\ metrics_anomalies_rows (db w')
       = metrics_anomalies_rows (db nine_records_world).
Proof.
  apply (C3_detect_needs_ten_records demo_env "svc-a" nine_records_world).
  vm_compute. lia.
Defined.

(** *** The order of binary64 numbers *)

Lemma lex_spec e1 m1 e2 m2 :
  match lex e1 m1 e2 m2 with
  | Lt => e1 < e2 \/ (e1 = e2 /\ (m1 < m2)%positive)
  | Eq => e1 = e2 /\ m1 = m2
  | Gt => e2 < e1 \/ (e1 = e2 /\ (m2 < m1)%positive)
  end.
Proof.
  unfold lex. destruct (Z.compare_spec e1 e2); auto.
  change (Pos.compare_cont Eq m1 m2) with (Pos.compare m1 m2).
  destruct (Pos.compare_spec m1 m2); auto.
Qed.

Lemma lex_lt_le e1 m1 e2 m2 e3 m3 :
  lex e1 m1 e2 m2 = Lt -> lex e2 m2 e3 m3 <> Gt -> lex e1 m1 e3 m3 = Lt.
Proof.
  intros H12 H23.
  pose proof (lex_spec e1 m1 e2 m2) as S12.
  pose proof (lex_spec e2 m2 e3 m3) as S23.
  pose proof (lex_spec e1 m1 e3 m3) as S13.
  rewrite H12 in S12.
  destruct (lex e2 m2 e3 m3); [| |congruence];
    destruct (lex e1 m1 e3 m3); try reflexivity; lia.
Qed.

Lemma lex_gt_ge e1 m1 e2 m2 e3 m3 :
  lex e1 m1 e2 m2 = Gt -> lex e2 m2 e3 m3 <> Lt -> lex e1 m1 e3 m3 = Gt.
Proof.
  intros H12 H23.
  pose proof (lex_spec e1 m1 e2 m2) as S12.
  pose proof (lex_spec e2 m2 e3 m3) as S23.
  pose proof (lex_spec e1 m1 e3 m3) as S13.
  rewrite H12 in S12.
  destruct (lex e2 m2 e3 m3); [|congruence|];
    destruct (lex e1 m1 e3 m3); try reflexivity; lia.
Qed.

Lemma lex_negative e1 m1 e2 m2 :
  match e1 ?= e2 with
  | Eq => CompOpp (Pos.compare_cont Eq m1 m2)
  | Lt => Gt
  | Gt => Lt
  end = CompOpp (lex e1 m1 e2 m2).
Proof. unfold lex. destruct (e1 ?= e2); reflexivity. Qed.

Ltac by_signs a b :=
  destruct a, b; cbn; (discriminate || reflexivity).

Lemma SFltb_leb_trans (x y z : spec_float) :
  SFltb x y = true -> SFleb y z = true -> SFltb x z = true.
Proof.
  unfold SFltb, SFleb.
  destruct x as [sx|sx| |sx mx ex], y as [sy|sy| |sy my ey],
    z as [sz|sz| |sz mz ez]; cbn;
    try discriminate; try reflexivity;
    try (destruct sx, sy, sz; cbn; (discriminate || reflexivity)).
  all: try by_signs sx sy.
  all: try by_signs sx sz.
  all: try by_signs sy sz.
  destruct sx, sy, sz; try discriminate; try reflexivity.
  - rewrite !lex_negative.
    destruct (lex ex mx ey my) eqn:Hxy; try discriminate.
    destruct (lex ey my ez mz) eqn:Hyz; try discriminate; intros _ _;
      rewrite (lex_gt_ge ex mx ey my ez mz Hxy); try reflexivity;
      rewrite Hyz; discriminate.
  - fold (lex ex mx ey my) (lex ey my ez mz) (lex ex mx ez mz).
    destruct (lex ex mx ey my) eqn:Hxy; try discriminate.
    destruct (lex ey my ez mz) eqn:Hyz; try discriminate; intros _ _;
      rewrite (lex_lt_le ex mx ey my ez mz Hxy); try reflexivity;
      rewrite Hyz; discriminate.
Qed.

(** A threshold exceeded by a score is exceeded by every score at least as
    large. *)
Lemma gt_le_trans (t a b : float) :
  Py.gt a t = true -> PrimFloat.leb a b = true -> Py.gt b t = true.
Proof.
  unfold Py.gt. rewrite !ltb_spec, leb_spec. apply SFltb_leb_trans.
Qed.

Lemma severity_of_brackets (score : float) :
  (severity_of score = "critical" <-> Py.gt score 0.9 = true)
  /\ (severity_of score = "high"
      <-> Py.gt score 0.9 = false /\ Py.gt score 0.7 = true)
  /\ (severity_of score = "medium"
      <-> Py.gt score 0.9 = false /\ Py.gt score 0.7 = false
          /\ Py.gt score 0.5 = true)
  /\ (severity_of score = "low"
      <-> Py.gt score 0.9 = false /\ Py.gt score 0.7 = false
          /\ Py.gt score 0.5 = false).
Proof.
  unfold severity_of.
  destruct (Py.gt score 0.9), (Py.gt score 0.7), (Py.gt score 0.5);
    repeat split; intros; try discriminate; try reflexivity;
    repeat match goal with H : _ /\ _ |- _ => destruct H end;
    discriminate.
Qed.

Lemma severity_of_monotone (s1 s2 : float) :
  PrimFloat.leb s1 s2 = true ->
  (severity_rank (severity_of s1) <= severity_rank (severity_of s2))%nat.
Proof.
  intro Hle. unfold severity_of.
  destruct (Py.gt s1 0.9) eqn:H9.
  { rewrite (gt_le_trans _ _ _ H9 Hle). cbn. lia. }
  destruct (Py.gt s1 0.7) eqn:H7.
  { rewrite (gt_le_trans _ _ _ H7 Hle). destruct (Py.gt s2 0.9); cbn; lia. }
  destruct (Py.gt s1 0.5) eqn:H5.
  { rewrite (gt_le_trans _ _ _ H5 Hle).
    destruct (Py.gt s2 0.9), (Py.gt s2 0.7); cbn; lia. }
  cbn. lia.
Qed.

(** Every anomaly a call returns is the record of an observation among the
    first five of the window that the model labelled. *)
Lemma detect_anomalies_reports (env : environment) (service_name : string)
  (w w' : world) (anomalies : list Anomaly.t) (a : Anomaly.t) :
  detect_anomalies env service_name w = (Py.Ok anomalies, w') ->
  In a anomalies ->
  exists X idx score,
    float64 (window env service_name w) = Some X
    /\ (idx < 5)%nat
    /\ reports env service_name X (idx, score) a.
Proof.
  intros Hrun Hin.
  pose proof (detect_anomalies_outcome env service_name w) as Hout.
  rewrite Hrun in Hout.
  inversion Hout as [Hlt Heq | | | X scores predictions anoms stored w2
                                   Hge HX Hfit Hrep Hper Hrows Hmet]; subst.
  - destruct Hin.
  - pose proof (labelled_from_bound
                  (combine (firstn 5 scores) (firstn 5 predictions)) 0)
      as Hbound.
    assert (forall obs,
               In obs (labelled_from 0
                         (combine (firstn 5 scores) (firstn 5 predictions))) ->
               (fst obs < 5)%nat) as Hidx.
    { intros obs Hobs. rewrite Forall_forall in Hbound.
      specialize (Hbound obs Hobs).
      rewrite length_combine, !length_firstn in Hbound. lia. }
    clear Hbound Hout Hrun Hper Hrows Hmet.
    induction Hrep as [|obs b obss bs Hb Hrest IH]; [destruct Hin|].
    destruct Hin as [-> | Hin].
    + exists X, (fst obs), (snd obs). split; [exact HX|].
      split; [apply Hidx; left; reflexivity|].
      destruct obs; exact Hb.
    + apply IH; [exact Hin|]. intros o Ho. apply Hidx. right. exact Ho.
Qed.

Lemma nth_error_combine {A B} (l : list A) (l' : list B) (k : nat)
  (a : A) (b : B) :
  nth_error (combine l l') k = Some (a, b)
  <-> nth_error l k = Some a /\ nth_error l' k = Some b.
Proof.
  revert l' k. induction l as [|x l IH]; intros [|y l'] [|k]; cbn;
    try (split; [discriminate | intros [? ?]; discriminate]).
  - split; [intro H; injection H as -> ->; auto
           | intros [H1 H2]; congruence].
  - apply IH.
Qed.




(** *** The order of timestamps *)

Lemma ascii_lt_trans (a b c : ascii) :
  Ascii.compare a b = Lt -> Ascii.compare b c = Lt -> Ascii.compare a c = Lt.
Proof.
  unfold Ascii.compare. rewrite !N.compare_lt_iff. apply N.lt_trans.
Qed.

Lemma string_lt_trans (s : string) :
  forall t u,
    String.compare s t = Lt -> String.compare t u = Lt ->
    String.compare s u = Lt.
Proof.
  induction s as [|a s IH]; intros [|b t] [|c u]; cbn;
    try discriminate; try reflexivity.
  destruct (Ascii.compare a b) eqn:Hab; try discriminate.
  - apply Ascii.compare_eq_iff in Hab. subst b.
    destruct (Ascii.compare a c); try discriminate; try reflexivity.
    apply IH.
  - intros _. destruct (Ascii.compare b c) eqn:Hbc; try discriminate.
    + apply Ascii.compare_eq_iff in Hbc. subst c. rewrite Hab. reflexivity.
    + rewrite (ascii_lt_trans a b c Hab Hbc). reflexivity.
Qed.

Lemma string_compare_refl (s : string) : String.compare s s = Eq.
Proof.
  induction s as [|a s IH]; cbn; [reflexivity|].
  unfold Ascii.compare. rewrite N.compare_refl. exact IH.
Qed.

Lemma leb_refl (s : string) : String.leb s s = true.
Proof. unfold String.leb. rewrite string_compare_refl. reflexivity. Qed.

Lemma leb_trans (s t u : string) :
  String.leb s t = true -> String.leb t u = true -> String.leb s u = true.
Proof.
  unfold String.leb.
  destruct (String.compare s t) eqn:Hst; try discriminate; intros _;
    destruct (String.compare t u) eqn:Htu; try discriminate; intros _.
  - apply String.compare_eq_iff in Hst. subst t. now rewrite Htu.
  - apply String.compare_eq_iff in Hst. subst t. now rewrite Htu.
  - apply String.compare_eq_iff in Htu. subst u. now rewrite Hst.
  - now rewrite (string_lt_trans s t u Hst Htu).
Qed.

Lemma leb_neq_ltb (s t : string) :
  String.leb s t = true -> s <> t -> String.ltb s t = true.
Proof.
  unfold String.leb, String.ltb.
  destruct (String.compare s t) eqn:Hst; try discriminate; auto.
  apply String.compare_eq_iff in Hst. contradiction.
Qed.

Lemma ltb_false_leb (s t : string) :
  String.ltb s t = false -> String.leb t s = true.
Proof.
  unfold String.ltb, String.leb. rewrite (String.compare_antisym s t).
  destruct (String.compare t s); cbn; congruence.
Qed.

Lemma ltb_true_leb (s t : string) :
  String.ltb s t = true -> String.leb s t = true.
Proof.
  unfold String.ltb, String.leb. destruct (String.compare s t); congruence.
Qed.

Lemma leb_false_leb (s t : string) :
  String.leb s t = false -> String.leb t s = true.
Proof.
  unfold String.leb. rewrite (String.compare_antisym s t).
  destruct (String.compare t s); cbn; congruence.
Qed.

Lemma insert_desc_HdRel (a r : service_metrics.row)
  (l : list service_metrics.row) :
  newer_first a r -> HdRel newer_first a l ->
  HdRel newer_first a (insert_desc r l).
Proof.
  intros Har Hal. destruct l as [|b l]; cbn; [constructor; exact Har|].
  destruct (String.ltb _ _); constructor; [exact Har|].
  inversion Hal; assumption.
Qed.

Lemma insert_desc_sorted (r : service_metrics.row)
  (l : list service_metrics.row) :
  Sorted newer_first l -> Sorted newer_first (insert_desc r l).
Proof.
  induction l as [|a l IH]; cbn; intro Hs; [repeat constructor|].
  destruct (String.ltb (service_metrics.timestamp a)
                       (service_metrics.timestamp r)) eqn:Hlt.
  - constructor; [exact Hs|]. constructor. apply ltb_true_leb. exact Hlt.
  - inversion Hs as [|? ? Hsl Hhd]; subst. constructor; [auto|].
    apply insert_desc_HdRel; [|exact Hhd]. apply ltb_false_leb. exact Hlt.
Qed.

Lemma select_window_sorted (service_name cutoff : string) (d : database) :
  Sorted newer_first (select_window service_name cutoff d).
Proof.
  unfold select_window, order_by_timestamp_desc.
  induction (filter _ (service_metrics_rows d)) as [|r l IH]; cbn.
  - constructor.
  - apply insert_desc_sorted. exact IH.
Qed.

Lemma newer_first_trans (a b c : service_metrics.row) :
  newer_first a b -> newer_first b c -> newer_first a c.
Proof.
  unfold newer_first. intros Hab Hbc. exact (leb_trans _ _ _ Hbc Hab).
Qed.

(** No row of the window is newer than a row before it. *)
Lemma select_window_newer_first (service_name cutoff : string)
  (d : database) :
  StronglySorted newer_first (select_window service_name cutoff d).
Proof.
  apply Sorted_StronglySorted; [|apply select_window_sorted].
  intros a b c. apply newer_first_trans.
Qed.

Lemma insert_desc_rows (r : service_metrics.row)
  (l : list service_metrics.row) :
  Permutation (insert_desc r l) (r :: l).
Proof.
  induction l as [|a l IH]; cbn; [reflexivity|].
  destruct (String.ltb _ _); [reflexivity|].
  rewrite IH. apply perm_swap.
Qed.

(** The window holds the rows of the entity later than the cut-off, each
    once. *)
Lemma select_window_rows (service_name cutoff : string) (d : database) :
  Permutation (select_window service_name cutoff d)
    (filter (fun r =>
               String.eqb (service_metrics.service_name r) service_name
               && String.ltb cutoff (service_metrics.timestamp r))
            (service_metrics_rows d)).
Proof.
  unfold select_window, order_by_timestamp_desc.
  induction (filter _ (service_metrics_rows d)) as [|r l IH]; cbn;
    [reflexivity|].
  rewrite insert_desc_rows. constructor. exact IH.
Qed.

(** *** The observations a detection reports on *)

Lemma labelled_from_In (scored : list (float * Z)) :
  forall (idx i : nat) (score : float),
    In (i, score) (labelled_from idx scored)
    <-> exists k, i = (idx + k)%nat /\ nth_error scored k = Some (score, 1).
Proof.
  induction scored as [|[s p] rest IH]; intros idx i score;
    cbn [labelled_from].
  - split; [intros [] | intros [k [_ H]]; destruct k; discriminate].
  - destruct (Z.eqb_spec p 1) as [-> | Hp].
    + cbn [In]. rewrite IH. split.
      * intros [[= <- <-] | [k [-> Hk]]].
        -- exists 0%nat. rewrite Nat.add_0_r. auto.
        -- exists (S k). split; [lia | exact Hk].
      * intros [[|k] [-> Hk]].
        -- left. cbn in Hk. injection Hk as <-. f_equal. lia.
        -- right. exists k. split; [lia | exact Hk].
    + rewrite IH. split.
      * intros [k [-> Hk]]. exists (S k). split; [lia | exact Hk].
      * intros [[|k] [-> Hk]].
        -- cbn in Hk. injection Hk as _ Hp'. congruence.
        -- exists k. split; [lia | exact Hk].
Qed.

Lemma labelled_from_increasing (scored : list (float * Z)) :
  forall idx : nat, StronglySorted lt (map fst (labelled_from idx scored)).
Proof.
  induction scored as [|[s p] rest IH]; intro idx; cbn [labelled_from];
    [constructor|].
  destruct (p =? 1); [|apply IH].
  cbn [map fst]. constructor; [apply IH|].
  apply Forall_map.
  eapply Forall_impl; [|apply (labelled_from_bound rest (S idx))].
  cbn. intros obs Hobs. lia.
Qed.

Lemma labelled_from_observations (scores : list float)
  (predictions : list Z) :
  labelled_observations scores predictions
    (labelled_from 0 (combine (firstn 5 scores) (firstn 5 predictions))).
Proof.
  split; [apply labelled_from_increasing|].
  intros i score. rewrite labelled_from_In. split.
  - intros [k [-> Hk]]. cbn [Nat.add].
    apply nth_error_combine in Hk. destruct Hk as [Hs Hp].
    rewrite nth_error_firstn in Hs, Hp.
    destruct (Nat.ltb_spec k 5); [auto | discriminate].
  - intros [Hi [Hs Hp]]. exists i. split; [reflexivity|].
    apply nth_error_combine. rewrite !nth_error_firstn.
    destruct (Nat.ltb_spec i 5); [auto | lia].
Qed.

(** How a call that returns has come to its anomalies. *)
Lemma detect_anomalies_observations (env : environment)
  (service_name : string) (w w' : world) (anomalies : list Anomaly.t) :
  detect_anomalies env service_name w = (Py.Ok anomalies, w') ->
  ((List.length (window env service_name w) < 10)%nat /\ anomalies = [])
  \/ exists X scores predictions observations,
       float64 (window env service_name w) = Some X
       /\ ECOD_fit env X = Py.Ok (scores, predictions)
       /\ labelled_observations scores predictions observations
       /\ Forall2 (reports env service_name X) observations anomalies.
Proof.
  intro Hrun.
  pose proof (detect_anomalies_outcome env service_name w) as Hout.
  rewrite Hrun in Hout.
  inversion Hout as [Hlt Heq | | | X scores predictions anoms stored w2
                                   Hge HX Hfit Hrep Hper Hrows Hmet]; subst.
  - left. auto.
  - right. exists X, scores, predictions. eexists.
    split; [exact HX|]. split; [exact Hfit|].
    split; [apply labelled_from_observations | exact Hrep].
Qed.

(** C4. When [detect_anomalies] returns, either the window holds fewer than
    10 records and nothing is returned, or the model has scored and
    labelled the window, and the returned anomalies are, in order, those
    of the observations among the first five that it labelled anomalous:
    each carries the score the model gave its observation and the
    severity of that score, critical when the score exceeds 0.9, else high
    when it exceeds 0.7, else medium when it exceeds 0.5, else low. So of
    two returned anomalies the one with the larger score has the severity
    at least as high, a score of 0.95 gives critical and a score of 0.6
    gives medium. *)
Theorem C4_severity_by_score_brackets :
  forall (env : environment) (service_name : string) (w w' : world)
         (anomalies : list Anomaly.t),
    detect_anomalies env service_name w = (Py.Ok anomalies, w') ->
    (((List.length (window env service_name w) < 10)%nat /\ anomalies = [])
     \/ exists X scores predictions observations,
          float64 (window env service_name w) = Some X
          /\ ECOD_fit env X = Py.Ok (scores, predictions)
          /\ labelled_observations scores predictions observations
          /\ Forall2
               (fun obs a =>
                  let score := snd obs in
                  let severity := Anomaly.severity a in
                  Anomaly.anomaly_score a = score
                  /\ (severity = "critical" <-> Py.gt score 0.9 = true)
                  /\ (severity = "high"
                      <-> Py.gt score 0.9 = false /\ Py.gt score 0.7 = true)
                  /\ (severity = "medium"
                      <-> Py.gt score 0.9 = false /\ Py.gt score 0.7 = false
                          /\ Py.gt score 0.5 = true)
                  /\ (severity = "low"
                      <-> Py.gt score 0.9 = false /\ Py.gt score 0.7 = false
                          /\ Py.gt score 0.5 = false)
                  /\ (score = 0.95%float -> severity = "critical")
                  /\ (score = 0.6%float -> severity = "medium"))
               observations anomalies)
    /\ (forall a b, In a anomalies -> In b anomalies ->
          PrimFloat.leb (Anomaly.anomaly_score a) (Anomaly.anomaly_score b)
          = true ->
          (severity_rank (Anomaly.severity a)
           <= severity_rank (Anomaly.severity b))%nat).
Proof.
  intros env service_name w w' anomalies Hrun. split.
  - destruct (detect_anomalies_observations env service_name w w' anomalies
                Hrun)
      as [Hfew | [X [scores [predictions [observations
                                            [HX [Hfit [Hobs Hrep]]]]]]]];
      [left; exact Hfew | right].
    exists X, scores, predictions, observations.
    repeat (split; [assumption|]).
    eapply Forall2_impl; [|exact Hrep].
    intros obs a [fv [_ [_ [_ [Hscore [Hseverity _]]]]]].
    cbv zeta. rewrite Hseverity.
    pose proof (severity_of_brackets (snd obs)) as [Hc [Hh [Hm Hl]]].
    split; [exact Hscore|].
    split; [exact Hc|]. split; [exact Hh|]. split; [exact Hm|].
    split; [exact Hl|].
    split; intro Heq; rewrite Heq; reflexivity.
  - assert (forall a, In a anomalies ->
               Anomaly.severity a = severity_of (Anomaly.anomaly_score a))
      as Hsev.
    { intros a Hin.
      destruct (detect_anomalies_reports env service_name w w' anomalies a
                  Hrun Hin) as [X [idx [score [_ [_ Hrep]]]]].
      destruct Hrep as [fv [_ [_ [_ [Hscore [Hseverity _]]]]]].
      cbn in Hscore, Hseverity. congruence. }
    intros a b Ha Hb Hle. rewrite (Hsev a Ha), (Hsev b Hb).
    apply severity_of_monotone. exact Hle.
Qed.

Lemma demo_detect_anomalies :
  fst (detect_anomalies demo_env "svc-a" demo_world) = Py.Ok [demo_anomaly].
Proof. vm_compute. reflexivity. Qed.

Lemma demo_run :
  detect_anomalies demo_env "svc-a" demo_world
  = (Py.Ok [demo_anomaly],
     snd (detect_anomalies demo_env "svc-a" demo_world)).
Proof.
  rewrite <- demo_detect_anomalies.
  destruct (detect_anomalies demo_env "svc-a" demo_world). reflexivity.
Qed.

Lemma C4_severity_witness :
  (((List.length (window demo_env "svc-a" demo_world) < 10)%nat
    /\ [demo_anomaly] = [])
   \/ exists X scores predictions observations,
        float64 (window demo_env "svc-a" demo_world) = Some X
        /\ ECOD_fit demo_env X = Py.Ok (scores, predictions)
        /\ labelled_observations scores predictions observations
        /\ Forall2
             (fun obs a =>
                let score := snd obs in
                let severity := Anomaly.severity a in
                Anomaly.anomaly_score a = score
                /\ (severity = "critical" <-> Py.gt score 0.9 = true)
                /\ (severity = "high"
                    <-> Py.gt score 0.9 = false /\ Py.gt score 0.7 = true)
                /\ (severity = "medium"
                    <-> Py.gt score 0.9 = false /\ Py.gt score 0.7 = false
                        /\ Py.gt score 0.5 = true)
                /\ (severity = "low"
                    <-> Py.gt score 0.9 = false /\ Py.gt score 0.7 = false
                        /\ Py.gt score 0.5 = false)
                /\ (score = 0.95%float -> severity = "critical")
                /\ (score = 0.6%float -> severity = "medium"))
             observations [demo_anomaly])
  /\ (forall a b, In a [demo_anomaly] -> In b [demo_anomaly] ->
        PrimFloat.leb (Anomaly.anomaly_score a) (Anomaly.anomaly_score b)
        = true ->
        (severity_rank (Anomaly.severity a)
         <= severity_rank (Anomaly.severity b))%nat).
Proof.
  exact (C4_severity_by_score_brackets demo_env "svc-a" demo_world _
           [demo_anomaly] demo_run).
Defined.




(** On the window with one outlying cpu_usage the anomaly names cpu_usage
    and nothing else. *)
Lemma demo_affected_metrics :
  map Anomaly.affected_metrics [demo_anomaly] = ["cpu_usage"]
  /\ map read_affected_metrics
       (metrics_anomalies_rows
          (db (snd (detect_anomalies demo_env "svc-a" demo_world))))
     = [["cpu_usage"]].
Proof. split; vm_compute; reflexivity. Qed.


Lemma newer_first_positions (rows : list service_metrics.row) :
  StronglySorted newer_first rows ->
  forall (i j : nat) (r r' : service_metrics.row),
    (i < j)%nat -> nth_error rows i = Some r -> nth_error rows j = Some r' ->
    newer_first r r'.
Proof.
  induction 1 as [|a l Hs IH Hall]; intros i j r r' Hij Hi Hj.
  - destruct i; discriminate.
  - destruct j as [|j]; [lia|]. cbn in Hj. destruct i as [|i].
    + cbn in Hi. injection Hi as <-. rewrite Forall_forall in Hall.
      apply Hall. apply nth_error_In with j. exact Hj.
    + cbn in Hi. apply (IH i j); [lia | exact Hi | exact Hj].
Qed.

Lemma observation_pairs {A B : Type} (R Q : A -> B -> Prop) (l : list A)
  (l' : list B) :
  Forall2 R l l' ->
  (forall a b, In a l -> R a b -> Q a b) ->
  Forall2 Q l l'.
Proof.
  induction 1 as [|x y l l' Hxy Hrest IH]; intro Himp; constructor.
  - apply Himp; [left; reflexivity | exact Hxy].
  - apply IH. intros a b Ha. apply Himp. right. exact Ha.
Qed.

(** C6. With a window of at least 10 records in which no reading is NULL
    and on which the model returns scores and labels, [detect_anomalies]
    returns. The window is made of the records of the entity later than
    the cut-off, each once, no record newer than one before it. The
    anomalies returned are, in order, one record for each observation
    among the first five of the window that is labelled anomalous, and no
    other, so at most five; the record of an observation is built from a
    row than which no row outside the first five is newer. The call
    appends one row holding each returned record to the anomaly table, in
    the same order, and changes no metric record. *)
Theorem C6_detect_reports_recent_five :
  forall (env : environment) (service_name : string) (w : world)
         (X : list (list float)) (scores : list float)
         (predictions : list Z),
    (10 <= List.length (window env service_name w))%nat ->
    float64 (window env service_name w) = Some X ->
    ECOD_fit env X = Py.Ok (scores, predictions) ->
    exists rows observations anomalies stored w',
      detect_anomalies env service_name w = (Py.Ok anomalies, w')
      /\ Permutation rows
           (filter
              (fun r =>
                 String.eqb (service_metrics.service_name r) service_name
                 && String.ltb
                      (isoformat env
                         (now env (clock_reads w)
                          - 24 * microseconds_per_hour))
                      (service_metrics.timestamp r))
              (service_metrics_rows (db w)))
      /\ StronglySorted newer_first rows
      /\ float64 (map feature_tuple rows) = Some X
      /\ labelled_observations scores predictions observations
      /\ Forall2
           (fun obs a =>
              (exists r,
                  nth_error rows (fst obs) = Some r
                  /\ forall j r',
                       (5 <= j)%nat -> nth_error rows j = Some r' ->
                       newer_first r r')
              /\ reports env service_name X obs a)
           observations anomalies
      /\ (List.length anomalies <= 5)%nat
      /\ Forall2 persisted anomalies stored
      /\ metrics_anomalies_rows (db w')
         = (metrics_anomalies_rows (db w) ++ stored)%list
      /\ service_metrics_rows (db w') = service_metrics_rows (db w).
Proof.
  intros env service_name w X scores predictions Hge HX Hfit.
  destruct (detect_anomalies_outcome env service_name w)
    as [Hlt | _ HX' | X' e _ HX' Hfit'
        | X' scores' predictions' anomalies stored w' _ HX' Hfit' Hrep Hper
            Hrows Hmet]; try lia; try congruence.
  assert (X' = X) by congruence. subst X'.
  assert (scores' = scores /\ predictions' = predictions) as [-> ->].
  { rewrite Hfit in Hfit'. injection Hfit' as <- <-. auto. }
  pose proof (labelled_from_observations scores predictions) as Hobs.
  set (observations :=
         labelled_from 0 (combine (firstn 5 scores) (firstn 5 predictions)))
    in *.
  unfold window in Hge, HX. rewrite length_map in Hge.
  match type of HX with
  | context [select_window ?name ?cutoff ?d] =>
      pose proof (select_window_rows name cutoff d) as Hperm;
      pose proof (select_window_newer_first name cutoff d) as Hsorted;
      set (rows := select_window name cutoff d) in *
  end.
  exists rows, observations, anomalies, stored, w'.
  split; [reflexivity|]. split; [exact Hperm|]. split; [exact Hsorted|].
  split; [exact HX|]. split; [exact Hobs|]. split.
  { apply (observation_pairs _ _ _ _ Hrep). intros [i score] a Hin Ha.
    split; [|exact Ha]. cbn [fst].
    apply (proj2 Hobs) in Hin. destruct Hin as [Hi _].
    destruct (nth_error rows i) as [r|] eqn:Hr.
    2:{ apply nth_error_None in Hr. lia. }
    exists r. split; [reflexivity|]. intros j r' Hj Hr'.
    apply (newer_first_positions rows Hsorted i j); [lia | exact Hr | exact Hr']. }
  split.
  { rewrite <- (Forall2_length Hrep). unfold observations.
    etransitivity; [apply labelled_from_length|].
    rewrite length_combine, !length_firstn. lia. }
  repeat (split; [assumption|]). exact Hmet.
Qed.

Lemma C6_detect_witness :
  exists rows observations anomalies stored w',
    detect_anomalies demo_env "svc-a" demo_world = (Py.Ok anomalies, w')
    /\ Permutation rows
         (filter
            (fun r =>
               String.eqb (service_metrics.service_name r) "svc-a"
               && String.ltb
                    (isoformat demo_env
                       (now demo_env (clock_reads demo_world)
                        - 24 * microseconds_per_hour))
                    (service_metrics.timestamp r))
            (service_metrics_rows (db demo_world)))
    /\ StronglySorted newer_first rows
    /\ float64 (map feature_tuple rows) = Some demo_X
    /\ labelled_observations (0.95 :: repeat 0 15)%float (1 :: repeat 0 15)
         observations
    /\ Forall2
         (fun obs a =>
            (exists r,
                nth_error rows (fst obs) = Some r
                /\ forall j r',
                     (5 <= j)%nat -> nth_error rows j = Some r' ->
                     newer_first r r')
            /\ reports demo_env "svc-a" demo_X obs a)
         observations anomalies
    /\ (List.length anomalies <= 5)%nat
    /\ Forall2 persisted anomalies stored
    /\ metrics_anomalies_rows (db w')
       = (metrics_anomalies_rows (db demo_world) ++ stored)%list
    /\ service_metrics_rows (db w') = service_metrics_rows (db demo_world).
Proof.
  refine (C6_detect_reports_recent_five demo_env "svc-a" demo_world demo_X
            (0.95 :: repeat 0 15)%float (1 :: repeat 0 15) _ _ _).
  - vm_compute. lia.
  - vm_compute. reflexivity.
  - vm_compute. reflexivity.
Defined.

(** A window of ten records with a NULL reading: the call raises and
    returns no list. *)
Lemma C6_detect_counterexample :
  (10 <= List.length (window demo_env "svc-a" nan_world))%nat
  /\ fst (detect_anomalies demo_env "svc-a" nan_world)
     = Py.Raise Py.ValueError
  /\ metrics_anomalies_rows
       (db (snd (detect_anomalies demo_env "svc-a" nan_world))) = [].
Proof.
  split; [vm_compute; lia|]. split; vm_compute; reflexivity.
Qed.

(** ** The affected-metrics column *)

Lemma append_nil_r (s : string) : s ++ EmptyString = s.
Proof. induction s as [|c s IH]; cbn; [reflexivity|now rewrite IH]. Qed.

Lemma append_assoc (s t u : string) : (s ++ t) ++ u = s ++ (t ++ u).
Proof. induction s as [|c s IH]; cbn; [reflexivity|now rewrite IH]. Qed.

(** Scanning a name with no comma only lengthens the piece being read. *)
Lemma split_from_name (name cur rest : string) :
  no_comma name = true ->
  Py.split_from ", " 0 cur (name ++ rest)
  = Py.split_from ", " 0 (cur ++ name) rest.
Proof.
  revert cur. induction name as [|c name IH]; intros cur Hname.
  - cbn. now rewrite append_nil_r.
  - cbn in Hname. apply andb_true_iff in Hname. destruct Hname as [Hc Hname].
    cbn [append Py.split_from String.prefix].
    destruct (ascii_dec "," c) as [<-|_]; [discriminate Hc|].
    rewrite IH by exact Hname. rewrite append_assoc. reflexivity.
Qed.

Lemma split_from_separator (cur rest : string) :
  Py.split_from ", " 0 cur (", " ++ rest)
  = cur :: Py.split_from ", " 0 EmptyString rest.
Proof.
  assert (String.prefix ", " (", " ++ rest) = true) as Hprefix
    by (destruct rest; reflexivity).
  cbn [append] in *. cbn [Py.split_from]. rewrite Hprefix. reflexivity.
Qed.

Lemma split_join (name : string) (names : list string) :
  Forall (fun n => no_comma n = true) (name :: names) ->
  Py.split ", " (Py.join ", " (name :: names)) = name :: names.
Proof.
  unfold Py.split, Py.join. revert name.
  induction names as [|n names IH]; intros name Hall;
    inversion Hall as [|? ? Hname Hrest]; subst.
  - cbn [concat]. rewrite <- (append_nil_r name) at 1.
    rewrite split_from_name by exact Hname. reflexivity.
  - change (concat ", " (name :: n :: names))
      with (name ++ ", " ++ concat ", " (n :: names)).
    rewrite split_from_name by exact Hname.
    rewrite split_from_separator. cbn [append]. f_equal.
    apply IH. exact Hrest.
Qed.

Lemma metric_names_plain (name : string) :
  In name metric_names -> no_comma name = true /\ name <> EmptyString.
Proof.
  unfold metric_names. cbn [In].
  intros [<- | [<- | [<- | [<- | [<- | [<- | []]]]]]];
    (split; [reflexivity | discriminate]).
Qed.

(** C10. A list of feature names written to the affected-metrics column as
    their comma-space join is read back, by splitting on comma-space, as
    the same list: the row [_store_anomaly] inserts for an anomaly carrying
    the join reads back as the list; the empty list is written as the empty
    string, which reads back as the empty list. *)
Theorem C10_affected_metrics_round_trip :
  forall (affected : list string) (created_at : string) (a : Anomaly.t)
         (d : database),
    Forall (fun name => In name metric_names) affected ->
    Anomaly.affected_metrics a = Py.join ", " affected ->
    exists d',
      insert_metrics_anomalies created_at a d = Py.Ok d'
      /\ map read_affected_metrics (metrics_anomalies_rows d')
         = (map read_affected_metrics (metrics_anomalies_rows d)
            ++ [affected])%list
      /\ (affected = [] <-> Anomaly.affected_metrics a = EmptyString).
Proof.
  intros affected created_at a d Hall Hjoin.
  unfold insert_metrics_anomalies. eexists. split; [reflexivity|].
  cbn [metrics_anomalies_rows]. rewrite map_app. cbn [map].
  unfold read_affected_metrics at 2. cbn [metrics_anomalies.affected_metrics].
  rewrite Hjoin.
  destruct affected as [|name names].
  - cbn. split; [reflexivity|]. split; reflexivity.
  - assert (Py.join ", " (name :: names) <> EmptyString) as Hne.
    { inversion Hall as [|? ? Hname _]; subst.
      apply metric_names_plain in Hname. destruct Hname as [_ Hname].
      unfold Py.join. destruct name as [|c name]; [congruence|].
      destruct names; cbn; discriminate. }
    apply String.eqb_neq in Hne. rewrite Hne.
    rewrite split_join.
    + split; [reflexivity|]. split; [discriminate|].
      intro H. apply String.eqb_neq in Hne. contradiction.
    + eapply Forall_impl; [|exact Hall].
      intros n Hn. apply metric_names_plain. exact Hn.
Qed.

Lemma C10_round_trip_witness :
  exists d',
    insert_metrics_anomalies "2024-01-01 00:00:00"
      (Anomaly.mk "svc-a" "2024-01-01T00:00:00" "metric_deviation" "high" 0.8
         "error_rate, cpu_usage"
         "High anomaly: unusual patterns in error_rate, cpu_usage")
      empty_database = Py.Ok d'
    /\ map read_affected_metrics (metrics_anomalies_rows d')
       = (map read_affected_metrics (metrics_anomalies_rows empty_database)
          ++ [["error_rate"; "cpu_usage"]])%list
    /\ (["error_rate"; "cpu_usage"] = []
        <-> "error_rate, cpu_usage" = EmptyString).
Proof.
  apply (C10_affected_metrics_round_trip ["error_rate"; "cpu_usage"]).
  - repeat constructor; cbn; tauto.
  - reflexivity.
Defined.

(** ** Metrics collector *)

(** A request that fails, or whose body does not decode, reads as 0.0. *)
Lemma read_absorbs_request_failure (env : environment) (q : string)
  (w : world) (e : Py.exn) :
  requests_get_json env (http_calls w) (PROMETHEUS_URL ++ "/api/v1/query") q
  = Py.Raise e ->
  fst (read env q w) = Py.Ok 0%float.
Proof.
  intro Hfail. unfold read, mbind, query. rewrite Hfail. reflexivity.
Qed.

(** A reading that is a text [float] refuses reads as 0.0. *)
Lemma _extract_value_absorbs_text (env : environment) (s : string) :
  float_of_str env s = None ->
  _extract_value env (response_with (Py.JStr s)) = Py.Ok 0%float.
Proof.
  intro Hs. unfold _extract_value, extract_try. cbn. rewrite Hs. reflexivity.
Qed.

(** C7, as the code has it: a success response whose reading is JSON null
    makes [_extract_value] raise [TypeError], which its handler does not
    list, and [collect_service_metrics] raises with it; and a restart count
    whose reading is the text NaN passes [_extract_value] as a NaN, on which
    [int] raises [ValueError] in [collect_service_metrics]. In both cases no
    record is produced. *)
Theorem C7_collect_raises_on_malformed_reading :
  _extract_value (source_env Py.JNull) (response_with Py.JNull)
  = Py.Raise Py.TypeError
  /\ fst (collect_service_metrics (source_env Py.JNull) "api-gateway"
            empty_world)
     = Py.Raise Py.TypeError
  /\ fst (collect_service_metrics (source_env (Py.JStr "NaN")) "api-gateway"
            empty_world)
     = Py.Raise Py.ValueError.
Proof.
  split; [|split]; vm_compute; reflexivity.
Qed.

(** ** Scheduler *)

Section SchedulerFacts.

Context {W : Type} (ops : operations W).

#[local] Open Scope stmt_scope.

Lemma process_run_entity (service_name : string) (w : W)
  (trace : list event) :
  process ops service_name (w, trace)
  = (fst (run_entity ops service_name w),
     (snd (run_entity ops service_name w), trace)).
Proof.
  unfold process, run_entity, mbind, on_world, ret. cbn [fst snd].
  destruct (collect ops service_name w) as [[metrics|e] w1]; cbn [fst snd];
    [|reflexivity].
  destruct (store ops metrics w1) as [[u|e] w2]; cbn [fst snd];
    [|reflexivity].
  destruct (detect ops service_name w2) as [[anomalies|e] w3]; reflexivity.
Qed.

Lemma guarded_returns (service_name : string) (w : W) (trace : list event) :
  guarded ops service_name (w, trace)
  = (Py.Ok tt,
     (snd (run_entity ops service_name w),
      (trace ++ entity_events service_name
                  (fst (run_entity ops service_name w)))%list)).
Proof.
  unfold guarded, try_except. rewrite process_run_entity.
  destruct (run_entity ops service_name w) as [[[]|e] w1]; cbn.
  - rewrite app_nil_r. reflexivity.
  - reflexivity.
Qed.

Lemma for_services_returns (services : list string) :
  forall (w : W) (trace : list event),
    for_services ops services (w, trace)
    = (Py.Ok tt,
       (fst (after_services ops services w),
        (trace ++ snd (after_services ops services w))%list)).
Proof.
  induction services as [|service_name rest IH]; intros w trace.
  - cbn. rewrite app_nil_r. reflexivity.
  - cbn [for_services after_services]. unfold mbind.
    rewrite guarded_returns, IH.
    destruct (run_entity ops service_name w) as [r w1]. cbn [fst snd].
    destruct (after_services ops rest w1) as [w2 evs]. cbn [fst snd].
    rewrite <- app_assoc. reflexivity.
Qed.

Lemma tick_returns (s : sched) :
  tick ops s
  = (Py.Ok tt,
     match active_services ops (fst s) with
     | (Py.Ok services, w1) =>
         (fst (after_services ops services w1),
          (snd s ++ snd (after_services ops services w1) ++ [Sleep 60])%list)
     | (Py.Raise e, w1) =>
         (w1, (snd s ++ [PrintBackgroundError e; Sleep 60])%list)
     end).
Proof.
  destruct s as [w trace].
  unfold tick, try_except, mbind, on_world, emit. cbn [fst snd].
  destruct (active_services ops w) as [[services|e] w1].
  - rewrite for_services_returns. cbn [fst snd].
    rewrite <- app_assoc. reflexivity.
  - cbn [fst snd]. rewrite <- app_assoc. reflexivity.
Qed.

Lemma sleeps_app (t1 t2 : list event) :
  sleeps (t1 ++ t2) = (sleeps t1 + sleeps t2)%nat.
Proof. unfold sleeps. rewrite filter_app, length_app. reflexivity. Qed.

Lemma after_services_no_sleep (services : list string) :
  forall w, sleeps (snd (after_services ops services w)) = 0%nat.
Proof.
  induction services as [|n rest IH]; intro w; cbn; [reflexivity|].
  destruct (run_entity ops n w) as [r w1].
  specialize (IH w1). destruct (after_services ops rest w1) as [w2 evs].
  cbn [snd] in *. rewrite sleeps_app, IH.
  destruct r; reflexivity.
Qed.

Lemma tick_sleeps_once (s : sched) :
  sleeps (snd (snd (tick ops s))) = S (sleeps (snd s)).
Proof.
  rewrite tick_returns. cbn [snd].
  destruct (active_services ops (fst s)) as [[services|e] w1]; cbn [snd];
    rewrite !sleeps_app.
  - rewrite after_services_no_sleep. cbn. lia.
  - cbn. lia.
Qed.

Lemma background_collector_loops (fuel : nat) :
  forall s : sched,
    exists s',
      background_collector ops fuel s = Looping s'
      /\ sleeps (snd s') = (sleeps (snd s) + fuel)%nat.
Proof.
  induction fuel as [|fuel IH]; intro s; cbn [background_collector].
  - exists s. split; [reflexivity|lia].
  - pose proof (tick_sleeps_once s) as Hsleep.
    rewrite tick_returns in *. cbn [snd] in Hsleep.
    match goal with
    | |- context [background_collector ops fuel ?s1] =>
        destruct (IH s1) as [s' [Hrun Hs']]
    end.
    exists s'. split; [exact Hrun|]. rewrite Hs', Hsleep. lia.
Qed.

End SchedulerFacts.

(** C8. Whatever the four operations do, one pass of the loop of
    [background_collector] returns without raising: when the query of the
    active entities returns, every listed entity is run in turn from the
    state the one before it left, an entity that raised leaving only a
    printed line, and the pass ends in a wait of 60 seconds; when the query
    raises, the pass prints and waits 60 seconds. So for every number of
    passes the loop is still looping after them, having waited once per
    pass. *)
Theorem C8_scheduler_isolates_failures :
  forall (W : Type) (ops : operations W) (s : W * list event),
    tick ops s
    = (Py.Ok tt,
       match active_services ops (fst s) with
       | (Py.Ok services, w1) =>
           (fst (after_services ops services w1),
            (snd s ++ snd (after_services ops services w1) ++ [Sleep 60])%list)
       | (Py.Raise e, w1) =>
           (w1, (snd s ++ [PrintBackgroundError e; Sleep 60])%list)
       end)
    /\ (forall (service_name : string) (rest : list string) (w : W),
           after_services ops (service_name :: rest) w
           = (fst (after_services ops rest
                     (snd (run_entity ops service_name w))),
              (entity_events service_name
                 (fst (run_entity ops service_name w))
               ++ snd (after_services ops rest
                         (snd (run_entity ops service_name w))))%list))
    /\ (forall fuel : nat,
           exists s',
             background_collector ops fuel s = Looping s'
             /\ sleeps (snd s') = (sleeps (snd s) + fuel)%nat).
Proof.
  intros W ops s. split; [apply tick_returns|]. split.
  - intros service_name rest w. cbn [after_services].
    destruct (run_entity ops service_name w) as [r w1]. cbn [fst snd].
    destruct (after_services ops rest w1); reflexivity.
  - intro fuel. apply background_collector_loops.
Qed.

(** Two active entities in front of a metric source whose readings are JSON
    null: both collections raise, both are printed, and the pass ends in
    its wait. *)
Lemma tick_runs_every_entity :
  snd (snd (tick (pipeline (source_env Py.JNull)) (two_services_world, [])))
  = [PrintCollectError "svc-a" Py.TypeError;
     PrintCollectError "svc-b" Py.TypeError;
     Sleep 60].
Proof. vm_compute. reflexivity. Qed.

(* ================================================================= *)
(** * Further properties of the application *)

(** ** ORDER BY *)

Section OrderBy.

Context {A : Type} (timestamp : A -> string) (dir : direction).

Lemma in_order_trans (a b c : A) :
  in_order timestamp dir a b -> in_order timestamp dir b c ->
  in_order timestamp dir a c.
Proof.
  unfold in_order. destruct dir; intros H1 H2;
    [exact (leb_trans _ _ _ H1 H2) | exact (leb_trans _ _ _ H2 H1)].
Qed.

Lemma insert_ordered_perm (r : A) (sorted : list A) :
  Permutation (insert_ordered timestamp dir r sorted) (r :: sorted).
Proof.
  induction sorted as [|r' rest IH]; cbn; [reflexivity|].
  destruct (match dir with
            | ASC => String.leb (timestamp r) (timestamp r')
            | DESC => String.leb (timestamp r') (timestamp r)
            end); [reflexivity|].
  rewrite IH. apply perm_swap.
Qed.

Lemma order_by_perm (rows : list A) :
  Permutation (order_by timestamp dir rows) rows.
Proof.
  induction rows as [|r rows IH]; cbn; [reflexivity|].
  rewrite insert_ordered_perm. now constructor.
Qed.

Lemma order_by_In (rows : list A) (r : A) :
  In r (order_by timestamp dir rows) <-> In r rows.
Proof.
  split; apply Permutation_in;
    [apply order_by_perm | symmetry; apply order_by_perm].
Qed.

Lemma insert_ordered_sorted (r : A) (sorted : list A) :
  StronglySorted (in_order timestamp dir) sorted ->
  StronglySorted (in_order timestamp dir)
    (insert_ordered timestamp dir r sorted).
Proof.
  induction sorted as [|r' rest IH]; cbn; intro Hs.
  - repeat constructor.
  - apply StronglySorted_inv in Hs. destruct Hs as [Hrest Hall].
    destruct (match dir with
              | ASC => String.leb (timestamp r) (timestamp r')
              | DESC => String.leb (timestamp r') (timestamp r)
              end) eqn:Hlt.
    + assert (in_order timestamp dir r r') as Hrr'.
      { unfold in_order. destruct dir; exact Hlt. }
      constructor; [constructor; assumption|].
      constructor; [exact Hrr'|].
      eapply Forall_impl; [|exact Hall].
      intros x Hx. exact (in_order_trans _ _ _ Hrr' Hx).
    + constructor; [apply IH; exact Hrest|].
      rewrite Forall_forall. intros x Hx.
      apply (Permutation_in _ (insert_ordered_perm r rest)) in Hx.
      destruct Hx as [<- | Hx].
      * unfold in_order. destruct dir; apply leb_false_leb; exact Hlt.
      * rewrite Forall_forall in Hall. apply Hall. exact Hx.
Qed.

Lemma order_by_sorted (rows : list A) :
  StronglySorted (in_order timestamp dir) (order_by timestamp dir rows).
Proof.
  induction rows as [|r rows IH]; cbn; [constructor|].
  apply insert_ordered_sorted. exact IH.
Qed.

(** The rows of an order that pass a test are those of the table. *)
Lemma insert_ordered_filter (keep : A -> bool) (r : A) (sorted : list A) :
  Permutation (filter keep (insert_ordered timestamp dir r sorted))
    (filter keep (r :: sorted)).
Proof.
  induction sorted as [|r' rest IH]; [reflexivity|].
  cbn [insert_ordered].
  destruct (match dir with
            | ASC => String.leb (timestamp r) (timestamp r')
            | DESC => String.leb (timestamp r') (timestamp r)
            end); [reflexivity|].
  cbn [filter] in *.
  destruct (keep r'), (keep r); try exact IH.
  - rewrite IH. apply perm_swap.
  - constructor. exact IH.
Qed.

Lemma order_by_filter (keep : A -> bool) (rows : list A) :
  Permutation (filter keep (order_by timestamp dir rows)) (filter keep rows).
Proof.
  induction rows as [|r rows IH]; [reflexivity|].
  cbn [order_by fold_right]. fold (order_by timestamp dir rows).
  rewrite insert_ordered_filter. cbn [filter].
  destruct (keep r); [constructor|]; exact IH.
Qed.

(** Rows equal in the column come out in the order of the table. *)
Lemma insert_ordered_ties (t : string) (r : A) (sorted : list A) :
  filter (fun x => String.eqb (timestamp x) t)
    (insert_ordered timestamp dir r sorted)
  = filter (fun x => String.eqb (timestamp x) t) (r :: sorted).
Proof.
  induction sorted as [|r' rest IH]; [reflexivity|].
  cbn [insert_ordered].
  destruct (match dir with
            | ASC => String.leb (timestamp r) (timestamp r')
            | DESC => String.leb (timestamp r') (timestamp r)
            end) eqn:Hcond; [reflexivity|].
  cbn [filter] in *. rewrite IH.
  destruct (String.eqb_spec (timestamp r') t) as [Hr' | _]; [|reflexivity].
  destruct (String.eqb_spec (timestamp r) t) as [Hr | _]; [|reflexivity].
  exfalso. rewrite Hr, Hr' in Hcond.
  destruct dir; rewrite leb_refl in Hcond; discriminate.
Qed.

Lemma order_by_ties (t : string) (rows : list A) :
  filter (fun x => String.eqb (timestamp x) t) (order_by timestamp dir rows)
  = filter (fun x => String.eqb (timestamp x) t) rows.
Proof.
  induction rows as [|r rows IH]; [reflexivity|].
  cbn [order_by fold_right]. fold (order_by timestamp dir rows).
  rewrite insert_ordered_ties. cbn [filter]. rewrite IH. reflexivity.
Qed.

End OrderBy.

(** ** Rows of one entity *)

Lemma key_injective (rows : list service_metrics.row)
  (a b : service_metrics.row) :
  NoDup (map metric_key rows) -> In a rows -> In b rows ->
  metric_key a = metric_key b -> a = b.
Proof.
  induction rows as [|r rows IH]; cbn; intros Hnd Ha Hb Hkey; [contradiction|].
  apply NoDup_cons_iff in Hnd. destruct Hnd as [Hfresh Hnd].
  destruct Ha as [-> | Ha], Hb as [-> | Hb]; auto.
  - exfalso. apply Hfresh. rewrite Hkey. apply in_map. exact Hb.
  - exfalso. apply Hfresh. rewrite <- Hkey. apply in_map. exact Ha.
Qed.

Lemma rows_of_In (name : string) (d : database) (r : service_metrics.row) :
  In r (rows_of name d)
  <-> In r (service_metrics_rows d) /\ service_metrics.service_name r = name.
Proof.
  unfold rows_of. rewrite filter_In, String.eqb_eq. reflexivity.
Qed.

Lemma strictly_sorted_rows (dir : direction) (name : string)
  (rows : list service_metrics.row) :
  StronglySorted (in_order service_metrics.timestamp dir) rows ->
  NoDup (map metric_key rows) ->
  Forall (fun r => service_metrics.service_name r = name) rows ->
  StronglySorted (strictly_in_order service_metrics.timestamp dir) rows.
Proof.
  induction 1 as [|a l Hs IH Hall]; intros Hnd Hname; [constructor|].
  apply NoDup_cons_iff in Hnd. destruct Hnd as [Hfresh Hnd].
  apply Forall_cons_iff in Hname. destruct Hname as [Ha Hl].
  constructor; [auto|].
  rewrite Forall_forall in *. intros x Hx.
  assert (service_metrics.timestamp a <> service_metrics.timestamp x) as Hne.
  { intro Heq. apply Hfresh. apply in_map_iff. exists x. split; [|exact Hx].
    unfold metric_key. rewrite Heq, Ha, (Hl x Hx). reflexivity. }
  specialize (Hall x Hx). unfold in_order, strictly_in_order in *.
  destruct dir; apply leb_neq_ltb; auto.
Qed.

(** The first row of a descending order is a latest one. *)
Lemma first_of_descending {A : Type} (timestamp : A -> string)
  (rows : list A) :
  match firstn 1 (order_by timestamp DESC rows) with
  | [] => rows = []
  | r :: rest =>
      rest = [] /\ In r rows
      /\ forall r', In r' rows ->
                    String.leb (timestamp r') (timestamp r) = true
  end.
Proof.
  pose proof (order_by_perm timestamp DESC rows) as Hperm.
  pose proof (order_by_sorted timestamp DESC rows) as Hsorted.
  destruct (order_by timestamp DESC rows) as [|r l]; cbn.
  - apply Permutation_nil. exact Hperm.
  - split; [reflexivity|]. split.
    + apply (Permutation_in _ Hperm). left. reflexivity.
    + apply StronglySorted_inv in Hsorted. destruct Hsorted as [_ Hall].
      rewrite Forall_forall in Hall. intros r' Hr'.
      apply (Permutation_in _ (Permutation_sym Hperm)) in Hr'.
      destruct Hr' as [<- | Hr']; [apply leb_refl | exact (Hall r' Hr')].
Qed.

(** ** History of an entity *)

Lemma minus_hours_raises (t hours : Z) (e : Py.exn) :
  minus_hours t hours = Py.Raise e -> e = Py.OverflowError.
Proof.
  unfold minus_hours.
  destruct (_ || _); [intros [= <-]; reflexivity|].
  destruct (_ || _); [intros [= <-]; reflexivity | discriminate].
Qed.

Lemma select_history_rows (name cutoff : string) (d : database) :
  Permutation (select_history name cutoff d)
    (filter (fun r =>
               String.eqb (service_metrics.service_name r) name
               && String.ltb cutoff (service_metrics.timestamp r))
            (service_metrics_rows d))
  /\ StronglySorted (in_order service_metrics.timestamp ASC)
       (select_history name cutoff d)
  /\ (key_invariant d ->
      StronglySorted (strictly_in_order service_metrics.timestamp ASC)
        (select_history name cutoff d)).
Proof.
  unfold select_history.
  split; [apply order_by_perm|]. split; [apply order_by_sorted|].
  intro Hinv. apply (strictly_sorted_rows ASC name).
  - apply order_by_sorted.
  - apply (Permutation_NoDup
             (Permutation_map metric_key
                (Permutation_sym (order_by_perm _ _ _)))).
    apply keys_distinct_after_delete. exact Hinv.
  - rewrite Forall_forall. intros r Hr.
    rewrite order_by_In, filter_In, andb_true_iff, String.eqb_eq in Hr.
    tauto.
Qed.

(** X5. [get_metrics_history] never writes the database. It converts its
    [hours] argument first: when [int] refuses the text it raises
    [ValueError], whatever the service. Otherwise, without a service, or
    with an empty one, it answers 400 and reads nothing, not even the
    clock. With a service it raises [OverflowError] when the hours are more
    than a [timedelta] or a date can hold, and otherwise answers 200 with
    exactly the records of that entity later than the cut-off, each once,
    in increasing order of timestamp, strictly so where the store holds
    one record per key. *)
Theorem get_metrics_history_chronological :
  forall (env : environment) (int_of_str : string -> option Z)
         (service hours : option string) (w : world),
    db (snd (get_metrics_history env int_of_str service hours w)) = db w
    /\ match hours_asked int_of_str hours with
       | None =>
           get_metrics_history env int_of_str service hours w
           = (Py.Raise Py.ValueError, w)
       | Some h =>
           match given service with
           | None =>
               get_metrics_history env int_of_str service hours w
               = (Py.Ok (mk_response 400
                           (HistoryError "service parameter required")),
                  w)
           | Some name =>
               match minus_hours (now env (clock_reads w)) h with
               | Py.Raise e =>
                   e = Py.OverflowError
                   /\ fst (get_metrics_history env int_of_str service hours w)
                      = Py.Raise Py.OverflowError
               | Py.Ok cutoff =>
                   exists rows,
                     fst (get_metrics_history env int_of_str service hours w)
                     = Py.Ok (mk_response 200
                                (History (map history_entry rows)))
                     /\ Permutation rows
                          (filter
                             (fun r =>
                                String.eqb (service_metrics.service_name r)
                                  name
                                && String.ltb (isoformat env cutoff)
                                     (service_metrics.timestamp r))
                             (service_metrics_rows (db w)))
                     /\ StronglySorted
                          (in_order service_metrics.timestamp ASC) rows
                     /\ (key_invariant (db w) ->
                         StronglySorted
                           (strictly_in_order service_metrics.timestamp ASC)
                           rows)
               end
           end
       end.
Proof.
  intros env int_of_str service hours w.
  unfold get_metrics_history, hours_asked, hours_argument, mbind, lift.
  destruct hours as [text|]; [destruct (int_of_str text) as [h|]|];
    try (split; reflexivity).
  all: destruct (given service) as [name|]; [|split; reflexivity].
  all: unfold datetime_now; cbn [db clock_reads http_calls].
  all: match goal with
       | |- context [minus_hours ?t ?h] =>
           destruct (minus_hours t h) as [cutoff|e] eqn:Hcut
       end.
  all: cbn [db fst snd]; split; try reflexivity.
  all: try (split; [exact (minus_hours_raises _ _ _ Hcut)|];
            rewrite (minus_hours_raises _ _ _ Hcut); reflexivity).
  all: eexists; split; [reflexivity|]; apply select_history_rows.
Qed.

Lemma demo_world_invariant : key_invariant (db demo_world).
Proof.
  unfold demo_world, store_all, demo_history.
  assert (forall history w,
             key_invariant (db w) ->
             key_invariant
               (db (fold_left (fun w m => snd (store_metrics demo_env m w))
                              history w))) as Hfold.
  { induction history as [|m history IH]; intros w Hw; cbn [fold_left];
      [exact Hw|].
    apply IH. apply store_metrics_invariant. exact Hw. }
  apply Hfold. constructor.
Qed.

(** ** Health summary *)

Lemma max_timestamp_spec (rows : list service_metrics.row) :
  match max_timestamp rows with
  | None => rows = []
  | Some m =>
      (exists r, In r rows /\ service_metrics.timestamp r = m)
      /\ forall r, In r rows ->
                   String.leb (service_metrics.timestamp r) m = true
  end.
Proof.
  induction rows as [|r rows IH]; cbn; [reflexivity|].
  destruct (max_timestamp rows) as [t|].
  - destruct IH as [[r0 [Hin Hts]] Hmax].
    destruct (String.ltb t (service_metrics.timestamp r)) eqn:Hlt.
    + split; [exists r; auto|].
      intros r' [<- | Hr']; [apply leb_refl|].
      apply leb_trans with t; [auto | apply ltb_true_leb; exact Hlt].
    + split; [exists r0; auto|].
      intros r' [<- | Hr']; [apply ltb_false_leb; exact Hlt | auto].
  - subst rows. split; [exists r; auto|].
    intros r' [<- | []]. apply leb_refl.
Qed.

Lemma row_of_key (d : database) (r : service_metrics.row) :
  key_invariant d -> In r (service_metrics_rows d) ->
  filter (has_key (service_metrics.service_name r)
                  (service_metrics.timestamp r))
         (service_metrics_rows d) = [r].
Proof.
  intros Hinv Hin.
  pose proof (keys_distinct_after_delete (service_metrics_rows d)
                (has_key (service_metrics.service_name r)
                         (service_metrics.timestamp r)) Hinv) as Hnd.
  assert (forall x,
             In x (filter (has_key (service_metrics.service_name r)
                                   (service_metrics.timestamp r))
                          (service_metrics_rows d)) ->
             x = r) as Hall.
  { intros x Hx. apply filter_In in Hx. destruct Hx as [Hx Hk].
    apply has_key_spec in Hk.
    apply (key_injective (service_metrics_rows d)); auto. }
  assert (In r (filter (has_key (service_metrics.service_name r)
                                (service_metrics.timestamp r))
                       (service_metrics_rows d))) as Hr.
  { apply filter_In. split; [exact Hin|]. apply has_key_spec. reflexivity. }
  destruct (filter _ (service_metrics_rows d)) as [|a [|b l]].
  - destruct Hr.
  - f_equal. apply Hall. left. reflexivity.
  - exfalso. cbn in Hnd. apply NoDup_cons_iff in Hnd. destruct Hnd as [Hfresh _].
    apply Hfresh. left.
    rewrite (Hall a), (Hall b); cbn; auto.
Qed.

Lemma filter_twice {A : Type} (f g h : A -> bool) (l : list A) :
  (forall x, In x l -> f x && g x = h x) ->
  filter f (filter g l) = filter h l.
Proof.
  induction l as [|a l IH]; intro Hfg; cbn; [reflexivity|].
  pose proof (Hfg a (or_introl eq_refl)) as Ha.
  rewrite <- IH by (intros x Hx; apply Hfg; right; exact Hx).
  destruct (g a); cbn.
  - rewrite andb_true_r in Ha. rewrite Ha. reflexivity.
  - rewrite andb_false_r in Ha. rewrite <- Ha. reflexivity.
Qed.

Lemma filter_none {A : Type} (l : list A) :
  filter (fun _ => false) l = [].
Proof. induction l; cbn; auto. Qed.

(** Among the rows whose timestamp is the greatest of their entity, the
    one of an entity is the entity's latest row. *)
Lemma latest_rows_of (name : string) (d : database) :
  key_invariant d ->
  filter (fun r => String.eqb (service_metrics.service_name r) name)
    (filter (fun r =>
               match max_timestamp (rows_of (service_metrics.service_name r) d)
               with
               | Some t => String.eqb (service_metrics.timestamp r) t
               | None => false
               end)
            (service_metrics_rows d))
  = latest_of name d.
Proof.
  intro Hinv. unfold latest_of.
  pose proof (max_timestamp_spec (rows_of name d)) as Hmax.
  pose proof (first_of_descending service_metrics.timestamp (rows_of name d))
    as Hfirst.
  destruct (max_timestamp (rows_of name d)) as [m|] eqn:Hm.
  - destruct Hmax as [[r0 [Hin0 Hts0]] Hmax].
    pose proof Hin0 as Hr0. apply rows_of_In in Hr0.
    destruct Hr0 as [Htable0 Hname0].
    rewrite (filter_twice _ _ (has_key name m)).
    2:{ intros x Hx. unfold has_key.
        destruct (String.eqb_spec (service_metrics.service_name x) name)
          as [-> | _]; [|reflexivity].
        rewrite Hm. reflexivity. }
    assert (filter (has_key name m) (service_metrics_rows d) = [r0]) as ->.
    { rewrite <- Hname0, <- Hts0. apply row_of_key; assumption. }
    destruct (firstn 1 _) as [|h rest].
    + rewrite Hfirst in Hin0. destruct Hin0.
    + destruct Hfirst as [-> [Hinh Hlatest]]. f_equal.
      pose proof Hinh as Hh. apply rows_of_In in Hh.
      destruct Hh as [Htableh Hnameh].
      apply (key_injective (service_metrics_rows d)); auto.
      unfold metric_key. rewrite Hname0, Hnameh. f_equal.
      apply String.leb_antisym.
      * apply Hlatest. exact Hin0.
      * rewrite Hts0. apply Hmax. exact Hinh.
  - rewrite (filter_twice _ _ (fun _ => false)).
    2:{ intros x Hx.
        destruct (String.eqb_spec (service_metrics.service_name x) name)
          as [Hname | _]; [|reflexivity].
        exfalso. assert (In x (rows_of name d)) as Hrx
          by (apply rows_of_In; auto).
        rewrite Hmax in Hrx. destruct Hrx. }
    rewrite filter_none, Hmax. reflexivity.
Qed.

Lemma at_most_one_row (l l' : list service_metrics.row) :
  Permutation l l' -> (List.length l' <= 1)%nat -> l = l'.
Proof.
  intros Hperm Hlen. destruct l' as [|a [|b l']]; cbn in Hlen; [| |lia].
  - apply Permutation_nil. symmetry. exact Hperm.
  - apply Permutation_length_1_inv. symmetry. exact Hperm.
Qed.

(** The join restricted to one entity is the entity's latest row. *)
Lemma latest_per_service_of (name : string) (d : database) :
  key_invariant d ->
  filter (fun r => String.eqb (service_metrics.service_name r) name)
         (latest_per_service d)
  = latest_of name d.
Proof.
  intro Hinv. unfold latest_per_service.
  apply at_most_one_row.
  - rewrite order_by_filter, (latest_rows_of name d Hinv). reflexivity.
  - unfold latest_of. rewrite length_firstn. lia.
Qed.

(** X2. [get_health_summary] for one entity answers with no entry when the
    store holds no record of the entity, and otherwise with a single entry,
    made from a stored record of that entity than which the entity has no
    later one. *)
Theorem get_health_summary_latest :
  forall (service : option string) (name : string) (w : world),
    given service = Some name ->
    exists rows,
      get_health_summary service w
      = (Py.Ok (mk_response 200 (map health_entry rows)), w)
      /\ match rows with
         | [] => rows_of name (db w) = []
         | r :: rest =>
             rest = []
             /\ In r (service_metrics_rows (db w))
             /\ service_metrics.service_name r = name
             /\ forall r',
                  In r' (service_metrics_rows (db w)) ->
                  service_metrics.service_name r' = name ->
                  String.leb (service_metrics.timestamp r')
                             (service_metrics.timestamp r) = true
         end.
Proof.
  intros service name w Hgiven.
  unfold get_health_summary. rewrite Hgiven.
  exists (latest_of name (db w)). split; [reflexivity|].
  unfold latest_of.
  pose proof (first_of_descending service_metrics.timestamp
                (rows_of name (db w))) as Hfirst.
  destruct (firstn 1 _) as [|r rest]; [exact Hfirst|].
  destruct Hfirst as [Hrest [Hin Hlatest]].
  apply rows_of_In in Hin. destruct Hin as [Hin Hname].
  repeat (split; [assumption|]).
  intros r' Hr' Hname'. apply Hlatest. apply rows_of_In. auto.
Qed.

Lemma get_health_summary_latest_witness :
  exists rows,
    get_health_summary (Some "svc-a") demo_world
    = (Py.Ok (mk_response 200 (map health_entry rows)), demo_world)
    /\ match rows with
       | [] => rows_of "svc-a" (db demo_world) = []
       | r :: rest =>
           rest = []
           /\ In r (service_metrics_rows (db demo_world))
           /\ service_metrics.service_name r = "svc-a"
           /\ forall r',
                In r' (service_metrics_rows (db demo_world)) ->
                service_metrics.service_name r' = "svc-a" ->
                String.leb (service_metrics.timestamp r')
                           (service_metrics.timestamp r) = true
       end.
Proof.
  exact (get_health_summary_latest (Some "svc-a") "svc-a" demo_world
           eq_refl).
Defined.

(** X3. Where the store holds one record per key, the summary of all
    entities, restricted to the entries of one entity, is the summary asked
    for that entity alone: one entry for each entity that has records, its
    latest, and none for the others. *)
Theorem get_health_summary_all_agrees :
  forall (service : option string) (name : string) (w : world),
    key_invariant (db w) ->
    given service = None ->
    name <> EmptyString ->
    exists all one,
      get_health_summary service w = (Py.Ok (mk_response 200 all), w)
      /\ get_health_summary (Some name) w
         = (Py.Ok (mk_response 200 one), w)
      /\ filter (fun e => String.eqb (HealthEntry.service_name e) name) all
         = one.
Proof.
  intros service name w Hinv Hnone Hname.
  unfold get_health_summary. rewrite Hnone.
  assert (given (Some name) = Some name) as ->
    by (destruct name; [contradiction | reflexivity]).
  eexists. eexists. split; [reflexivity|]. split; [reflexivity|].
  rewrite <- (latest_per_service_of name (db w) Hinv).
  induction (latest_per_service (db w)) as [|r rows IH]; cbn; [reflexivity|].
  destruct (String.eqb (service_metrics.service_name r) name); cbn;
    rewrite IH; reflexivity.
Qed.

Lemma get_health_summary_all_witness :
  exists all one,
    get_health_summary None demo_world
    = (Py.Ok (mk_response 200 all), demo_world)
    /\ get_health_summary (Some "svc-a") demo_world
       = (Py.Ok (mk_response 200 one), demo_world)
    /\ filter (fun e => String.eqb (HealthEntry.service_name e) "svc-a") all
       = one.
Proof.
  apply (get_health_summary_all_agrees None "svc-a" demo_world
           demo_world_invariant eq_refl).
  discriminate.
Defined.

(** X4. Every entry of a health summary, for one entity or for all, has a
    score between 25 and 100 and the status of that score: healthy from 90,
    degraded from 70, warning from 50, critical below. *)
Theorem get_health_summary_scores :
  forall (service : option string) (w : world),
    exists entries,
      get_health_summary service w
      = (Py.Ok (mk_response 200 entries), w)
      /\ Forall
           (fun e =>
              25 <= HealthEntry.health_score e <= 100
              /\ (HealthEntry.status e = "healthy"
                  <-> 90 <= HealthEntry.health_score e)
              /\ (HealthEntry.status e = "degraded"
                  <-> 70 <= HealthEntry.health_score e < 90)
              /\ (HealthEntry.status e = "warning"
                  <-> 50 <= HealthEntry.health_score e < 70)
              /\ (HealthEntry.status e = "critical"
                  <-> HealthEntry.health_score e < 50))
           entries.
Proof.
  intros service w. unfold get_health_summary.
  eexists. split; [reflexivity|].
  apply Forall_forall. intros e He. apply in_map_iff in He.
  destruct He as [r [<- _]]. cbn.
  split; [apply calculate_health_score_range|].
  apply get_status_from_health_brackets.
Qed.

(** ** Registry *)






(** ** Collector *)

Lemma reads_only_bind {A B : Type} (P : Py.exn -> Prop) (m : M world A)
  (k : A -> M world B) :
  reads_only P m -> (forall a, reads_only P (k a)) ->
  reads_only P (mbind m k).
Proof.
  intros Hm Hk w. unfold mbind. specialize (Hm w).
  destruct (m w) as [[a|e] w1]; cbn [fst snd] in *.
  - destruct Hm as [Hdb _]. specialize (Hk a w1).
    destruct (k a w1) as [r w2]. cbn [fst snd] in *.
    destruct Hk as [Hdb2 He]. split; [congruence | exact He].
  - destruct Hm as [Hdb He]. split; [exact Hdb|].
    intros e' [= <-]. apply He. reflexivity.
Qed.

Lemma reads_only_weaken {A : Type} (P Q : Py.exn -> Prop) (m : M world A) :
  (forall e, P e -> Q e) -> reads_only P m -> reads_only Q m.
Proof.
  intros HPQ Hm w. destruct (Hm w) as [Hdb He]. split; auto.
Qed.

Lemma reads_only_ret {A : Type} (P : Py.exn -> Prop) (a : A) :
  reads_only P (ret a).
Proof. intro w. split; [reflexivity | discriminate]. Qed.

Lemma reads_only_now (env : environment) (P : Py.exn -> Prop) :
  reads_only P (datetime_now env).
Proof. intro w. split; [reflexivity | discriminate]. Qed.

Lemma reads_only_query (env : environment) (P : Py.exn -> Prop)
  (q : string) :
  reads_only P (query env q).
Proof.
  intro w. unfold query.
  destruct (requests_get_json env _ _ _); split;
    try reflexivity; discriminate.
Qed.

Lemma float_of_json_raises (env : environment) (v : Py.json) (e : Py.exn) :
  float_of_json env v = Py.Raise e ->
  e = Py.TypeError \/ e = Py.ValueError \/ e = Py.OverflowError.
Proof.
  destruct v as [|b|n|x|s|items|fields]; cbn; try discriminate;
    try (intros [= <-]; auto).
  - unfold Py.to_float. destruct (PrimFloat.is_infinity _);
      [intros [= <-]; auto | discriminate].
  - destruct (float_of_str env s); [discriminate | intros [= <-]; auto].
Qed.

Lemma getitem_raises (v : Py.json) (k : string) (e : Py.exn) :
  Py.getitem v k = Py.Raise e -> e = Py.TypeError \/ e = Py.KeyError.
Proof.
  destruct v; cbn; try (intros [= <-]; auto).
  destruct (Py.lookup k fields); [discriminate | intros [= <-]; auto].
Qed.

Lemma getindex_raises (v : Py.json) (i : nat) (e : Py.exn) :
  Py.getindex v i = Py.Raise e ->
  e = Py.TypeError \/ e = Py.KeyError \/ e = Py.IndexError.
Proof.
  destruct v; cbn; try (intros [= <-]; auto).
  - destruct (String.get i s); [discriminate | intros [= <-]; auto].
  - destruct (nth_error items i); [discriminate | intros [= <-]; auto].
Qed.

(** What the body of the [try] can raise. *)
Lemma extract_try_raises (env : environment) (response : Py.json)
  (e : Py.exn) :
  extract_try env response = Py.Raise e ->
  e = Py.TypeError \/ e = Py.KeyError \/ e = Py.IndexError
  \/ e = Py.ValueError \/ e = Py.OverflowError.
Proof.
  unfold extract_try, Py.bind.
  repeat match goal with
         | |- context [match Py.getitem ?v ?k with _ => _ end] =>
             let H := fresh "H" in
             destruct (Py.getitem v k) eqn:H;
             [|apply getitem_raises in H; intros [= <-]; tauto]
         | |- context [match Py.getindex ?v ?i with _ => _ end] =>
             let H := fresh "H" in
             destruct (Py.getindex v i) eqn:H;
             [|apply getindex_raises in H; intros [= <-]; tauto]
         | |- context [match float_of_json ?env ?v with _ => _ end] =>
             let H := fresh "H" in
             destruct (float_of_json env v) eqn:H;
             [|apply float_of_json_raises in H; intros [= <-]; tauto]
         | |- context [if ?b then _ else _] => destruct b
         end; discriminate.
Qed.

(** What escapes the handler of [_extract_value]. *)
Lemma extract_value_raises (env : environment) (response : Py.json)
  (e : Py.exn) :
  _extract_value env response = Py.Raise e ->
  e = Py.TypeError \/ e = Py.OverflowError.
Proof.
  unfold _extract_value.
  destruct (extract_try env response) as [[x|]|e'] eqn:Htry;
    try discriminate.
  apply extract_try_raises in Htry.
  destruct e'; try discriminate; intros [= <-]; auto;
    destruct Htry as [H | [H | [H | [H | H]]]]; discriminate.
Qed.

(** X9. [_extract_value] raises nothing but [TypeError] and
    [OverflowError]: a missing key, a missing sample and a text that is no
    number all read as 0.0, while a reading that is JSON null raises the
    first and an integer reading beyond the largest double raises the
    second. *)
Theorem extract_value_raises_TypeError_or_OverflowError :
  forall (env : environment) (response : Py.json) (e : Py.exn),
    _extract_value env response = Py.Raise e ->
    (e = Py.TypeError \/ e = Py.OverflowError)
    /\ _extract_value env (response_with Py.JNull) = Py.Raise Py.TypeError
    /\ _extract_value env (response_with (Py.JInt (2 ^ 1024)))
       = Py.Raise Py.OverflowError.
Proof.
  intros env response e Hraise.
  split; [exact (extract_value_raises env response e Hraise)|].
  split; vm_compute; reflexivity.
Qed.

Lemma extract_value_raises_witness :
  (Py.OverflowError = Py.TypeError \/ Py.OverflowError = Py.OverflowError)
  /\ _extract_value demo_env (response_with Py.JNull) = Py.Raise Py.TypeError
  /\ _extract_value demo_env (response_with (Py.JInt (2 ^ 1024)))
     = Py.Raise Py.OverflowError.
Proof.
  apply (extract_value_raises_TypeError_or_OverflowError demo_env
           (response_with (Py.JInt (2 ^ 1024))) Py.OverflowError).
  vm_compute. reflexivity.
Defined.

(** X10. A response that is a JSON object whose status is absent or is not
    the text success reads as 0.0, whatever else it holds. *)
Theorem extract_value_without_success :
  forall (env : environment) (fields : list (string * Py.json)),
    (forall v, Py.lookup "status" fields = Some v ->
               Py.eq_str v "success" = false) ->
    _extract_value env (Py.JDict fields) = Py.Ok 0%float.
Proof.
  intros env fields Hstatus. unfold _extract_value, extract_try.
  cbn [Py.getitem Py.bind].
  destruct (Py.lookup "status" fields) as [v|]; cbn [Py.bind];
    [|reflexivity].
  rewrite (Hstatus v eq_refl). reflexivity.
Qed.

Lemma extract_value_without_success_witness :
  _extract_value demo_env
    (Py.JDict [("status", Py.JStr "error");
               ("data", Py.JDict [("result", Py.JList [])])])
  = Py.Ok 0%float.
Proof.
  apply extract_value_without_success.
  intros v [= <-]. reflexivity.
Defined.

(** X11. On a success response with at least one sample, [_extract_value]
    reads the second element of the value of the first sample: it returns
    the number [float] makes of it, 0.0 when [float] refuses its text, and
    raises when it is neither text nor number. The other samples and the
    first element are not looked at. *)
Theorem extract_value_reads_first_sample :
  forall (env : environment) (response data first instant reading : Py.json)
         (samples more : list Py.json),
    Py.getitem response "status" = Py.Ok (Py.JStr "success") ->
    Py.getitem response "data" = Py.Ok data ->
    Py.getitem data "result" = Py.Ok (Py.JList (first :: samples)) ->
    Py.getitem first "value" = Py.Ok (Py.JList (instant :: reading :: more)) ->
    _extract_value env response
    = match float_of_json env reading with
      | Py.Ok x => Py.Ok x
      | Py.Raise Py.ValueError => Py.Ok 0%float
      | Py.Raise e => Py.Raise e
      end.
Proof.
  intros env response data first instant reading samples more
    Hstatus Hdata Hresult Hvalue.
  unfold _extract_value, extract_try.
  rewrite Hstatus. cbn [Py.bind Py.eq_str]. rewrite String.eqb_refl.
  rewrite Hdata. cbn [Py.bind]. rewrite Hresult.
  cbn [Py.bind Py.truthy List.length Nat.eqb negb Py.getindex nth_error].
  rewrite Hvalue. cbn [Py.bind Py.getindex nth_error].
  destruct (float_of_json env reading) as [x|e] eqn:Hfloat; cbn [Py.bind];
    [reflexivity|].
  destruct (float_of_json_raises env reading e Hfloat) as [-> | [-> | ->]];
    reflexivity.
Qed.

Lemma extract_value_reads_first_sample_witness :
  _extract_value (source_env (Py.JStr "NaN")) (response_with (Py.JStr "NaN"))
  = match float_of_json (source_env (Py.JStr "NaN")) (Py.JStr "NaN") with
    | Py.Ok x => Py.Ok x
    | Py.Raise Py.ValueError => Py.Ok 0%float
    | Py.Raise e => Py.Raise e
    end.
Proof.
  exact (extract_value_reads_first_sample (source_env (Py.JStr "NaN"))
           (response_with (Py.JStr "NaN")) _ _ _ _ [] []
           eq_refl eq_refl eq_refl eq_refl).
Defined.

Lemma reads_only_read (env : environment) (q : string) :
  reads_only (fun e => e = Py.TypeError \/ e = Py.OverflowError)
    (read env q).
Proof.
  unfold read. apply reads_only_bind; [apply reads_only_query|].
  intros response w. unfold lift. cbn [fst snd]. split; [reflexivity|].
  apply extract_value_raises.
Qed.

Lemma int_zero : Py.int 0 = Py.Ok 0.
Proof. vm_compute. reflexivity. Qed.

Lemma int_raises (x : float) (e : Py.exn) :
  Py.int x = Py.Raise e -> e = Py.ValueError \/ e = Py.OverflowError.
Proof.
  unfold Py.int. destruct (Prim2SF x); try discriminate;
    intros [= <-]; auto.
Qed.

Lemma reads_only_collect (env : environment) (service_name : string) :
  reads_only collect_error (collect_service_metrics env service_name).
Proof.
  unfold collect_service_metrics.
  repeat first
    [ apply reads_only_ret
    | apply reads_only_now
    | (apply reads_only_bind;
       [ first
           [ apply (reads_only_weaken
                      (fun e => e = Py.TypeError \/ e = Py.OverflowError));
             [ unfold collect_error; tauto | apply reads_only_read]
           | apply reads_only_now
           | (intro w; unfold lift; cbn [fst snd]; split; [reflexivity|];
              intros e He; apply int_raises in He; unfold collect_error;
              tauto) ]
       | intro ]) ].
Qed.

(** The reading of a query whose request fails. *)
Lemma read_unreachable (env : environment) (q : string) (w : world) :
  (forall k url q', exists e, requests_get_json env k url q' = Py.Raise e) ->
  read env q w
  = (Py.Ok 0%float, mk_world (db w) (clock_reads w) (S (http_calls w))).
Proof.
  intro Hdown. unfold read, mbind, query.
  destruct (Hdown (http_calls w) (PROMETHEUS_URL ++ "/api/v1/query") q)
    as [e ->].
  reflexivity.
Qed.

(** X12. [collect_service_metrics] never writes the database, and when it
    raises it is with [TypeError], [ValueError] or [OverflowError]. When
    every request to the metric source fails, it returns the record of the
    entity with every reading 0.0 and both counts 0, stamped with the
    clock, after nine requests. *)
Theorem collect_service_metrics_unreachable_source :
  forall (env : environment) (service_name : string) (w : world),
    reads_only collect_error (collect_service_metrics env service_name)
    /\ ((forall k url q,
            exists e, requests_get_json env k url q = Py.Raise e) ->
        collect_service_metrics env service_name w
        = (Py.Ok (zero_metrics service_name (now env (clock_reads w))),
           mk_world (db w) (S (clock_reads w)) (9 + http_calls w))).
Proof.
  intros env service_name w. split; [apply reads_only_collect|].
  intro Hdown. unfold collect_service_metrics, mbind, lift.
  repeat (rewrite (read_unreachable env _ _ Hdown);
          cbn [db clock_reads http_calls]).
  rewrite int_zero.
  repeat (rewrite (read_unreachable env _ _ Hdown);
          cbn [db clock_reads http_calls]).
  reflexivity.
Qed.

Lemma collect_service_metrics_unreachable_witness :
  collect_service_metrics demo_env "svc-a" empty_world
  = (Py.Ok (zero_metrics "svc-a" (now demo_env 0)),
     mk_world (db empty_world) 1 9).
Proof.
  apply (collect_service_metrics_unreachable_source demo_env "svc-a"
           empty_world).
  intros k url q. exists Py.RequestException. reflexivity.
Defined.

(** ** What detection and storage touch *)

Lemma detect_loop_services (env : environment) (service_name : string)
  (X recent : list (list float)) :
  forall (scored : list (float * Z)) (idx : nat) (acc : list Anomaly.t)
         (w : world),
    services_rows
      (db (snd (detect_loop env service_name X recent idx scored acc w)))
    = services_rows (db w).
Proof.
  induction scored as [|[score p] rest IH]; intros idx acc w;
    cbn [detect_loop]; [reflexivity|].
  destruct (p =? 1); [|apply IH].
  destruct (nth_error recent idx); [|reflexivity].
  unfold mbind at 1. cbn [datetime_now].
  unfold mbind at 1. unfold _store_anomaly at 1.
  unfold mbind at 1. cbn [datetime_now execute db clock_reads http_calls
                          insert_metrics_anomalies].
  rewrite IH. reflexivity.
Qed.

(** The anomalies returned do not depend on what the database holds beside
    the window. *)
Lemma detect_loop_result (env : environment) (service_name : string)
  (X recent : list (list float)) :
  forall (scored : list (float * Z)) (idx : nat) (acc : list Anomaly.t)
         (w1 w2 : world),
    clock_reads w1 = clock_reads w2 ->
    fst (detect_loop env service_name X recent idx scored acc w1)
    = fst (detect_loop env service_name X recent idx scored acc w2).
Proof.
  induction scored as [|[score p] rest IH]; intros idx acc w1 w2 Hclock;
    cbn [detect_loop]; [reflexivity|].
  destruct (p =? 1); [|apply IH; exact Hclock].
  destruct (nth_error recent idx); [|reflexivity].
  unfold mbind, _store_anomaly. unfold mbind.
  cbn [datetime_now execute db clock_reads http_calls
       insert_metrics_anomalies].
  rewrite Hclock. apply IH. reflexivity.
Qed.

(** What a call of [detect_anomalies] does to the database. *)
Lemma detect_anomalies_effect (env : environment) (service_name : string)
  (w : world) :
  service_metrics_rows (db (snd (detect_anomalies env service_name w)))
  = service_metrics_rows (db w)
  /\ services_rows (db (snd (detect_anomalies env service_name w)))
     = services_rows (db w)
  /\ exists stored,
       metrics_anomalies_rows
         (db (snd (detect_anomalies env service_name w)))
       = (metrics_anomalies_rows (db w) ++ stored)%list
       /\ match fst (detect_anomalies env service_name w) with
          | Py.Ok anomalies => List.length stored = List.length anomalies
          | Py.Raise _ => stored = []
          end.
Proof.
  assert (services_rows (db (snd (detect_anomalies env service_name w)))
          = services_rows (db w)) as Hservices.
  { unfold detect_anomalies, mbind at 1. rewrite get_metric_features_runs.
    destruct (_ <? _)%nat; [reflexivity|].
    destruct (float64 _) as [X|]; [|reflexivity].
    unfold mbind, lift. destruct (ECOD_fit env X) as [[scores preds]|e];
      [|reflexivity].
    rewrite detect_loop_services. reflexivity. }
  split; [|split; [exact Hservices|]];
    destruct (detect_anomalies_outcome env service_name w)
      as [Hlt | Hge HX | X e Hge HX Hfit
          | X scores predictions anomalies stored w' Hge HX Hfit Hrep Hper
              Hrows Hmet]; cbn [fst snd db]; try reflexivity; try assumption;
    try (exists []; rewrite app_nil_r; split; reflexivity).
  exists stored. split; [exact Hrows|].
  symmetry. exact (Forall2_length Hper).
Qed.

Lemma store_metrics_effect (env : environment) (m : ServiceMetrics.t)
  (w : world) :
  services_rows (db (snd (store_metrics env m w))) = services_rows (db w)
  /\ metrics_anomalies_rows (db (snd (store_metrics env m w)))
     = metrics_anomalies_rows (db w)
  /\ clock_reads (snd (store_metrics env m w)) = clock_reads w
  /\ (key_invariant (db w) ->
      key_invariant (db (snd (store_metrics env m w))))
  /\ (fst (store_metrics env m w) = Py.Ok tt ->
      exists id,
        rows_with_key (metrics_key env m) (db (snd (store_metrics env m w)))
        = [row_of_values id (values_of_metrics env m)]).
Proof.
  split; [|split; [|split; [|split; [apply store_metrics_invariant|]]]];
    destruct (store_metrics_outcome env m w) as [[Hfit [id Hrun]] | [_ Hrun]];
    try (rewrite Hrun; reflexivity).
  - intros _.
    destruct (store_metrics_upsert env m w Hfit) as [w' [id' [Hrun' [Hkey _]]]].
    rewrite Hrun'. exists id'. exact Hkey.
  - rewrite Hrun. discriminate.
Qed.

(** ** Collection on demand *)

(** X8. [trigger_collection] never raises: it answers 200 or 500. When it
    answers 200, the record it reports is in the store, the only one of
    its key, and the count it reports is the number of rows the call added
    to the anomaly table. When it answers 500, no anomaly was added. In
    both cases the registry is untouched and the store keeps one record
    per key. *)
Theorem trigger_collection_reports :
  forall (env : environment) (service_name : string) (w : world),
    exists resp w',
      trigger_collection env service_name w = (Py.Ok resp, w')
      /\ services_rows (db w') = services_rows (db w)
      /\ (key_invariant (db w) -> key_invariant (db w'))
      /\ match body resp with
         | Triggered metrics anomalies_detected =>
             status_code resp = 200
             /\ ServiceMetrics.service_name metrics = service_name
             /\ (exists id,
                    rows_with_key (metrics_key env metrics) (db w')
                    = [row_of_values id (values_of_metrics env metrics)])
             /\ exists stored,
                  metrics_anomalies_rows (db w')
                  = (metrics_anomalies_rows (db w) ++ stored)%list
                  /\ List.length stored = anomalies_detected
         | TriggerFailed e =>
             status_code resp = 500
             /\ metrics_anomalies_rows (db w')
                = metrics_anomalies_rows (db w)
         end.
Proof.
  intros env service_name w.
  unfold trigger_collection, try_except. unfold mbind at 1.
  destruct (reads_only_collect env service_name w) as [Hdb _].
  destruct (collect_service_metrics env service_name w) as [[metrics|e] w1]
    eqn:Hcollect; cbn [fst snd] in Hdb.
  2:{ eexists. eexists. split; [reflexivity|]. cbn. rewrite Hdb.
      repeat split; auto. }
  assert (ServiceMetrics.service_name metrics = service_name) as Hname.
  { revert Hcollect. unfold collect_service_metrics, mbind.
    repeat match goal with
           | |- context [match ?m ?s with _ => _ end] =>
               destruct (m s) as [[?|?] ?]; try discriminate
           | |- context [let (_, _) := ?m ?s in _] =>
               destruct (m s) as [[?|?] ?]; try discriminate
           end.
    unfold ret. intros [= <- _]. reflexivity. }
  unfold mbind at 1.
  destruct (store_metrics_effect env metrics w1)
    as [Hsvc [Hanom [_ [Hinv Hkey]]]].
  destruct (store_metrics env metrics w1) as [[[]|e] w2]; cbn [fst snd] in *.
  2:{ eexists. eexists. split; [reflexivity|]. cbn [body status_code].
      split; [congruence|]. split; [rewrite <- Hdb; exact Hinv|].
      split; [reflexivity | congruence]. }
  destruct (Hkey eq_refl) as [id Hrow]. unfold mbind.
  destruct (detect_anomalies_effect env service_name w2)
    as [Hmet [Hsvc2 [stored [Hrows Hcount]]]].
  destruct (detect_anomalies env service_name w2) as [[anomalies|e] w3];
    cbn [fst snd] in *.
  - eexists. eexists. split; [reflexivity|]. cbn [body status_code].
    split; [congruence|]. split.
    { intro H. unfold key_invariant in *. rewrite Hmet. apply Hinv.
      rewrite Hdb. exact H. }
    split; [reflexivity|]. split; [exact Hname|]. split.
    + exists id. unfold rows_with_key in *. rewrite Hmet. exact Hrow.
    + exists stored. split; [|exact Hcount]. rewrite Hrows, Hanom, Hdb.
      reflexivity.
  - eexists. eexists. split; [reflexivity|]. cbn [body status_code].
    split; [congruence|]. split.
    { intro H. unfold key_invariant in *. rewrite Hmet. apply Hinv.
      rewrite Hdb. exact H. }
    split; [reflexivity|]. subst stored.
    rewrite Hrows, app_nil_r, Hanom, Hdb. reflexivity.
Qed.

(** ** Entities do not interfere *)

Lemma filter_both {A : Type} (f g : A -> bool) (l : list A) :
  filter (fun x => f x && g x) l = filter g (filter f l).
Proof.
  induction l as [|a l IH]; cbn; [reflexivity|].
  destruct (f a); cbn; [destruct (g a)|]; rewrite IH; reflexivity.
Qed.

Lemma select_window_rows_of (name cutoff : string) (d : database) :
  select_window name cutoff d
  = order_by_timestamp_desc
      (filter (fun r => String.ltb cutoff (service_metrics.timestamp r))
              (rows_of name d)).
Proof. unfold select_window, rows_of. rewrite filter_both. reflexivity. Qed.

Lemma select_history_rows_of (name cutoff : string) (d : database) :
  select_history name cutoff d
  = order_by service_metrics.timestamp ASC
      (filter (fun r => String.ltb cutoff (service_metrics.timestamp r))
              (rows_of name d)).
Proof. unfold select_history, rows_of. rewrite filter_both. reflexivity. Qed.

Lemma rows_of_store_other (env : environment) (m : ServiceMetrics.t)
  (w : world) (name : string) :
  ServiceMetrics.service_name m <> name ->
  rows_of name (db (snd (store_metrics env m w))) = rows_of name (db w).
Proof.
  intro Hother.
  destruct (store_metrics_outcome env m w) as [[Hfit _] | [_ Hrun]];
    [|rewrite Hrun; reflexivity].
  destruct (store_metrics_returns env m w Hfit) as [w' [id [Hrun [Hrows _]]]].
  rewrite Hrun. cbn [snd]. unfold rows_of. rewrite Hrows, filter_app.
  cbn [filter row_of_values service_metrics.service_name values_of_metrics
       v_service_name].
  apply String.eqb_neq in Hother. rewrite Hother, app_nil_r.
  apply filter_twice. intros x _. unfold has_key, metrics_key. cbn [fst snd].
  destruct (String.eqb_spec (service_metrics.service_name x) name)
    as [-> | _]; [|reflexivity].
  rewrite String.eqb_sym, Hother. reflexivity.
Qed.

Lemma detect_anomalies_result (env : environment) (name : string)
  (w1 w2 : world) :
  clock_reads w1 = clock_reads w2 ->
  window env name w1 = window env name w2 ->
  fst (detect_anomalies env name w1) = fst (detect_anomalies env name w2).
Proof.
  intros Hclock Hwindow. unfold detect_anomalies, mbind at 1 3.
  rewrite !get_metric_features_runs, Hwindow.
  destruct (_ <? _)%nat; [reflexivity|].
  destruct (float64 _) as [X|]; [|reflexivity].
  unfold mbind, lift. destruct (ECOD_fit env X) as [[scores preds]|e];
    [|reflexivity].
  apply detect_loop_result. cbn. rewrite Hclock. reflexivity.
Qed.

(** X14. Storing a record of one entity changes nothing of what is read for
    another: the other entity's records, its detection window, the anomalies
    a detection returns for it, its latest record and its history are what
    they were. *)
Theorem store_metrics_leaves_other_entities :
  forall (env : environment) (m : ServiceMetrics.t) (w : world)
         (name : string),
    ServiceMetrics.service_name m <> name ->
    let w' := snd (store_metrics env m w) in
    rows_of name (db w') = rows_of name (db w)
    /\ window env name w' = window env name w
    /\ fst (detect_anomalies env name w') = fst (detect_anomalies env name w)
    /\ latest_of name (db w') = latest_of name (db w)
    /\ forall cutoff,
         select_history name cutoff (db w')
         = select_history name cutoff (db w).
Proof.
  intros env m w name Hother w'.
  pose proof (rows_of_store_other env m w name Hother) as Hrows.
  destruct (store_metrics_effect env m w) as [_ [_ [Hclock _]]].
  fold w' in Hrows, Hclock.
  assert (window env name w' = window env name w) as Hwindow.
  { unfold window. rewrite !select_window_rows_of, Hrows, Hclock.
    reflexivity. }
  split; [exact Hrows|]. split; [exact Hwindow|]. split.
  { apply detect_anomalies_result; assumption. }
  split.
  { unfold latest_of. rewrite Hrows. reflexivity. }
  intro cutoff. rewrite !select_history_rows_of, Hrows. reflexivity.
Qed.

Lemma store_metrics_other_entity_witness :
  fst (detect_anomalies demo_env "svc-a"
         (snd (store_metrics demo_env (sample_metrics 0.5) demo_world)))
  = fst (detect_anomalies demo_env "svc-a" demo_world).
Proof.
  apply (store_metrics_leaves_other_entities demo_env (sample_metrics 0.5)
           demo_world "svc-a").
  discriminate.
Defined.

(** ** The pipeline over time *)

Lemma evolves_from_refl (d : database) : evolves_from d d.
Proof.
  split; [auto|]. split; [reflexivity|]. exists []. now rewrite app_nil_r.
Qed.

Lemma evolves_from_trans (d0 d1 d2 : database) :
  evolves_from d0 d1 -> evolves_from d1 d2 -> evolves_from d0 d2.
Proof.
  intros [Hk1 [Hs1 [a1 Ha1]]] [Hk2 [Hs2 [a2 Ha2]]].
  split; [auto|]. split; [congruence|].
  exists (a1 ++ a2)%list. rewrite Ha2, Ha1, app_assoc. reflexivity.
Qed.

Lemma run_entity_evolves (env : environment) (service_name : string)
  (w : world) :
  evolves_from (db w)
    (db (snd (run_entity (pipeline env) service_name w))).
Proof.
  unfold run_entity. cbn [pipeline collect store detect]. unfold mbind.
  destruct (reads_only_collect env service_name w) as [Hdb _].
  destruct (collect_service_metrics env service_name w) as [[metrics|e] w1];
    cbn [fst snd] in *.
  2:{ rewrite Hdb. apply evolves_from_refl. }
  rewrite <- Hdb.
  destruct (store_metrics_effect env metrics w1)
    as [Hsvc [Hanom [_ [Hinv _]]]].
  assert (evolves_from (db w1) (db (snd (store_metrics env metrics w1))))
    as Hstore.
  { split; [exact Hinv|]. split; [exact Hsvc|].
    exists []. rewrite app_nil_r. exact Hanom. }
  destruct (store_metrics env metrics w1) as [[[]|e] w2]; cbn [fst snd] in *;
    [|exact Hstore].
  apply evolves_from_trans with (db w2); [exact Hstore|].
  destruct (detect_anomalies_effect env service_name w2)
    as [Hmet [Hsvc2 [stored [Hrows _]]]].
  assert (evolves_from (db w2)
            (db (snd (detect_anomalies env service_name w2)))) as Hdetect.
  { split; [unfold key_invariant; rewrite Hmet; auto|].
    split; [exact Hsvc2|]. exists stored. exact Hrows. }
  destruct (detect_anomalies env service_name w2) as [[anomalies|e] w3];
    exact Hdetect.
Qed.

Lemma after_services_evolves (env : environment) (services : list string) :
  forall w,
    evolves_from (db w) (db (fst (after_services (pipeline env) services w))).
Proof.
  induction services as [|name rest IH]; intro w; cbn [after_services].
  - apply evolves_from_refl.
  - pose proof (run_entity_evolves env name w) as Hrun.
    destruct (run_entity (pipeline env) name w) as [r w1]. cbn [snd] in Hrun.
    specialize (IH w1).
    destruct (after_services (pipeline env) rest w1) as [w2 evs].
    cbn [fst] in *. exact (evolves_from_trans _ _ _ Hrun IH).
Qed.

Lemma tick_evolves (env : environment) (s : world * list event) :
  evolves_from (db (fst s)) (db (fst (snd (tick (pipeline env) s)))).
Proof.
  rewrite tick_returns. cbn [snd pipeline active_services].
  unfold select_active_services. cbn [fst].
  apply after_services_evolves.
Qed.

(** X18. However long the scheduler of the application runs, and whatever
    the metric source and the model do, it never raises, and the database
    it leaves differs from the one it started with only as the pipeline
    allows: the store still holds one metric record per key if it did, the
    registry is the same, and the anomaly table is the old one with rows
    added after it. *)
Theorem background_collector_evolves :
  forall (env : environment) (fuel : nat) (s : world * list event),
    exists s',
      background_collector (pipeline env) fuel s = Looping s'
      /\ evolves_from (db (fst s)) (db (fst s')).
Proof.
  intros env fuel. induction fuel as [|fuel IH]; intro s;
    cbn [background_collector].
  - exists s. split; [reflexivity | apply evolves_from_refl].
  - pose proof (tick_evolves env s) as Htick.
    rewrite tick_returns in *. cbn [snd] in Htick.
    match goal with
    | |- context [background_collector _ fuel ?s1] =>
        destruct (IH s1) as [s' [Hrun Hs']]
    end.
    exists s'. split; [exact Hrun|].
    exact (evolves_from_trans _ _ _ Htick Hs').
Qed.

(** ** Anomalies on the query surface *)

(** What [get_anomalies] returns, by its arguments and the clock. *)
Lemma get_anomalies_rows (env : environment)
  (int_of_str : string -> option Z) (service hours : option string)
  (w : world) :
  db (snd (get_anomalies env int_of_str service hours w)) = db w
  /\ match hours_asked int_of_str hours with
     | None =>
         get_anomalies env int_of_str service hours w
         = (Py.Raise Py.ValueError, w)
     | Some h =>
         match minus_hours (now env (clock_reads w)) h with
         | Py.Raise e =>
             e = Py.OverflowError
             /\ fst (get_anomalies env int_of_str service hours w)
                = Py.Raise Py.OverflowError
         | Py.Ok cutoff =>
             fst (get_anomalies env int_of_str service hours w)
             = Py.Ok (mk_response 200
                        (map anomaly_entry
                           (select_anomalies (given service)
                              (isoformat env cutoff) (db w))))
         end
     end.
Proof.
  unfold get_anomalies, hours_asked, hours_argument, mbind, lift,
    datetime_now.
  destruct hours as [text|]; [destruct (int_of_str text) as [h|]|];
    cbn [db clock_reads http_calls fst snd]; try (split; reflexivity).
  all: match goal with
       | |- context [minus_hours ?t ?h] =>
           destruct (minus_hours t h) as [cutoff|e] eqn:Hcut
       end.
  all: cbn [db fst snd]; split; try reflexivity.
  all: split; [exact (minus_hours_raises _ _ _ Hcut)|];
       rewrite (minus_hours_raises _ _ _ Hcut); reflexivity.
Qed.

(** X6. [get_anomalies] never writes the database. It raises [ValueError]
    when [int] refuses the text of its [hours] argument and
    [OverflowError] when the hours are more than a [timedelta] or a date
    can hold. Otherwise it answers 200 with exactly the stored anomalies
    later than the cut-off, of the entity asked for or, without one, of
    all entities, each once, latest first, those of one timestamp in the
    order they were stored. *)
Theorem get_anomalies_selects :
  forall (env : environment) (int_of_str : string -> option Z)
         (service hours : option string) (w : world),
    db (snd (get_anomalies env int_of_str service hours w)) = db w
    /\ match hours_asked int_of_str hours with
       | None =>
           get_anomalies env int_of_str service hours w
           = (Py.Raise Py.ValueError, w)
       | Some h =>
           match minus_hours (now env (clock_reads w)) h with
           | Py.Raise e =>
               e = Py.OverflowError
               /\ fst (get_anomalies env int_of_str service hours w)
                  = Py.Raise Py.OverflowError
           | Py.Ok cutoff =>
               let selected :=
                 filter
                   (fun r =>
                      match given service with
                      | Some name =>
                          String.eqb (metrics_anomalies.service_name r) name
                      | None => true
                      end
                      && String.ltb (isoformat env cutoff)
                           (metrics_anomalies.timestamp r))
                   (metrics_anomalies_rows (db w)) in
               exists rows,
                 fst (get_anomalies env int_of_str service hours w)
                 = Py.Ok (mk_response 200 (map anomaly_entry rows))
                 /\ Permutation rows selected
                 /\ StronglySorted
                      (in_order metrics_anomalies.timestamp DESC) rows
                 /\ forall t,
                      filter (fun r =>
                                String.eqb (metrics_anomalies.timestamp r) t)
                             rows
                      = filter (fun r =>
                                  String.eqb (metrics_anomalies.timestamp r)
                                    t)
                               selected
           end
       end.
Proof.
  intros env int_of_str service hours w.
  destruct (get_anomalies_rows env int_of_str service hours w)
    as [Hdb Hrun].
  split; [exact Hdb|].
  destruct (hours_asked int_of_str hours) as [h|]; [|exact Hrun].
  destruct (minus_hours (now env (clock_reads w)) h) as [cutoff|e];
    [|exact Hrun].
  intro selected. eexists. split; [exact Hrun|].
  unfold select_anomalies. fold selected.
  split; [apply order_by_perm|]. split; [apply order_by_sorted|].
  intro t. apply order_by_ties.
Qed.

Lemma Forall2_partner {A B : Type} (R : A -> B -> Prop) (l : list A)
  (l' : list B) (a : A) :
  Forall2 R l l' -> In a l -> exists b, In b l' /\ R a b.
Proof.
  induction 1 as [|x y l l' Hxy Hrest IH]; intros []; subst.
  - exists y. split; [left; reflexivity | assumption].
  - destruct (IH H) as [b [Hb Hab]]. exists b. split; [right|]; assumption.
Qed.

Lemma Forall2_source {A B : Type} (R : A -> B -> Prop) (l : list A)
  (l' : list B) (b : B) :
  Forall2 R l l' -> In b l' -> exists a, In a l /\ R a b.
Proof.
  induction 1 as [|x y l l' Hxy Hrest IH]; intros []; subst.
  - exists x. split; [left; reflexivity | assumption].
  - destruct (IH H) as [a [Ha Hab]]. exists a. split; [right|]; assumption.
Qed.

Lemma affected_from_names (env : environment) (X : list (list float))
  (P : string -> Prop) :
  forall (named : list (string * float)) (i : nat) (acc : list string),
    Forall P acc -> Forall (fun p => P (fst p)) named ->
    Forall P (affected_from env X i named acc).
Proof.
  induction named as [|[n v] rest IH]; intros i acc Hacc Hnamed;
    cbn [affected_from]; [exact Hacc|].
  apply Forall_cons_iff in Hnamed. destruct Hnamed as [Hn Hrest].
  destruct (Py.gt _ _); apply IH; auto.
  apply Forall_app. split; [exact Hacc | repeat constructor; exact Hn].
Qed.

Lemma affected_of_names (env : environment) (X : list (list float))
  (feature_vector : list float) :
  Forall (fun name => In name metric_names)
    (affected_of env X feature_vector).
Proof.
  unfold affected_of. apply affected_from_names; [constructor|].
  apply Forall_forall. intros [n v] Hin. cbn.
  apply in_combine_l in Hin. exact Hin.
Qed.

(** The list read back from a row that holds the join of feature names. *)
Lemma read_affected_metrics_join (r : metrics_anomalies.row)
  (affected : list string) :
  Forall (fun name => In name metric_names) affected ->
  metrics_anomalies.affected_metrics r = Py.join ", " affected ->
  read_affected_metrics r = affected.
Proof.
  intros Hall Hjoin. unfold read_affected_metrics. rewrite Hjoin.
  destruct affected as [|name names]; [reflexivity|].
  assert (Py.join ", " (name :: names) <> EmptyString) as Hne.
  { apply Forall_cons_iff in Hall. destruct Hall as [Hname _].
    apply metric_names_plain in Hname. destruct Hname as [_ Hname].
    unfold Py.join. destruct name as [|c name]; [congruence|].
    destruct names; cbn; discriminate. }
  apply String.eqb_neq in Hne. rewrite Hne.
  apply split_join.
  eapply Forall_impl; [|exact Hall].
  intros n Hn. apply metric_names_plain. exact Hn.
Qed.

(** X7. Every anomaly a detection returns for an entity is then served by
    [get_anomalies] for that entity, while its timestamp is later than the
    cut-off: an entry carries its timestamp, severity, score (NULL for a
    NaN) and description, and as affected metrics a list of feature names
    whose comma-separated join is the text the anomaly holds. *)
Theorem detected_anomalies_are_served :
  forall (env : environment) (int_of_str : string -> option Z)
         (name : string) (w w1 : world) (anomalies : list Anomaly.t)
         (hours_text : option string) (hours cutoff : Z),
    name <> EmptyString ->
    detect_anomalies env name w = (Py.Ok anomalies, w1) ->
    hours_asked int_of_str hours_text = Some hours ->
    minus_hours (now env (clock_reads w1)) hours = Py.Ok cutoff ->
    (forall a, In a anomalies ->
               String.ltb (isoformat env cutoff) (Anomaly.timestamp a)
               = true) ->
    exists entries,
      fst (get_anomalies env int_of_str (Some name) hours_text w1)
      = Py.Ok (mk_response 200 entries)
      /\ forall a, In a anomalies ->
           exists e,
             In e entries
             /\ AnomalyEntry.service_name e = name
             /\ AnomalyEntry.timestamp e = Anomaly.timestamp a
             /\ AnomalyEntry.anomaly_type e = "metric_deviation"
             /\ AnomalyEntry.severity e = Anomaly.severity a
             /\ AnomalyEntry.anomaly_score e
                = bind_real (Anomaly.anomaly_score a)
             /\ AnomalyEntry.description e = Anomaly.description a
             /\ Py.join ", " (AnomalyEntry.affected_metrics e)
                = Anomaly.affected_metrics a
             /\ Forall (fun n => In n metric_names)
                  (AnomalyEntry.affected_metrics e).
Proof.
  intros env int_of_str name w w1 anomalies hours_text hours cutoff
    Hname Hrun Hasked Hcut Hrecent.
  destruct (get_anomalies_rows env int_of_str (Some name) hours_text w1)
    as [_ Hget].
  rewrite Hasked, Hcut in Hget.
  assert (given (Some name) = Some name) as Hgiven
    by (destruct name; [contradiction | reflexivity]).
  rewrite Hgiven in Hget.
  eexists. split; [exact Hget|].
  assert (forall r,
             In r (metrics_anomalies_rows (db w1)) ->
             metrics_anomalies.service_name r = name ->
             String.ltb (isoformat env cutoff) (metrics_anomalies.timestamp r)
             = true ->
             In r (select_anomalies (Some name) (isoformat env cutoff)
                     (db w1))) as Hrows.
  { intros r Hin Hsvc Hts. unfold select_anomalies.
    rewrite order_by_In, filter_In, andb_true_iff, String.eqb_eq. auto. }
  intros a Hin.
  pose proof (detect_anomalies_outcome env name w) as Hout.
  rewrite Hrun in Hout.
  inversion Hout as [Hlt Heq | | | X scores predictions anoms stored w2
                                   Hge HX Hfit Hrep Hper Htable Hmet]; subst.
  { destruct Hin. }
  destruct (Forall2_partner _ _ _ a Hper Hin) as [r [Hr Hpersisted]].
  destruct (Forall2_source _ _ _ a Hrep Hin) as [obs [_ Hreports]].
  destruct Hreports as [fv [_ [Hsvc [Htype [_ [_ [Haff _]]]]]]].
  destruct Hpersisted as [Hp1 [Hp2 [Hp3 [Hp4 [Hp5 [Hp6 Hp7]]]]]].
  exists (anomaly_entry r). split.
  { apply in_map. apply Hrows.
    - rewrite Htable. apply in_or_app. right. exact Hr.
    - congruence.
    - rewrite Hp2. apply Hrecent. exact Hin. }
  cbn [anomaly_entry AnomalyEntry.service_name AnomalyEntry.timestamp
       AnomalyEntry.anomaly_type AnomalyEntry.severity
       AnomalyEntry.anomaly_score AnomalyEntry.description
       AnomalyEntry.affected_metrics].
  assert (read_affected_metrics r = affected_of env X fv) as Hread.
  { apply read_affected_metrics_join; [apply affected_of_names|].
    congruence. }
  rewrite Hread.
  repeat (split; [congruence|]).
  apply affected_of_names.
Qed.

Lemma detected_anomalies_are_served_witness :
  exists entries,
    fst (get_anomalies demo_env (fun _ => None) (Some "svc-a") None
           (snd (detect_anomalies demo_env "svc-a" demo_world)))
    = Py.Ok (mk_response 200 entries)
    /\ forall a, In a [demo_anomaly] ->
         exists e,
           In e entries
           /\ AnomalyEntry.service_name e = "svc-a"
           /\ AnomalyEntry.timestamp e = Anomaly.timestamp a
           /\ AnomalyEntry.anomaly_type e = "metric_deviation"
           /\ AnomalyEntry.severity e = Anomaly.severity a
           /\ AnomalyEntry.anomaly_score e
              = bind_real (Anomaly.anomaly_score a)
           /\ AnomalyEntry.description e = Anomaly.description a
           /\ Py.join ", " (AnomalyEntry.affected_metrics e)
              = Anomaly.affected_metrics a
           /\ Forall (fun n => In n metric_names)
                (AnomalyEntry.affected_metrics e).
Proof.
  apply (detected_anomalies_are_served demo_env (fun _ => None) "svc-a"
           demo_world _ [demo_anomaly] None 24 913603000000).
  - discriminate.
  - exact demo_run.
  - reflexivity.
  - vm_compute. reflexivity.
  - intros a [<- | []]. vm_compute. reflexivity.
Defined.

(** ** The detection window *)

(** X13. [get_metric_features] reads the clock once and never raises. Where
    the store holds one record per key, the window it returns is made of
    the records of the entity later than the cut-off of 24 hours and no
    other, each once, in strictly decreasing order of timestamp; so its
    length is the number of those records. *)
Theorem get_metric_features_window :
  forall (env : environment) (service_name : string) (w : world),
    key_invariant (db w) ->
    exists rows,
      get_metric_features env service_name 24 w
      = (Py.Ok (map feature_tuple rows),
         mk_world (db w) (S (clock_reads w)) (http_calls w))
      /\ (forall r,
             In r rows
             <-> In r (service_metrics_rows (db w))
                 /\ service_metrics.service_name r = service_name
                 /\ String.ltb
                      (isoformat env
                         (now env (clock_reads w)
                          - 24 * microseconds_per_hour))
                      (service_metrics.timestamp r) = true)
      /\ StronglySorted (strictly_in_order service_metrics.timestamp DESC)
           rows
      /\ Permutation rows
           (filter (fun r =>
                      String.ltb
                        (isoformat env
                           (now env (clock_reads w)
                            - 24 * microseconds_per_hour))
                        (service_metrics.timestamp r))
                   (rows_of service_name (db w))).
Proof.
  intros env service_name w Hinv.
  eexists. split; [rewrite get_metric_features_runs; reflexivity|].
  match goal with
  | |- context [select_window ?name ?cutoff ?d] =>
      pose proof (select_window_rows name cutoff d) as Hperm;
      pose proof (select_window_newer_first name cutoff d) as Hsorted;
      set (rows := select_window name cutoff d) in *
  end.
  assert (forall r,
             In r rows
             <-> In r (service_metrics_rows (db w))
                 /\ service_metrics.service_name r = service_name
                 /\ String.ltb
                      (isoformat env
                         (now env (clock_reads w)
                          - 24 * microseconds_per_hour))
                      (service_metrics.timestamp r) = true) as Hin.
  { intro r. split; intro H.
    - apply (Permutation_in _ Hperm) in H. apply filter_In in H.
      rewrite andb_true_iff, String.eqb_eq in H. tauto.
    - apply (Permutation_in _ (Permutation_sym Hperm)). apply filter_In.
      rewrite andb_true_iff, String.eqb_eq. tauto. }
  split; [exact Hin|]. split.
  - apply (strictly_sorted_rows DESC service_name).
    + exact Hsorted.
    + apply (Permutation_NoDup
               (Permutation_map metric_key (Permutation_sym Hperm))).
      apply keys_distinct_after_delete. exact Hinv.
    + rewrite Forall_forall. intros r Hr. apply Hin in Hr. tauto.
  - unfold rows_of. rewrite <- filter_both. exact Hperm.
Qed.

Lemma get_metric_features_window_witness :
  exists rows,
    get_metric_features demo_env "svc-a" 24 demo_world
    = (Py.Ok (map feature_tuple rows),
       mk_world (db demo_world) 1 0)
    /\ StronglySorted (strictly_in_order service_metrics.timestamp DESC) rows.
Proof.
  destruct (get_metric_features_window demo_env "svc-a" demo_world
              demo_world_invariant) as [rows [Hrun [_ [Hsorted _]]]].
  exists rows. split; [exact Hrun | exact Hsorted].
Defined.

(** ** Replacement on write *)

Lemma values_of_row_of_values (id : Z) (v : metric_values) :
  values_of_row (row_of_values id v) = v.
Proof. destruct v. reflexivity. Qed.

Lemma filter_idempotent {A : Type} (f : A -> bool) (l : list A) :
  filter f (filter f l) = filter f l.
Proof.
  apply filter_twice. intros x _. destruct (f x); reflexivity.
Qed.

(** X15. [store_metrics] of a record whose counts are signed 64-bit
    numbers returns, leaves every record of another key as it is and in its
    place, and puts after them one row that holds the record: its name,
    timestamp, readings and counts. Storing the same record a second time
    returns as well and changes nothing but the generated id of that row:
    the values the table holds, in order, are those after the first write.
    A record with a count that does not fit is refused with
    [OverflowError] and the world is as it was. *)
Theorem store_metrics_idempotent :
  forall (env : environment) (m : ServiceMetrics.t) (w : world),
    let w1 := snd (store_metrics env m w) in
    let w2 := snd (store_metrics env m w1) in
    (counts_fit m ->
     fst (store_metrics env m w) = Py.Ok tt
     /\ fst (store_metrics env m w1) = Py.Ok tt
     /\ (exists r,
            service_metrics_rows (db w1)
            = (rows_without_key (metrics_key env m) (db w) ++ [r])%list
            /\ holds_record env m r)
     /\ map values_of_row (service_metrics_rows (db w2))
        = map values_of_row (service_metrics_rows (db w1)))
    /\ (~ counts_fit m ->
        store_metrics env m w = (Py.Raise Py.OverflowError, w)).
Proof.
  intros env m w w1 w2. split; [|apply store_metrics_refuses].
  intro Hfit.
  destruct (store_metrics_returns env m w Hfit)
    as [w1' [id1 [Hrun1 [Hrows1 _]]]].
  assert (w1 = w1') as Hw1 by (unfold w1; rewrite Hrun1; reflexivity).
  destruct (store_metrics_returns env m w1 Hfit)
    as [w2' [id2 [Hrun2 [Hrows2 _]]]].
  assert (w2 = w2') as Hw2 by (unfold w2; rewrite Hrun2; reflexivity).
  split; [rewrite Hrun1; reflexivity|].
  split; [rewrite Hrun2; reflexivity|].
  rewrite Hw2, Hrows2, Hw1. clear Hrun2 Hrows2 Hw2 w2' w2.
  assert (filter (fun r => negb (has_key (fst (metrics_key env m))
                                         (snd (metrics_key env m)) r))
                 (service_metrics_rows (db w1'))
          = rows_without_key (metrics_key env m) (db w)) as Hothers.
  { rewrite Hrows1, filter_app, filter_idempotent.
    cbn [filter]. unfold metrics_key at 3 4. cbn [fst snd].
    assert (has_key (ServiceMetrics.service_name m)
                    (isoformat env (ServiceMetrics.timestamp m))
                    (row_of_values id1 (values_of_metrics env m)) = true)
      as -> by (apply has_key_spec; reflexivity).
    cbn. rewrite app_nil_r. reflexivity. }
  rewrite Hothers, Hrows1. fold (rows_without_key (metrics_key env m) (db w)).
  split.
  - eexists. split; [reflexivity|]. apply holds_record_row_of_values.
  - rewrite !map_app. cbn [map]. rewrite !values_of_row_of_values.
    reflexivity.
Qed.

(** ** Scores of stored records *)

Lemma is_nan_Prim2SF (x : float) :
  PrimFloat.is_nan x = true -> Prim2SF x = S754_nan.
Proof.
  unfold PrimFloat.is_nan. rewrite eqb_spec. unfold SFeqb.
  destruct (Prim2SF x) as [s|s| |s m e]; cbn; try reflexivity;
    try (destruct s; discriminate).
  destruct s; rewrite Z.compare_refl, Pcompare_refl; discriminate.
Qed.

Lemma nan_exceeds_nothing (x t : float) :
  PrimFloat.is_nan x = true -> Py.gt x t = false.
Proof.
  intro Hnan. unfold Py.gt. rewrite ltb_spec, (is_nan_Prim2SF x Hnan).
  unfold SFltb. destruct (Prim2SF t); reflexivity.
Qed.

Lemma nan_is_truthy (x : float) :
  PrimFloat.is_nan x = true -> Py.or0 (Some x) = x.
Proof.
  intro Hnan. unfold Py.or0. rewrite eqb_spec, (is_nan_Prim2SF x Hnan).
  reflexivity.
Qed.

(** A stored reading exceeds a threshold when the reading did. *)
Lemma stored_reading_exceeds (x t : float) :
  Py.gt 0 t = false ->
  Py.gt (Py.or0 (bind_real x)) t = Py.gt (Py.or0 (Some x)) t.
Proof.
  intro Hzero. unfold bind_real.
  destruct (PrimFloat.is_nan x) eqn:Hnan.
  - rewrite (nan_is_truthy x Hnan), (nan_exceeds_nothing x t Hnan).
    exact Hzero.
  - destruct (PrimFloat.eqb x 0) eqn:Hx; [|reflexivity].
    unfold Py.or0. rewrite Hx. reflexivity.
Qed.

(** X16. The health score of the row [store_metrics] writes for a record is
    the score of the record's readings as they were collected: a NaN
    reading, stored as NULL and read back as zero, incurs no penalty
    either way. *)
Theorem stored_record_score :
  forall (env : environment) (m : ServiceMetrics.t) (id : Z),
    calculate_health_score (row_of_values id (values_of_metrics env m))
    = calculate_health_score
        (reading_row (ServiceMetrics.error_rate m)
           (ServiceMetrics.latency_p95 m) (ServiceMetrics.cpu_usage m)).
Proof.
  intros env m id. unfold calculate_health_score.
  cbn [row_of_values values_of_metrics reading_row
       service_metrics.error_rate service_metrics.latency_p95
       service_metrics.cpu_usage v_error_rate v_latency_p95 v_cpu_usage].
  rewrite !stored_reading_exceeds by (vm_compute; reflexivity).
  reflexivity.
Qed.

(** ** Descriptions *)

Lemma join_empty_iff (names : list string) :
  Forall (fun n => In n metric_names) names ->
  (Py.join ", " names = EmptyString <-> names = []).
Proof.
  intro Hall. split; [|intros ->; reflexivity].
  destruct names as [|name names]; [reflexivity|].
  apply Forall_cons_iff in Hall. destruct Hall as [Hname _].
  apply metric_names_plain in Hname. destruct Hname as [_ Hname].
  unfold Py.join. destruct name as [|c name]; [congruence|].
  destruct names; cbn; discriminate.
Qed.

Lemma _generate_description_of (severity : string)
  (affected : list string) :
  Forall (fun n => In n metric_names) affected ->
  _generate_description severity affected
  = description_of severity (Py.join ", " affected).
Proof.
  intro Hall. unfold _generate_description, description_of.
  destruct affected as [|name names]; [reflexivity|].
  destruct (String.eqb_spec (Py.join ", " (name :: names)) EmptyString)
    as [Hempty | _]; [|reflexivity].
  apply (join_empty_iff _ Hall) in Hempty. discriminate.
Qed.

(** X17. The description of every anomaly [detect_anomalies] returns agrees
    with its other fields: it is the capitalised severity the anomaly
    holds (Critical, High, Medium or Low) followed, when the anomaly holds
    no affected metric, by the general sentence, and otherwise by the
    sentence that ends in exactly the affected metrics it holds. *)
Theorem detect_anomalies_description :
  forall (env : environment) (service_name : string) (w w' : world)
         (anomalies : list Anomaly.t) (a : Anomaly.t),
    detect_anomalies env service_name w = (Py.Ok anomalies, w') ->
    In a anomalies ->
    Anomaly.description a
    = description_of (Anomaly.severity a) (Anomaly.affected_metrics a)
    /\ In (Py.capitalize (Anomaly.severity a))
          ["Critical"; "High"; "Medium"; "Low"].
Proof.
  intros env service_name w w' anomalies a Hrun Hin.
  destruct (detect_anomalies_reports env service_name w w' anomalies a
              Hrun Hin) as [X [idx [score [_ [_ Hrep]]]]].
  destruct Hrep as [fv [_ [_ [_ [_ [Hsev [Haff Hdesc]]]]]]].
  cbn [snd] in *. rewrite Hdesc, Hsev, Haff. split.
  - apply _generate_description_of. apply affected_of_names.
  - unfold severity_of.
    destruct (Py.gt score 0.9); [cbn; tauto|].
    destruct (Py.gt score 0.7); [cbn; tauto|].
    destruct (Py.gt score 0.5); cbn; tauto.
Qed.

Lemma detect_anomalies_description_witness :
  Anomaly.description demo_anomaly
  = description_of (Anomaly.severity demo_anomaly)
      (Anomaly.affected_metrics demo_anomaly)
  /\ In (Py.capitalize (Anomaly.severity demo_anomaly))
        ["Critical"; "High"; "Medium"; "Low"].
Proof.
  exact (detect_anomalies_description demo_env "svc-a" demo_world _
           [demo_anomaly] demo_anomaly demo_run (or_introl eq_refl)).
Defined.
